(** * Sai Motors management backend: sale workflow and derived fields

    A shallow embedding of the request handlers and Mongoose schemas of the
    dealership backend (bikes, customers, sales, payments, price
    suggestions), together with the properties of the sale workflow that
    the specification states about them.

    Conventions of the embedding.
    - A JavaScript [Number] is an exact rational or one of the IEEE special
      values [Infinity], [-Infinity], [NaN]; the sign of zero is abstracted
      away.  The operations of [Num] are exact; the operations of [B64]
      round their result to binary64 (to nearest, ties to even) as the
      engine does.  The handlers are written with the exact operations;
      the price suggestion, whose [Math.round] of a product depends on the
      last bit, is written with the rounded operations as well ([AI64]).
    - A numeric field of a request body is a JSON number, hence finite when
      it passes a validator; numeric strings (which [isFloat] also accepts,
      up to [1e999]) are outside the embedding.
    - A string is ASCII text: [trim] and [toUpperCase] are those of
      JavaScript on such text.
    - A collection is the list of its documents in insertion order; an
      [ObjectId] is a natural number drawn from a counter of the store.
    - A handler is a state transformer over the store that either continues
      or answers the request; an exception reaches the handler's [catch],
      which answers [500 Server error].
    - [doc.save()] validates the document against its schema, then runs the
      [pre('save')] hook, then writes; a failed validation or a clash on a
      unique index throws.
    - Only the schema paths that the handlers read or write are kept in the
      records. *)

From Stdlib Require Import QArith Qround ZArith Lia Lqa List Bool String Ascii
  DecimalString PeanoNat.
From Stdlib Require Import Permutation Sorted.
Import ListNotations.

Open Scope string_scope.
Open Scope Q_scope.

(** ** JavaScript numbers *)

Inductive number : Type :=
| Fin (q : Q)
| PosInf
| NegInf
| NaN.

Definition Qltb (a b : Q) : bool := negb (Qle_bool b a).

Module Num.

Definition zero : number := Fin 0.

Definition neg (x : number) : number :=
  match x with
  | Fin q => Fin (- q)
  | PosInf => NegInf
  | NegInf => PosInf
  | NaN => NaN
  end.

(** [x + y] *)
Definition add (x y : number) : number :=
  match x, y with
  | NaN, _ | _, NaN => NaN
  | Fin a, Fin b => Fin (a + b)
  | PosInf, NegInf | NegInf, PosInf => NaN
  | PosInf, _ | _, PosInf => PosInf
  | NegInf, _ | _, NegInf => NegInf
  end.

(** [x - y] *)
Definition sub (x y : number) : number := add x (neg y).

(** an infinity of sign [pos] times the finite [q] *)
Definition inf_times (pos : bool) (q : Q) : number :=
  if Qeq_bool q 0 then NaN
  else if Bool.eqb pos (Qltb 0 q) then PosInf else NegInf.

(** [x * y] *)
Definition mul (x y : number) : number :=
  match x, y with
  | NaN, _ | _, NaN => NaN
  | Fin a, Fin b => Fin (a * b)
  | Fin a, PosInf | PosInf, Fin a => inf_times true a
  | Fin a, NegInf | NegInf, Fin a => inf_times false a
  | PosInf, PosInf | NegInf, NegInf => PosInf
  | PosInf, NegInf | NegInf, PosInf => NegInf
  end.

(** [x / y]; a zero divisor is taken as [+0] *)
Definition div (x y : number) : number :=
  match x, y with
  | NaN, _ | _, NaN => NaN
  | Fin a, Fin b =>
      if Qeq_bool b 0 then
        if Qeq_bool a 0 then NaN
        else if Qltb 0 a then PosInf else NegInf
      else Fin (a / b)
  | Fin _, PosInf | Fin _, NegInf => Fin 0
  | PosInf, Fin b => if Qltb b 0 then NegInf else PosInf
  | NegInf, Fin b => if Qltb b 0 then PosInf else NegInf
  | _, _ => NaN
  end.

(** [x < y] *)
Definition ltb (x y : number) : bool :=
  match x, y with
  | Fin a, Fin b => Qltb a b
  | NegInf, Fin _ | NegInf, PosInf | Fin _, PosInf => true
  | _, _ => false
  end.

(** [x <= y] *)
Definition leb (x y : number) : bool :=
  match x, y with
  | NaN, _ | _, NaN => false
  | Fin a, Fin b => Qle_bool a b
  | NegInf, _ | _, PosInf => true
  | _, _ => false
  end.

(** [x > y] and [x >= y] *)
Definition gtb (x y : number) : bool := ltb y x.
Definition geb (x y : number) : bool := leb y x.

(** [x === y] on numbers *)
Definition eqb (x y : number) : bool :=
  match x, y with
  | Fin a, Fin b => Qeq_bool a b
  | PosInf, PosInf | NegInf, NegInf => true
  | _, _ => false
  end.

(** [isNaN(x)] *)
Definition isNaN (x : number) : bool :=
  match x with NaN => true | _ => false end.

(** truthiness of a number: [0] and [NaN] are falsy *)
Definition truthy (x : number) : bool :=
  match x with
  | Fin q => negb (Qeq_bool q 0)
  | NaN => false
  | _ => true
  end.

(** [Math.round]: the nearest integer, halves towards [+Infinity] *)
Definition round (x : number) : number :=
  match x with
  | Fin q => Fin (inject_Z (Qfloor (q + (1 # 2))))
  | _ => x
  end.

(** [Math.ceil] *)
Definition ceil (x : number) : number :=
  match x with
  | Fin q => Fin (inject_Z (Qceiling q))
  | _ => x
  end.

Definition of_nat (n : nat) : number := Fin (inject_Z (Z.of_nat n)).
Definition of_Z (z : Z) : number := Fin (inject_Z z).

(** equality of numbers as values: rationals up to [Qeq] *)
Definition eq (x y : number) : Prop :=
  match x, y with
  | Fin a, Fin b => a == b
  | PosInf, PosInf | NegInf, NegInf | NaN, NaN => True
  | _, _ => False
  end.

Definition le (x y : number) : Prop := leb x y = true.

End Num.

(** truthiness of a nullable number ([null] is falsy) *)
Definition truthy_opt (x : option number) : bool :=
  match x with
  | Some v => Num.truthy v
  | None => false
  end.

(** numeric coercion of a nullable number in arithmetic ([null] is [0]) *)
Definition toNumber (x : option number) : number :=
  match x with
  | Some v => v
  | None => Num.zero
  end.

(** [x || d] on a nullable number *)
Definition or_default (x : option number) (d : number) : number :=
  match x with
  | Some v => if Num.truthy v then v else d
  | None => d
  end.

(** ** Binary64 arithmetic

    The result of an operation is the exact result rounded to the nearest
    binary64 value, ties to the one with an even significand; results of
    magnitude [2^1024] and above become infinite.  On operands that are
    binary64 values these are the operations of IEEE 754. *)

Module B64.

(** the nearest integer, ties to the even one *)
Definition rne (x : Q) : Z :=
  let f := Qfloor x in
  match Qcompare (x - inject_Z f) (1 # 2) with
  | Lt => f
  | Gt => (f + 1)%Z
  | Eq => if Z.even f then f else (f + 1)%Z
  end.

(** [floor (log2 (n / d))] *)
Definition ilog2 (n d : positive) : Z :=
  let e := (Z.log2 (Zpos n) - Z.log2 (Zpos d))%Z in
  if Qle_bool (2 ^ e) (Zpos n # d) then e else (e - 1)%Z.

(** [n / d] rounded to 53 significant bits, or to a multiple of [2^-1074]
    below the normal range; [None] on overflow *)
Definition round_pos (n d : positive) : option Q :=
  let e := ilog2 n d in
  let c := Z.max (e - 52) (-1074) in
  let r := inject_Z (rne ((Zpos n # d) / 2 ^ c)) * 2 ^ c in
  if Qle_bool (2 ^ 1024) r then None else Some r.

Definition round (q : Q) : number :=
  match Qnum q with
  | Z0 => Fin 0
  | Zpos n =>
      match round_pos n (Qden q) with Some r => Fin r | None => PosInf end
  | Zneg n =>
      match round_pos n (Qden q) with Some r => Fin (- r) | None => NegInf end
  end.

Definition lift (x : number) : number :=
  match x with
  | Fin q => round q
  | _ => x
  end.

Definition add (x y : number) : number := lift (Num.add x y).
Definition sub (x y : number) : number := lift (Num.sub x y).
Definition mul (x y : number) : number := lift (Num.mul x y).
Definition div (x y : number) : number := lift (Num.div x y).

(** a decimal literal of the source *)
Definition literal (q : Q) : number := round q.

End B64.

(** ** Strings *)

Definition is_space (c : ascii) : bool :=
  let n := nat_of_ascii c in
  ((n =? 32) || (n =? 9) || (n =? 10) || (n =? 11) || (n =? 12) || (n =? 13))%nat.

Fixpoint trimStart (s : string) : string :=
  match s with
  | EmptyString => EmptyString
  | String c r => if is_space c then trimStart r else s
  end.

Fixpoint trimEnd (s : string) : string :=
  match s with
  | EmptyString => EmptyString
  | String c r =>
      match trimEnd r with
      | EmptyString => if is_space c then EmptyString else String c EmptyString
      | r' => String c r'
      end
  end.

(** [s.trim()] *)
Definition trim (s : string) : string := trimEnd (trimStart s).

(** text within ASCII *)
Definition is_ascii (s : string) : bool :=
  forallb (fun c => (nat_of_ascii c <? 128)%nat) (list_ascii_of_string s).

(** [notEmpty()] of express-validator *)
Definition notEmpty (s : string) : bool :=
  match s with EmptyString => false | _ => true end.

Definition upper_ascii (c : ascii) : ascii :=
  let n := nat_of_ascii c in
  if ((97 <=? n) && (n <=? 122))%nat then ascii_of_nat (n - 32) else c.

(** [s.toUpperCase()] on ASCII text *)
Fixpoint toUpperCase (s : string) : string :=
  match s with
  | EmptyString => EmptyString
  | String c r => String (upper_ascii c) (toUpperCase r)
  end.

Fixpoint repeat_string (n : nat) (c : string) : string :=
  match n with
  | O => EmptyString
  | S k => c ++ repeat_string k c
  end.

(** [s.padStart(n, c)] for a one-character [c] *)
Definition padStart (n : nat) (c : string) (s : string) : string :=
  repeat_string (n - String.length s) c ++ s.

(** [String(n)] / [n.toString()] of a non-negative integer *)
Definition nat_to_string (n : nat) : string :=
  NilZero.string_of_uint (Nat.to_uint n).

(** [list.includes(s)] *)
Definition isIn (l : list string) (s : string) : bool :=
  existsb (String.eqb s) l.

(** ** Mongoose schema validators

    A [Number] path fails to cast [NaN]; [required] rejects [null];
    [min]/[max] skip [null]; a required [String] rejects the empty string;
    [enum] skips [null]. *)

Definition castable (v : number) : bool := negb (Num.isNaN v).

Definition min_ok (m : number) (v : number) : bool := Num.geb v m.
Definition max_ok (m : number) (v : number) : bool := Num.leb v m.

(** a nullable [Number] path with a list of range validators *)
Definition number_path (required : bool) (checks : list (number -> bool))
  (v : option number) : bool :=
  match v with
  | None => negb required
  | Some x => castable x && forallb (fun chk => chk x) checks
  end.

Definition required_string (s : string) : bool := notEmpty s.

Definition present {A : Type} (v : option A) : bool :=
  match v with Some _ => true | None => false end.

Definition n0 : number := Fin 0.
Definition n1 : number := Fin 1.

(** ** models/Bike.js *)

Module Bike.

Definition brands : list string :=
  ["Honda"; "Yamaha"; "Bajaj"; "TVS"; "Hero"; "KTM"; "Royal Enfield";
   "Suzuki"; "Kawasaki"].

Definition statuses : list string := ["available"; "sold"; "reserved"].

Record t : Type := mk {
  _id : nat;
  bikeNumber : string;
  brand : string;
  model : string;
  year : option number;
  buyPrice : option number;
  sellPrice : option number;
  profit : option number;
  profitPercent : option number;
  status : string;
  purchaseDate : option Z;
  sellDate : option Z;
  daysToSell : option number;
  conditionRating : option number;
  saleId : option nat
}.

(** [bikeSchema.pre('save')]: profit and days-to-sell from the stored
    prices and dates *)
Definition pre_save (this : t) : t :=
  let this1 :=
    if truthy_opt (sellPrice this) && truthy_opt (buyPrice this) then
      let profit' := Num.sub (toNumber (sellPrice this)) (toNumber (buyPrice this)) in
      let profitPercent' :=
        Num.mul (Num.div profit' (toNumber (buyPrice this))) (Fin 100) in
      mk (_id this) (bikeNumber this) (brand this) (model this) (year this)
         (buyPrice this) (sellPrice this) (Some profit') (Some profitPercent')
         (status this) (purchaseDate this) (sellDate this) (daysToSell this)
         (conditionRating this) (saleId this)
    else this in
  match sellDate this1, purchaseDate this1 with
  | Some sd, Some pd =>
      let timeDiff := Num.of_Z (sd - pd) in
      let days := Num.ceil (Num.div timeDiff (Fin (1000 * 3600 * 24))) in
      mk (_id this1) (bikeNumber this1) (brand this1) (model this1)
         (year this1) (buyPrice this1) (sellPrice this1) (profit this1)
         (profitPercent this1) (status this1) (purchaseDate this1)
         (sellDate this1) (Some days) (conditionRating this1) (saleId this1)
  | _, _ => this1
  end.

(** schema validation; [yearMax] is [new Date().getFullYear() + 1] taken
    when the schema is built *)
Definition validate (yearMax : number) (b : t) : bool :=
  required_string (bikeNumber b)
  && required_string (brand b) && isIn brands (brand b)
  && required_string (model b)
  && number_path true [min_ok (Fin 1990); max_ok yearMax] (year b)
  && number_path true [min_ok n0] (buyPrice b)
  && number_path false [] (sellPrice b)
  && number_path false [] (profit b)
  && number_path false [] (profitPercent b)
  && isIn statuses (status b)
  && present (purchaseDate b)
  && number_path false [] (daysToSell b)
  && number_path false [min_ok n1; max_ok (Fin 10)] (conditionRating b).

End Bike.

(** ** models/Customer.js *)

Module Customer.

Definition types : list string := ["Regular"; "Premium"; "VIP"].

Record t : Type := mk {
  _id : nat;
  name : string;
  phone : string;
  address : string;
  totalSpent : option number;
  totalBikesBought : option number;
  lastPurchaseDate : option Z;
  customerType : string
}.

Definition set_customerType (c : t) (ty : string) : t :=
  mk (_id c) (name c) (phone c) (address c) (totalSpent c)
     (totalBikesBought c) (lastPurchaseDate c) ty.

(** [customerSchema.pre('save')]: the tier from the total spent; a
    comparison with [null] reads it as [0] *)
Definition pre_save (this : t) : t :=
  if Num.geb (toNumber (totalSpent this)) (Fin 500000) then
    set_customerType this "VIP"
  else if Num.geb (toNumber (totalSpent this)) (Fin 200000) then
    set_customerType this "Premium"
  else
    set_customerType this "Regular".

Definition validate (c : t) : bool :=
  required_string (name c)
  && required_string (phone c)
  && required_string (address c)
  && number_path false [min_ok n0] (totalSpent c)
  && number_path false [min_ok n0] (totalBikesBought c)
  && isIn types (customerType c).

End Customer.

(** ** models/Sale.js *)

Module Sale.

Definition paymentModes : list string :=
  ["Cash"; "UPI"; "Card"; "Bank Transfer"; "Cheque"].

Record t : Type := mk {
  _id : nat;
  saleNumber : string;
  bikeId : nat;
  customerId : nat;
  buyerName : string;
  buyerPhone : string;
  buyerAddress : string;
  sellingPrice : number;
  discount : number;
  finalAmount : number;
  profit : number;
  profitPercent : number;
  paymentMode : string;
  paymentStatus : string;
  invoiceNumber : string;
  invoicePath : option string;
  notes : option string;
  soldBy : nat
}.

Definition set_invoicePath (s : t) (p : string) : t :=
  mk (_id s) (saleNumber s) (bikeId s) (customerId s) (buyerName s)
     (buyerPhone s) (buyerAddress s) (sellingPrice s) (discount s)
     (finalAmount s) (profit s) (profitPercent s) (paymentMode s)
     (paymentStatus s) (invoiceNumber s) (Some p) (notes s) (soldBy s).

(** [saleSchema.pre('save')] has an empty body *)
Definition pre_save (this : t) : t := this.

Definition validate (s : t) : bool :=
  required_string (saleNumber s)
  && required_string (buyerName s)
  && required_string (buyerPhone s)
  && required_string (buyerAddress s)
  && number_path true [min_ok n0] (Some (sellingPrice s))
  && number_path false [min_ok n0] (Some (discount s))
  && number_path true [min_ok n0] (Some (finalAmount s))
  && number_path true [] (Some (profit s))
  && number_path true [] (Some (profitPercent s))
  && required_string (paymentMode s) && isIn paymentModes (paymentMode s)
  && isIn ["Paid"; "Pending"; "Partial"] (paymentStatus s)
  && required_string (invoiceNumber s).

End Sale.

(** ** models/Payment.js *)

Module PaymentLog.

Record t : Type := mk {
  amount : number;
  paymentDate : Z;
  paymentMethod : string;
  notes : option string;
  receivedBy : nat
}.

Definition validate (l : t) : bool :=
  number_path true [min_ok n0] (Some (amount l))
  && required_string (paymentMethod l)
  && isIn Sale.paymentModes (paymentMethod l).

End PaymentLog.

Module Payment.

Definition statuses : list string := ["pending"; "partial"; "completed"].

Record t : Type := mk {
  _id : nat;
  saleId : nat;
  bikeId : nat;
  customerId : nat;
  totalAmount : number;
  paidAmount : number;
  remainingAmount : number;
  status : string;
  paymentLogs : list PaymentLog.t;
  dueDate : option Z;
  notes : option string
}.

(** [paymentSchema.pre('save')]: remaining amount and status from the
    total and the paid amount *)
Definition pre_save (this : t) : t :=
  let remaining := Num.sub (totalAmount this) (paidAmount this) in
  let status' :=
    if Num.eqb (paidAmount this) n0 then "pending"
    else if Num.ltb (paidAmount this) (totalAmount this) then "partial"
    else "completed" in
  mk (_id this) (saleId this) (bikeId this) (customerId this)
     (totalAmount this) (paidAmount this) remaining status'
     (paymentLogs this) (dueDate this) (notes this).

Definition validate (p : t) : bool :=
  number_path true [min_ok n0] (Some (totalAmount p))
  && number_path true [min_ok n0] (Some (paidAmount p))
  && number_path true [min_ok n0] (Some (remainingAmount p))
  && isIn statuses (status p)
  && forallb PaymentLog.validate (paymentLogs p).

End Payment.

(** ** The store and the handler monad *)

Record DB : Type := mkDB {
  bikes : list Bike.t;
  customers : list Customer.t;
  sales : list Sale.t;
  payments : list Payment.t;
  nextId : nat
}.

(** what the price-suggestion endpoint answers *)
Record MarketData : Type := mkMarketData {
  md_avgSellPrice : number;
  md_avgProfit : number;
  md_avgDaysToSell : number;
  sampleSize : nat
}.

Record Suggestion : Type := mkSuggestion {
  suggestedPrice : number;
  confidence : string;
  marketData : option MarketData
}.

Inductive body : Type :=
| Message (m : string)
| InvalidInput
| BikeJson (b : Bike.t)
| CustomerJson (c : Customer.t)
| SaleJson (s : Sale.t)
| PaymentJson (p : Payment.t)
| SuggestionJson (s : Suggestion).

Record Response : Type := mkResponse {
  statusCode : nat;
  json : body
}.

Inductive outcome (A : Type) : Type :=
| Next (a : A)
| Answer (r : Response).
Arguments Next {A} a.
Arguments Answer {A} r.

Definition Handler (A : Type) : Type := DB -> DB * outcome A.

Definition ret {A : Type} (a : A) : Handler A := fun db => (db, Next a).

Definition bind {A B : Type} (m : Handler A) (k : A -> Handler B) : Handler B :=
  fun db =>
    match m db with
    | (db', Next a) => k a db'
    | (db', Answer r) => (db', Answer r)
    end.

Notation "x <- m ;; k" := (bind m (fun x => k))
  (at level 61, m at next level, right associativity).
Notation "m ;;; k" := (bind m (fun _ => k))
  (at level 61, right associativity).

(** [return res.status(code).json(b)] *)
Definition answer {A : Type} (code : nat) (b : body) : Handler A :=
  fun db => (db, Answer (mkResponse code b)).

(** a thrown exception, caught by the handler's [catch] *)
Definition throw {A : Type} : Handler A := answer 500 (Message "Server error").

Definition gets {A : Type} (f : DB -> A) : Handler A := fun db => (db, Next (f db)).

(** the response of a request and the store it leaves *)
Definition run (h : Handler Response) (db : DB) : DB * Response :=
  match h db with
  | (db', Next r) => (db', r)
  | (db', Answer r) => (db', r)
  end.

(** a fresh [ObjectId] for [new Model(...)] *)
Definition newId : Handler nat :=
  fun db =>
    (mkDB (bikes db) (customers db) (sales db) (payments db) (S (nextId db)),
     Next (nextId db)).

(** *** Mongoose models over the store *)

Record Model (A : Type) : Type := mkModel {
  coll : DB -> list A;
  with_coll : list A -> DB -> DB;
  id_of : A -> nat;
  validate : A -> bool;
  pre_save : A -> A;
  (** two documents clash on a unique index *)
  clash : A -> A -> bool
}.
Arguments coll {A} _ _.
Arguments with_coll {A} _ _ _.
Arguments id_of {A} _ _.
Arguments validate {A} _ _.
Arguments pre_save {A} _ _.
Arguments clash {A} _ _ _.

Definition BikeM (yearMax : number) : Model Bike.t :=
  mkModel Bike.t bikes
    (fun l db => mkDB l (customers db) (sales db) (payments db) (nextId db))
    Bike._id (Bike.validate yearMax) Bike.pre_save
    (fun a b => String.eqb (Bike.bikeNumber a) (Bike.bikeNumber b)).

Definition CustomerM : Model Customer.t :=
  mkModel Customer.t customers
    (fun l db => mkDB (bikes db) l (sales db) (payments db) (nextId db))
    Customer._id Customer.validate Customer.pre_save
    (fun a b => String.eqb (Customer.phone a) (Customer.phone b)).

Definition SaleM : Model Sale.t :=
  mkModel Sale.t sales
    (fun l db => mkDB (bikes db) (customers db) l (payments db) (nextId db))
    Sale._id Sale.validate Sale.pre_save
    (fun a b => String.eqb (Sale.saleNumber a) (Sale.saleNumber b)
                || String.eqb (Sale.invoiceNumber a) (Sale.invoiceNumber b)).

Definition PaymentM : Model Payment.t :=
  mkModel Payment.t payments
    (fun l db => mkDB (bikes db) (customers db) (sales db) l (nextId db))
    Payment._id Payment.validate Payment.pre_save
    (fun _ _ => false).

Section ModelOps.
Context {A : Type} (M : Model A).

(** [Model.findById(id)] *)
Definition findById (id : nat) : Handler (option A) :=
  gets (fun db => find (fun d => id_of M d =? id)%nat (coll M db)).

(** [Model.findOne(query)] *)
Definition findOne (query : A -> bool) : Handler (option A) :=
  gets (fun db => find query (coll M db)).

(** [Model.find(query)] *)
Definition findAll (query : A -> bool) : Handler (list A) :=
  gets (fun db => filter query (coll M db)).

(** [Model.countDocuments(query)] *)
Definition countDocuments (query : A -> bool) : Handler nat :=
  gets (fun db => List.length (filter query (coll M db))).

(** the stored documents with [doc] written over its [_id] *)
Definition replace (doc : A) (l : list A) : list A :=
  map (fun d => if (id_of M d =? id_of M doc)%nat then doc else d) l.

(** [doc.save()]: validation, then the [pre('save')] hook, then the write,
    which a unique index can refuse; [isNew] tells an insert from an
    update *)
Definition save (isNew : bool) (doc : A) : Handler A :=
  fun db =>
    if negb (validate M doc) then throw db
    else
      let doc' := pre_save M doc in
      if existsb (fun d => negb (id_of M d =? id_of M doc')%nat && clash M d doc')
                 (coll M db)
      then throw db
      else
        (with_coll M (if isNew then coll M db ++ [doc'] else replace doc' (coll M db)) db,
         Next doc').

(** [Model.findByIdAndDelete(id)] *)
Definition findByIdAndDelete (id : nat) : Handler unit :=
  fun db =>
    (with_coll M (filter (fun d => negb (id_of M d =? id)%nat) (coll M db)) db,
     Next tt).

End ModelOps.

(** what a request sees of its surroundings: the clock, the random draw of
    the sale number, the year bound of the bike schema, and whether the
    invoice file could be written *)
Record Env : Type := mkEnv {
  now : Z;
  fullYear : nat;
  monthIndex : nat;
  random1000 : nat;
  yearMax : number;
  invoiceWritten : bool
}.

(** [isFloat({ min })] of express-validator on a JSON number *)
Definition isFloat_min (m : Q) (v : number) : bool :=
  match v with
  | Fin q => Qle_bool m q
  | _ => false
  end.

(** [isInt({ min, max })] of express-validator on a numeric field *)
Definition isInt_range (lo : Q) (hi : number) (v : number) : bool :=
  match v with
  | Fin q => Qeq_bool q (inject_Z (Qfloor q)) && Qle_bool lo q && Num.leb v hi
  | _ => false
  end.

(** [Object.assign] of one optional key of the request body *)
Definition assign {A : Type} (key : option A) (old : A) : A :=
  match key with
  | Some v => v
  | None => old
  end.

(** ** routes/sales.js *)

Module Sales.

Record Request : Type := mkRequest {
  bikeId : nat;
  buyerName : string;
  buyerPhone : string;
  buyerAddress : string;
  sellingPrice : number;
  discount : option number;
  paymentMode : string;
  notes : option string;
  user : nat
}.

(** the validator chain of [router.post('/')] *)
Definition validationResult (req : Request) : bool :=
  notEmpty (trim (buyerName req))
  && notEmpty (trim (buyerPhone req))
  && notEmpty (trim (buyerAddress req))
  && isFloat_min 0 (sellingPrice req)
  && isIn Sale.paymentModes (paymentMode req).

(** [generateInvoicePDF]: the path of the written file, or a rejection *)
Definition generateInvoicePDF (env : Env) (sale : Sale.t) : Handler string :=
  if invoiceWritten env then
    ret ("/invoices/invoice-" ++ Sale.invoiceNumber sale ++ ".pdf")
  else throw.

(** the destructured body: [discount = 0] when the key is missing *)
Definition discountOf (req : Request) : number := assign (discount req) n0.

(** [const profit = sellingPrice - discount - bike.buyPrice] *)
Definition profit (req : Request) (bike : Bike.t) : number :=
  Num.sub (Num.sub (sellingPrice req) (discountOf req))
    (toNumber (Bike.buyPrice bike)).

(** [const profitPercent = (profit / bike.buyPrice) * 100] *)
Definition profitPercent (req : Request) (bike : Bike.t) : number :=
  Num.mul (Num.div (profit req bike) (toNumber (Bike.buyPrice bike))) (Fin 100).

(** [const finalAmount = sellingPrice - discount] *)
Definition finalAmount (req : Request) : number :=
  Num.sub (sellingPrice req) (discountOf req).

Definition saleNumber (env : Env) : string :=
  let year := nat_to_string (fullYear env) in
  let month := padStart 2 "0" (nat_to_string (monthIndex env + 1)) in
  let random := padStart 3 "0" (nat_to_string (random1000 env)) in
  "SAL-" ++ year ++ month ++ "-" ++ random.

Definition invoiceNumber (env : Env) : string :=
  let year := nat_to_string (fullYear env) in
  let random := padStart 3 "0" (nat_to_string (random1000 env)) in
  "SB-" ++ year ++ "-" ++ random.

(** [new Customer({ name, phone, address })] with the schema defaults *)
Definition newCustomer (cid : nat) (req : Request) : Customer.t :=
  Customer.mk cid (trim (buyerName req)) (trim (buyerPhone req))
    (trim (buyerAddress req)) (Some n0) (Some n0) None "Regular".

(** [new Sale({ ... })] *)
Definition newSale (env : Env) (req : Request) (bike : Bike.t)
  (customer : Customer.t) (sid : nat) : Sale.t :=
  Sale.mk sid (saleNumber env) (bikeId req) (Customer._id customer)
    (trim (buyerName req)) (trim (buyerPhone req)) (trim (buyerAddress req))
    (sellingPrice req) (discountOf req) (finalAmount req) (profit req bike)
    (profitPercent req bike) (paymentMode req) "Paid" (invoiceNumber env)
    None (option_map trim (notes req)) (user req).

(** the assignments under [// Update bike] *)
Definition soldBike (env : Env) (req : Request) (bike : Bike.t)
  (sale : Sale.t) : Bike.t :=
  Bike.mk (Bike._id bike) (Bike.bikeNumber bike) (Bike.brand bike)
    (Bike.model bike) (Bike.year bike) (Bike.buyPrice bike)
    (Some (sellingPrice req)) (Some (profit req bike))
    (Some (profitPercent req bike)) "sold" (Bike.purchaseDate bike)
    (Some (now env)) (Bike.daysToSell bike) (Bike.conditionRating bike)
    (Some (Sale._id sale)).

(** the assignments under [// Update customer] *)
Definition charged (env : Env) (req : Request) (customer : Customer.t) : Customer.t :=
  Customer.mk (Customer._id customer) (Customer.name customer)
    (Customer.phone customer) (Customer.address customer)
    (Some (Num.add (toNumber (Customer.totalSpent customer))
             (Num.sub (sellingPrice req) (discountOf req))))
    (Some (Num.add (toNumber (Customer.totalBikesBought customer)) n1))
    (Some (now env)) (Customer.customerType customer).

(** [new Payment({ ... })]: the sale recorded as paid in full *)
Definition newPayment (req : Request) (pid : nat) (sale : Sale.t)
  (customer : Customer.t) : Payment.t :=
  Payment.mk pid (Sale._id sale) (bikeId req) (Customer._id customer)
    (Num.sub (sellingPrice req) (discountOf req))
    (Num.sub (sellingPrice req) (discountOf req))
    n0 "pending" [] None None.

(** [router.post('/')]: create a sale *)
Definition createSale (env : Env) (req : Request) : Handler Response :=
  if negb (validationResult req) then answer 400 InvalidInput
  else
    found <- findById (BikeM (yearMax env)) (bikeId req) ;;
    match found with
    | None => answer 404 (Message "Bike not found")
    | Some bike =>
        if negb (String.eqb (Bike.status bike) "available") then
          answer 400 (Message "Bike is not available for sale")
        else
          existing <- findOne CustomerM
                        (fun c => String.eqb (Customer.phone c)
                                    (trim (buyerPhone req))) ;;
          customer <- match existing with
                      | Some c => ret c
                      | None =>
                          cid <- newId ;;
                          save CustomerM true (newCustomer cid req)
                      end ;;
          sid <- newId ;;
          sale <- save SaleM true (newSale env req bike customer sid) ;;
          bike' <- save (BikeM (yearMax env)) false (soldBike env req bike sale) ;;
          customer' <- save CustomerM false (charged env req customer) ;;
          invoicePath <- generateInvoicePDF env sale ;;
          sale' <- save SaleM false (Sale.set_invoicePath sale invoicePath) ;;
          (if Num.gtb (Num.sub (sellingPrice req) (discountOf req)) n0 then
             pid <- newId ;;
             save PaymentM true (newPayment req pid sale' customer') ;;;
             ret tt
           else ret tt) ;;;
          ret (mkResponse 201 (SaleJson sale'))
    end.

End Sales.

(** Scenario A of the specification: a bike bought at 100000 is sold at
    130000 with a discount of 5000. *)
Module ScenarioA.

Definition bike : Bike.t :=
  Bike.mk 1 "KA01AB1234" "Honda" "Shine" (Some (Fin 2022)) (Some (Fin 100000))
    None None None "available" (Some 1700000000000%Z) None None
    (Some (Fin 8)) None.

Definition db : DB := mkDB [bike] [] [] [] 2.

Definition env : Env := mkEnv 1710000000000%Z 2024 2 7 (Fin 2025) true.

Definition req : Sales.Request :=
  Sales.mkRequest 1 "Asha Rao" "9876543210" "12 MG Road" (Fin 130000)
    (Some (Fin 5000)) "Cash" None 99.

Definition result : DB * Response := run (Sales.createSale env req) db.

End ScenarioA.

(** ** routes/customers.js *)

Module Customers.

(** the request body: the validated keys and the schema paths that
    [new Customer(req.body)] and [Object.assign(customer, req.body)] copy
    when the body carries them *)
Record Body : Type := mkBody {
  name : string;
  phone : string;
  address : string;
  totalSpent : option (option number);
  totalBikesBought : option (option number);
  lastPurchaseDate : option (option Z);
  customerType : option string
}.

Definition validationResult (b : Body) : bool :=
  notEmpty (trim (name b))
  && notEmpty (trim (phone b))
  && notEmpty (trim (address b)).

(** [router.post('/')]: add a customer *)
Definition addCustomer (b : Body) : Handler Response :=
  if negb (validationResult b) then answer 400 InvalidInput
  else
    let phone := trim (phone b) in
    existingCustomer <- findOne CustomerM
                          (fun c => String.eqb (Customer.phone c) phone) ;;
    match existingCustomer with
    | Some _ =>
        answer 400 (Message "Customer with this phone number already exists")
    | None =>
        cid <- newId ;;
        customer <- save CustomerM true
                      (Customer.mk cid (trim (name b)) phone (trim (address b))
                         (assign (totalSpent b) (Some n0))
                         (assign (totalBikesBought b) (Some n0))
                         (assign (lastPurchaseDate b) None)
                         (assign (customerType b) "Regular")) ;;
        ret (mkResponse 201 (CustomerJson customer))
    end.

(** [router.put('/:id')]: update a customer *)
Definition updateCustomer (id : nat) (b : Body) : Handler Response :=
  if negb (validationResult b) then answer 400 InvalidInput
  else
    let phone := trim (phone b) in
    found <- findById CustomerM id ;;
    match found with
    | None => answer 404 (Message "Customer not found")
    | Some customer =>
        existingCustomer <-
          (if negb (String.eqb phone (Customer.phone customer)) then
             findOne CustomerM
               (fun c => String.eqb (Customer.phone c) phone
                         && negb (Customer._id c =? id)%nat)
           else ret None) ;;
        match existingCustomer with
        | Some _ =>
            answer 400 (Message "Customer with this phone number already exists")
        | None =>
            customer' <- save CustomerM false
                           (Customer.mk (Customer._id customer) (trim (name b)) phone
                              (trim (address b))
                              (assign (totalSpent b) (Customer.totalSpent customer))
                              (assign (totalBikesBought b)
                                 (Customer.totalBikesBought customer))
                              (assign (lastPurchaseDate b)
                                 (Customer.lastPurchaseDate customer))
                              (assign (customerType b)
                                 (Customer.customerType customer))) ;;
            ret (mkResponse 200 (CustomerJson customer'))
        end
    end.

(** [router.delete('/:id')]: delete a customer without sales *)
Definition deleteCustomer (id : nat) : Handler Response :=
  found <- findById CustomerM id ;;
  match found with
  | None => answer 404 (Message "Customer not found")
  | Some _ =>
      salesCount <- countDocuments SaleM (fun s => (Sale.customerId s =? id)%nat) ;;
      if (0 <? salesCount)%nat then
        answer 400 (Message "Cannot delete customer with existing sales records")
      else
        findByIdAndDelete CustomerM id ;;;
        ret (mkResponse 200 (Message "Customer deleted successfully"))
  end.

End Customers.

(** ** routes/bikes.js *)

Module Bikes.

Record Body : Type := mkBody {
  bikeNumber : string;
  brand : string;
  model : string;
  year : number;
  buyPrice : number;
  purchaseDate : option (option Z);
  sellPrice : option (option number);
  profit : option (option number);
  profitPercent : option (option number);
  status : option string;
  sellDate : option (option Z);
  daysToSell : option (option number);
  conditionRating : option (option number);
  saleId : option (option nat)
}.

(** the validators shared by [post('/')] and [put('/:id')] *)
Definition validationResult (env : Env) (b : Body) : bool :=
  notEmpty (trim (bikeNumber b))
  && isIn Bike.brands (brand b)
  && notEmpty (trim (model b))
  && isInt_range 1990 (yearMax env) (year b)
  && isFloat_min 0 (buyPrice b).

(** [isISO8601()] on the purchase date of [post('/')] *)
Definition purchaseDate_valid (b : Body) : bool :=
  match purchaseDate b with
  | Some (Some _) => true
  | _ => false
  end.

(** [router.post('/')]: add a bike *)
Definition addBike (env : Env) (b : Body) : Handler Response :=
  if negb (validationResult env b && purchaseDate_valid b) then
    answer 400 InvalidInput
  else
    let number := toUpperCase (trim (bikeNumber b)) in
    existingBike <- findOne (BikeM (yearMax env))
                      (fun d => String.eqb (Bike.bikeNumber d) number) ;;
    match existingBike with
    | Some _ => answer 400 (Message "Bike number already exists")
    | None =>
        bid <- newId ;;
        bike <- save (BikeM (yearMax env)) true
                  (Bike.mk bid number (brand b) (trim (model b)) (Some (year b))
                     (Some (buyPrice b))
                     (assign (sellPrice b) None) (assign (profit b) None)
                     (assign (profitPercent b) None)
                     (assign (status b) "available")
                     (assign (purchaseDate b) None)
                     (assign (sellDate b) None) (assign (daysToSell b) None)
                     (assign (conditionRating b) (Some (Fin 8)))
                     (assign (saleId b) None)) ;;
        ret (mkResponse 201 (BikeJson bike))
    end.

(** [router.put('/:id')]: update a bike that is not sold *)
Definition updateBike (env : Env) (id : nat) (b : Body) : Handler Response :=
  if negb (validationResult env b) then answer 400 InvalidInput
  else
    found <- findById (BikeM (yearMax env)) id ;;
    match found with
    | None => answer 404 (Message "Bike not found")
    | Some bike =>
        if String.eqb (Bike.status bike) "sold" then
          answer 400 (Message "Cannot update sold bike")
        else
          let number := toUpperCase (trim (bikeNumber b)) in
          existingBike <-
            (if negb (String.eqb number (Bike.bikeNumber bike)) then
               findOne (BikeM (yearMax env))
                 (fun d => String.eqb (Bike.bikeNumber d) number
                           && negb (Bike._id d =? id)%nat)
             else ret None) ;;
          match existingBike with
          | Some _ => answer 400 (Message "Bike number already exists")
          | None =>
              bike' <- save (BikeM (yearMax env)) false
                         (Bike.mk (Bike._id bike) number (brand b) (trim (model b))
                            (Some (year b)) (Some (buyPrice b))
                            (assign (sellPrice b) (Bike.sellPrice bike))
                            (assign (profit b) (Bike.profit bike))
                            (assign (profitPercent b) (Bike.profitPercent bike))
                            (assign (status b) (Bike.status bike))
                            (assign (purchaseDate b) (Bike.purchaseDate bike))
                            (assign (sellDate b) (Bike.sellDate bike))
                            (assign (daysToSell b) (Bike.daysToSell bike))
                            (assign (conditionRating b) (Bike.conditionRating bike))
                            (assign (saleId b) (Bike.saleId bike))) ;;
              ret (mkResponse 200 (BikeJson bike'))
          end
    end.

(** [router.delete('/:id')]: delete a bike that is not sold *)
Definition deleteBike (env : Env) (id : nat) : Handler Response :=
  found <- findById (BikeM (yearMax env)) id ;;
  match found with
  | None => answer 404 (Message "Bike not found")
  | Some bike =>
      if String.eqb (Bike.status bike) "sold" then
        answer 400 (Message "Cannot delete sold bike")
      else
        findByIdAndDelete (BikeM (yearMax env)) id ;;;
        ret (mkResponse 200 (Message "Bike deleted successfully"))
  end.

End Bikes.

(** ** routes/payments.js *)

Module Payments.

Record Request : Type := mkRequest {
  amount : number;
  paymentMethod : string;
  (** [None] when the text is no ISO 8601 date *)
  paymentDate : option Z;
  notes : option string;
  user : nat
}.

(** the validator chain of [router.post('/:id/payment')] *)
Definition validationResult (req : Request) : bool :=
  isFloat_min (1 # 100) (amount req)
  && isIn Sale.paymentModes (paymentMethod req)
  && present (paymentDate req).

(** [router.post('/:id/payment')]: add a payment log *)
Definition recordPayment (id : nat) (req : Request) : Handler Response :=
  if negb (validationResult req) then answer 400 InvalidInput
  else
    found <- findById PaymentM id ;;
    match found with
    | None => answer 404 (Message "Payment not found")
    | Some payment =>
        if Num.gtb (amount req) (Payment.remainingAmount payment) then
          answer 400 (Message "Payment amount cannot exceed remaining amount")
        else
          let log :=
            PaymentLog.mk (amount req) (assign (paymentDate req) 0%Z)
              (paymentMethod req) (notes req) (user req) in
          payment' <- save PaymentM false
                        (Payment.mk (Payment._id payment) (Payment.saleId payment)
                           (Payment.bikeId payment) (Payment.customerId payment)
                           (Payment.totalAmount payment)
                           (Num.add (Payment.paidAmount payment) (amount req))
                           (Payment.remainingAmount payment) (Payment.status payment)
                           (Payment.paymentLogs payment ++ [log])
                           (Payment.dueDate payment) (Payment.notes payment)) ;;
          ret (mkResponse 200 (PaymentJson payment'))
    end.

Record Details : Type := mkDetails {
  (** absent, or present and then [None] when no ISO 8601 date *)
  dueDate : option (option Z);
  d_notes : option string
}.

Definition detailsValid (d : Details) : bool :=
  match dueDate d with
  | Some None => false
  | _ => true
  end.

(** [router.put('/:id')]: update due date and notes *)
Definition updatePayment (id : nat) (d : Details) : Handler Response :=
  if negb (detailsValid d) then answer 400 InvalidInput
  else
    found <- findById PaymentM id ;;
    match found with
    | None => answer 404 (Message "Payment not found")
    | Some payment =>
        let dueDate' :=
          match dueDate d with
          | Some (Some date) => Some date
          | _ => Payment.dueDate payment
          end in
        let notes' :=
          match d_notes d with
          | Some n => Some (trim n)
          | None => Payment.notes payment
          end in
        payment' <- save PaymentM false
                      (Payment.mk (Payment._id payment) (Payment.saleId payment)
                         (Payment.bikeId payment) (Payment.customerId payment)
                         (Payment.totalAmount payment) (Payment.paidAmount payment)
                         (Payment.remainingAmount payment) (Payment.status payment)
                         (Payment.paymentLogs payment) dueDate' notes') ;;
        ret (mkResponse 200 (PaymentJson payment'))
    end.

End Payments.

(** ** routes/ai.js *)

(** The functions of the route with exact arithmetic; [AI64] below has
    them with every operation rounded as the engine rounds it. *)
Module AI.

(** [list.reduce((sum, b) => sum + f(b), 0)] *)
Definition reduce_sum (f : Bike.t -> number) (l : list Bike.t) : number :=
  fold_left (fun sum b => Num.add sum (f b)) l n0.

Definition generatePriceSuggestion (env : Env) (bike : Bike.t)
  (similarBikes : list Bike.t) : Suggestion :=
  if (List.length similarBikes =? 0)%nat then
    mkSuggestion (Num.mul (toNumber (Bike.buyPrice bike)) (Fin (115 # 100)))
      "low" None
  else
    let len := Num.of_nat (List.length similarBikes) in
    let avgSellPrice :=
      Num.div (reduce_sum (fun b => toNumber (Bike.sellPrice b)) similarBikes) len in
    let avgProfit :=
      Num.div (reduce_sum (fun b => toNumber (Bike.profit b)) similarBikes) len in
    let avgDaysToSell :=
      Num.div (reduce_sum (fun b => or_default (Bike.daysToSell b) (Fin 30))
                 similarBikes) len in
    let adjustmentFactor := n1 in
    let currentYear := Num.of_nat (fullYear env) in
    let ageAdjustment :=
      Num.mul (Num.sub currentYear (toNumber (Bike.year bike))) (Fin (5 # 100)) in
    let adjustmentFactor := Num.sub adjustmentFactor ageAdjustment in
    let adjustmentFactor :=
      if truthy_opt (Bike.conditionRating bike) then
        let conditionAdjustment :=
          Num.mul (Num.sub (toNumber (Bike.conditionRating bike)) (Fin 8))
            (Fin (2 # 100)) in
        Num.add adjustmentFactor conditionAdjustment
      else adjustmentFactor in
    let suggestedPrice := Num.round (Num.mul avgSellPrice adjustmentFactor) in
    mkSuggestion suggestedPrice
      (if (3 <=? List.length similarBikes)%nat then "high" else "medium")
      (Some (mkMarketData (Num.round avgSellPrice) (Num.round avgProfit)
               (Num.round avgDaysToSell) (List.length similarBikes))).

(** the query of the route: same brand, sold, year within two of the
    bike's *)
Definition similar (bike : Bike.t) (b : Bike.t) : bool :=
  String.eqb (Bike.brand b) (Bike.brand bike)
  && String.eqb (Bike.status b) "sold"
  && match Bike.year b with
     | Some y =>
         Num.geb y (Num.sub (toNumber (Bike.year bike)) (Fin 2))
         && Num.leb y (Num.add (toNumber (Bike.year bike)) (Fin 2))
     | None => false
     end.

End AI.

(** the route with binary64 arithmetic.  The bounds [bike.year - 2] and
    [bike.year + 2] of the query are exact in binary64 for the years the
    schema admits (from 1990 to next year, below 2046), so the query is
    that of [AI]. *)
Module AI64.

(** [list.reduce((sum, b) => sum + f(b), 0)] *)
Definition reduce_sum (f : Bike.t -> number) (l : list Bike.t) : number :=
  fold_left (fun sum b => B64.add sum (f b)) l n0.

(** [generatePriceSuggestion] *)
Definition generatePriceSuggestion (env : Env) (bike : Bike.t)
  (similarBikes : list Bike.t) : Suggestion :=
  if (List.length similarBikes =? 0)%nat then
    mkSuggestion (B64.mul (toNumber (Bike.buyPrice bike)) (B64.literal (115 # 100)))
      "low" None
  else
    let len := Num.of_nat (List.length similarBikes) in
    let avgSellPrice :=
      B64.div (reduce_sum (fun b => toNumber (Bike.sellPrice b)) similarBikes) len in
    let avgProfit :=
      B64.div (reduce_sum (fun b => toNumber (Bike.profit b)) similarBikes) len in
    let avgDaysToSell :=
      B64.div (reduce_sum (fun b => or_default (Bike.daysToSell b) (Fin 30))
                 similarBikes) len in
    let adjustmentFactor := n1 in
    let currentYear := Num.of_nat (fullYear env) in
    let ageAdjustment :=
      B64.mul (B64.sub currentYear (toNumber (Bike.year bike)))
        (B64.literal (5 # 100)) in
    let adjustmentFactor := B64.sub adjustmentFactor ageAdjustment in
    let adjustmentFactor :=
      if truthy_opt (Bike.conditionRating bike) then
        let conditionAdjustment :=
          B64.mul (B64.sub (toNumber (Bike.conditionRating bike)) (Fin 8))
            (B64.literal (2 # 100)) in
        B64.add adjustmentFactor conditionAdjustment
      else adjustmentFactor in
    let suggestedPrice := Num.round (B64.mul avgSellPrice adjustmentFactor) in
    mkSuggestion suggestedPrice
      (if (3 <=? List.length similarBikes)%nat then "high" else "medium")
      (Some (mkMarketData (Num.round avgSellPrice) (Num.round avgProfit)
               (Num.round avgDaysToSell) (List.length similarBikes))).

(** [router.get('/price-suggestion/:bikeId')] *)
Definition priceSuggestion (env : Env) (bikeId : nat) : Handler Response :=
  found <- findById (BikeM (yearMax env)) bikeId ;;
  match found with
  | None => answer 404 (Message "Bike not found")
  | Some bike =>
      similarBikes <- findAll (BikeM (yearMax env)) (AI.similar bike) ;;
      let suggestion := generatePriceSuggestion env bike similarBikes in
      ret (mkResponse 200 (SuggestionJson suggestion))
  end.

End AI64.

(** ** The requests of the public API

    The routers of finance, expenses and revenue write only their own
    collections, and the reports and dashboard routers only read; they are
    left out. *)

Inductive Op : Type :=
| CreateSale (req : Sales.Request)
| AddCustomer (b : Customers.Body)
| UpdateCustomer (id : nat) (b : Customers.Body)
| DeleteCustomer (id : nat)
| AddBike (b : Bikes.Body)
| UpdateBike (id : nat) (b : Bikes.Body)
| DeleteBike (id : nat)
| RecordPayment (id : nat) (req : Payments.Request)
| UpdatePayment (id : nat) (d : Payments.Details)
| PriceSuggestion (bikeId : nat).

Definition handler (env : Env) (op : Op) : Handler Response :=
  match op with
  | CreateSale req => Sales.createSale env req
  | AddCustomer b => Customers.addCustomer b
  | UpdateCustomer id b => Customers.updateCustomer id b
  | DeleteCustomer id => Customers.deleteCustomer id
  | AddBike b => Bikes.addBike env b
  | UpdateBike id b => Bikes.updateBike env id b
  | DeleteBike id => Bikes.deleteBike env id
  | RecordPayment id req => Payments.recordPayment id req
  | UpdatePayment id d => Payments.updatePayment id d
  | PriceSuggestion id => AI64.priceSuggestion env id
  end.

(** one request against the store *)
Definition step (env : Env) (op : Op) (db : DB) : DB * Response :=
  run (handler env op) db.

(** the requests of the bikes router *)
Definition bikes_api (op : Op) : bool :=
  match op with
  | AddBike _ | UpdateBike _ _ | DeleteBike _ => true
  | _ => false
  end.

(** a sequence of requests, each with its own surroundings *)
Fixpoint steps (l : list (Env * Op)) (db : DB) : DB :=
  match l with
  | [] => db
  | (env, op) :: rest => steps rest (fst (step env op db))
  end.

(** ** The price suggestion in the words of the specification

    The average sell price of the comparable bikes, times a factor of one
    minus 5% per year of age, plus 2% per point of the condition rating
    above eight (minus 2% per point below), rounded.  A bike without a
    rating has no points either way. *)

Module PriceSpec.

Definition average (prices : list number) : number :=
  Num.div (fold_left Num.add prices n0) (Num.of_nat (List.length prices)).

Definition age (currentYear : nat) (bike : Bike.t) : number :=
  Num.sub (Num.of_nat currentYear) (toNumber (Bike.year bike)).

Definition factor (years : number) (rating : option number) : number :=
  let aged := Num.sub n1 (Num.mul years (Fin (5 # 100))) in
  match rating with
  | Some r => Num.add aged (Num.mul (Num.sub r (Fin 8)) (Fin (2 # 100)))
  | None => aged
  end.

Definition suggested (currentYear : nat) (bike : Bike.t)
  (comparable : list Bike.t) : number :=
  Num.round
    (Num.mul (average (map (fun b => toNumber (Bike.sellPrice b)) comparable))
       (factor (age currentYear bike) (Bike.conditionRating bike))).

(** comparable: same brand, sold, year within two of the bike's year *)
Definition comparable (bike b : Bike.t) : Prop :=
  Bike.brand b = Bike.brand bike
  /\ Bike.status b = "sold"
  /\ exists y, Bike.year b = Some y
               /\ Num.le (Num.sub (toNumber (Bike.year bike)) (Fin 2)) y
               /\ Num.le y (Num.add (toNumber (Bike.year bike)) (Fin 2)).

End PriceSpec.

(** the same formula with each operation rounded to binary64, in the order
    average, age, age term, condition term, product *)
Module PriceSpec64.

Definition average (prices : list number) : number :=
  B64.div (fold_left B64.add prices n0) (Num.of_nat (List.length prices)).

Definition age (currentYear : nat) (bike : Bike.t) : number :=
  B64.sub (Num.of_nat currentYear) (toNumber (Bike.year bike)).

Definition factor (years : number) (rating : option number) : number :=
  let aged := B64.sub n1 (B64.mul years (B64.literal (5 # 100))) in
  match rating with
  | Some r => B64.add aged (B64.mul (B64.sub r (Fin 8)) (B64.literal (2 # 100)))
  | None => aged
  end.

Definition suggested (currentYear : nat) (bike : Bike.t)
  (comparable : list Bike.t) : number :=
  Num.round
    (B64.mul (average (map (fun b => toNumber (Bike.sellPrice b)) comparable))
       (factor (age currentYear bike) (Bike.conditionRating bike))).

End PriceSpec64.

(** ** Example stores and requests *)

Module Examples.

(** the store after Scenario A: one sold bike, its buyer, sale and payment *)
Definition sold_db : DB := fst ScenarioA.result.

Definition env : Env := ScenarioA.env.

(** the sold bike and its buyer as stored *)
Definition sold_bike : Bike.t := hd ScenarioA.bike (bikes sold_db).

Definition buyer : Customer.t :=
  hd (Sales.newCustomer 0 ScenarioA.req) (customers sold_db).

(** a second request for the same bike *)
Definition resale : Sales.Request :=
  Sales.mkRequest 1 "Ravi Kumar" "9000000001" "4 Church Street" (Fin 120000)
    None "UPI" None 99.

(** an update of the buyer that carries the two aggregates *)
Definition reset_totals : Customers.Body :=
  Customers.mkBody "Asha Rao" "9876543210" "12 MG Road"
    (Some (Some (Fin 0))) (Some (Some (Fin 0))) None None.

(** an update of the buyer that only changes the address *)
Definition move_house : Customers.Body :=
  Customers.mkBody "Asha Rao" "9876543210" "7 Brigade Road" None None None None.

(** the buyer after the update that only changes the address *)
Definition moved_buyer : Customer.t :=
  hd buyer (customers (fst (step env (UpdateCustomer 2 move_house) sold_db))).

(** a payment of 1000 of which 400 is paid *)
Definition part_paid : Payment.t :=
  Payment.mk 10 3 1 2 (Fin 1000) (Fin 400) (Fin 600) "partial" [] None None.

Definition pay_db : DB := mkDB [] [] [] [part_paid] 11.

Definition pay (amount : number) : Payments.Request :=
  Payments.mkRequest amount "Cash" (Some 1711000000000%Z) None 99.

(** a payment document whose paid amount is above its total *)
Definition overpaid : Payment.t :=
  Payment.mk 20 3 1 2 (Fin 100) (Fin 150) (Fin 0) "pending" [] None None.

(** a payment document of total zero *)
Definition nothing_due : Payment.t :=
  Payment.mk 21 3 1 2 (Fin 0) (Fin 0) (Fin 0) "completed" [] None None.

Definition empty_db : DB := mkDB [] [] [] [] 0.

Definition vip : Customer.t :=
  Customer.mk 30 "Meera Nair" "9111111111" "9 Lake View" (Some (Fin 650000))
    (Some (Fin 4)) None "Regular".

Definition sold (id : nat) (yr price : Q) : Bike.t :=
  Bike.mk id ("KA02XY" ++ nat_to_string id) "Yamaha" "FZ" (Some (Fin yr))
    (Some (Fin 80000)) (Some (Fin price)) (Some (Fin (price - 80000)))
    (Some (Fin ((price - 80000) / 80000 * 100))) "sold" (Some 1690000000000%Z) (Some 1700000000000%Z)
    (Some (Fin 116)) (Some (Fin 8)) None.

Definition stock : Bike.t :=
  Bike.mk 44 "KA02XY0044" "Yamaha" "FZ" (Some (Fin 2022)) (Some (Fin 90000))
    None None None "available" (Some 1705000000000%Z) None None
    (Some (Fin 9)) None.

Definition market_db : DB :=
  mkDB [sold 41 2021 100000; sold 42 2022 110000; sold 43 2023 120000;
        sold 45 2010 50000; stock] [] [] [] 50.

(** a bike whose update changes the model name *)
Definition rename_sold : Bikes.Body :=
  Bikes.mkBody "KA01AB1234" "Honda" "Unicorn" (Fin 2022) (Fin 100000)
    None None None None (Some "available") None None None None.

End Examples.

(** a store on which the rounding of binary64 shows: a bike of 2023 in
    condition 6 and two comparable bikes sold at 100000 and 100100 *)
Module Rounding.

Definition bike : Bike.t :=
  Bike.mk 47 "KA02XY0047" "Yamaha" "FZ" (Some (Fin 2023)) (Some (Fin 90000))
    None None None "available" (Some 1705000000000%Z) None None
    (Some (Fin 6)) None.

Definition db : DB :=
  mkDB [Examples.sold 41 2022 100000; Examples.sold 42 2023 100100; bike]
    [] [] [] 50.


End Rounding.

(** ** What the specification states of the documents *)




(** the sale workflow charged customer [c]: the final amount, which is not
    negative, is added to the total spent and one to the bikes bought *)
Definition aggregates_charged (req : Sales.Request) (c c' : Customer.t) : Prop :=
  Customer._id c' = Customer._id c
  /\ Num.geb (Sales.finalAmount req) n0 = true
  /\ Customer.totalSpent c' =
       Some (Num.add (toNumber (Customer.totalSpent c)) (Sales.finalAmount req))
  /\ Customer.totalBikesBought c' =
       Some (Num.add (toNumber (Customer.totalBikesBought c)) n1).

(** the update endpoint wrote customer [c]: each aggregate is the value the
    request body carries for it, and is as before when the body has none *)
Definition aggregates_assigned (b : Customers.Body) (c c' : Customer.t) : Prop :=
  Customer._id c' = Customer._id c
  /\ Customer.totalSpent c' = assign (Customers.totalSpent b) (Customer.totalSpent c)
  /\ Customer.totalBikesBought c' =
       assign (Customers.totalBikesBought b) (Customer.totalBikesBought c).

(** the bikes that the price-suggestion route hands to
    [generatePriceSuggestion] *)
Definition similarBikes (db : DB) (bike : Bike.t) : list Bike.t :=
  filter (AI.similar bike) (bikes db).

(** ** Orders on the derived labels, and payments over time *)

(** the customer tiers in ascending order *)
Definition tier_rank (ty : string) : nat :=
  if String.eqb ty "VIP" then 2
  else if String.eqb ty "Premium" then 1
  else 0.

(** the payment statuses in the order a payment passes through them *)
Definition status_rank (st : string) : nat :=
  if String.eqb st "completed" then 2
  else if String.eqb st "partial" then 1
  else 0.


(** ** Further example stores and requests *)

Module Cases.

(** the part-paid payment after a payment of 100 *)
Definition after_100 : DB :=
  fst (step Examples.env (RecordPayment 10 (Examples.pay (Fin 100))) Examples.pay_db).

Definition paid_500 : Payment.t := hd Examples.part_paid (payments after_100).

(** a later due date and a note for the part-paid payment *)
Definition postpone : Payments.Details :=
  Payments.mkDetails (Some (Some 1720000000000%Z)) (Some " call first ").

Definition postponed : Payment.t :=
  hd Examples.part_paid
    (payments (fst (step Examples.env (UpdatePayment 10 postpone) Examples.pay_db))).

(** a scooter whose number is typed in lower case between blanks, and the
    same number typed in upper case *)
Definition scooter : Bikes.Body :=
  Bikes.mkBody " ka05mn7788 " "Honda" "Activa" (Fin 2023) (Fin 60000)
    (Some (Some 1709000000000%Z)) None None None None None None None None.

Definition scooter_again : Bikes.Body :=
  Bikes.mkBody "KA05MN7788" "Honda" "Activa 6G" (Fin 2023) (Fin 61000)
    (Some (Some 1709500000000%Z)) None None None None None None None None.

Definition with_scooter : DB :=
  fst (run (Bikes.addBike Examples.env scooter) Examples.sold_db).

Definition stored_scooter : Bike.t :=
  hd ScenarioA.bike (rev (bikes with_scooter)).

(** the market store without the bike in stock *)
Definition without_stock : DB :=
  fst (run (Bikes.deleteBike Examples.env 44) Examples.market_db).

(** the sale of Scenario A as stored *)
Definition sale : Sale.t :=
  hd (Sales.newSale Examples.env ScenarioA.req ScenarioA.bike Examples.buyer 0)
    (sales Examples.sold_db).

(** a request of the buyer of Scenario A for the bike in stock, added to the
    store of Scenario A, in another month *)
Definition stocked_db : DB :=
  mkDB (Examples.stock :: bikes Examples.sold_db) (customers Examples.sold_db)
    (sales Examples.sold_db) (payments Examples.sold_db) 50.

Definition second_purchase : Sales.Request :=
  Sales.mkRequest 44 "Asha Rao" " 9876543210 " "12 MG Road" (Fin 110000)
    (Some (Fin 10000)) "UPI" None 99.

Definition april : Env := mkEnv 1712000000000%Z 2024 3 8 (Fin 2025) true.

(** April again, with the random draw of Scenario A *)
Definition april_same_draw : Env := mkEnv 1712000000000%Z 2024 3 7 (Fin 2025) true.

Definition after_second : DB * Response :=
  run (Sales.createSale april second_purchase) stocked_db.

(** requests after the sale of Scenario A: a scooter is added, then an
    update and a delete of the sold bike are tried *)
Definition later : list (Env * Op) :=
  [(Examples.env, AddBike scooter); (april, UpdateBike 1 Examples.rename_sold);
   (april, DeleteBike 1); (april, DeleteCustomer 2)].

End Cases.

(** the milliseconds of a day, as in the bike's hook *)
Definition msPerDay : Z := (1000 * 3600 * 24)%Z.

(** ** Well-formed stores *)

(** a collection whose ids are below the counter and pairwise distinct, and
    whose documents are pairwise distinct on each unique key *)
Definition keyed {A : Type} (idf : A -> nat) (keys : list (A -> string))
  (n : nat) (l : list A) : Prop :=
  Forall (fun d => idf d < n)%nat l
  /\ NoDup (map idf l)
  /\ Forall (fun key => NoDup (map key l)) keys.

(** the store as the unique indexes of the schemas want it: no two bikes
    with one number, no two customers with one phone, no two sales with one
    sale number or one invoice number *)
Definition store_ok (db : DB) : Prop :=
  keyed Bike._id [Bike.bikeNumber] (nextId db) (bikes db)
  /\ keyed Customer._id [Customer.phone] (nextId db) (customers db)
  /\ keyed Sale._id [Sale.saleNumber; Sale.invoiceNumber] (nextId db) (sales db)
  /\ keyed Payment._id [] (nextId db) (payments db).

(** no document of [l] but [x] itself has a key of [x] *)
Definition key_free {A : Type} (idf : A -> nat) (keys : list (A -> string))
  (x : A) (l : list A) : Prop :=
  Forall (fun key => forall d, In d l -> idf d <> idf x -> key d <> key x) keys.

(** the random draw read back from the last three characters of a sale
    number or an invoice number *)
Definition draw_of (s : string) : option nat :=
  option_map Nat.of_uint
    (NilZero.uint_of_string (substring (String.length s - 3) 3 s)).

(** ** routes/ai.js: demand predictions *)

Module Demand.

(** a row of the aggregation: sales per brand and month *)
Record Row : Type := mkRow {
  brand : string;
  month : number;
  sales : number;
  avgProfit : number
}.

Record Point : Type := mkPoint {
  p_month : number;
  p_sales : number;
  p_avgProfit : number
}.

Record Prediction : Type := mkPrediction {
  pr_brand : string;
  avgMonthlySales : number;
  pr_avgProfit : number;
  trend : string;
  recommendation : string
}.

(** [getTrendRecommendation] *)
Definition getTrendRecommendation (trend : string) (avgProfit : number) : string :=
  if String.eqb trend "increasing" && Num.gtb avgProfit (Fin 10000) then
    "Strong performer - consider increasing inventory"
  else if String.eqb trend "increasing" then
    "Growing demand - monitor pricing for better margins"
  else if String.eqb trend "decreasing" then
    "Declining sales - review pricing strategy or reduce inventory"
  else if Num.gtb avgProfit (Fin 15000) then
    "Stable with good margins - maintain current strategy"
  else
    "Stable but low margins - consider price optimization".

(** the names an object literal inherits from [Object.prototype]: for
    these [brandTrends[name]] is a function (for [__proto__] the prototype
    itself), which is truthy and has no [push] *)
Definition inherited : list string :=
  ["constructor"; "__proto__"; "hasOwnProperty"; "isPrototypeOf";
   "propertyIsEnumerable"; "toLocaleString"; "toString"; "valueOf";
   "__defineGetter__"; "__defineSetter__"; "__lookupGetter__";
   "__lookupSetter__"].

Definition is_inherited (b : string) : bool := existsb (String.eqb b) inherited.

(** [brandTrends[brand].push(point)] on the keys the object owns, with
    [brandTrends[brand] = []] first when it has no such key; the keys are
    kept in the order in which they were first written *)
Fixpoint push (b : string) (pt : Point) (brandTrends : list (string * list Point))
  : list (string * list Point) :=
  match brandTrends with
  | [] => [(b, [pt])]
  | (k, pts) :: rest =>
      if String.eqb k b then (k, (pts ++ [pt])%list) :: rest
      else (k, pts) :: push b pt rest
  end.

(** the body of the [forEach]: [None] is the [TypeError] of calling
    [push] on an inherited member *)
Definition record_point (b : string) (pt : Point)
  (brandTrends : list (string * list Point)) : option (list (string * list Point)) :=
  if is_inherited b then None else Some (push b pt brandTrends).

(** the [forEach] over the rows *)
Definition group (salesData : list Row) : option (list (string * list Point)) :=
  fold_left
    (fun brandTrends record =>
       match brandTrends with
       | Some bt =>
           record_point (brand record)
             (mkPoint (month record) (sales record) (avgProfit record)) bt
       | None => None
       end)
    salesData (Some []).

(** a key that is an array index: the canonical decimal string of an
    integer below [2^32 - 1] *)
Definition array_index (s : string) : option N :=
  match NilEmpty.uint_of_string s with
  | Some u =>
      let n := N.of_uint u in
      if String.eqb (NilZero.string_of_uint (N.to_uint n)) s && (n <? 4294967295)%N
      then Some n else None
  | None => None
  end.

Fixpoint insert_key (e : N * (string * list Point))
  (l : list (N * (string * list Point))) : list (N * (string * list Point)) :=
  match l with
  | [] => [e]
  | y :: rest => if (fst e <=? fst y)%N then e :: y :: rest else y :: insert_key e rest
  end.

(** [Object.keys]: the array indices in ascending order, then the other
    keys in the order in which they were written *)
Definition own_keys (brandTrends : list (string * list Point))
  : list (string * list Point) :=
  (map snd
     (fold_right
        (fun e acc =>
           match array_index (fst e) with
           | Some n => insert_key (n, e) acc
           | None => acc
           end) [] brandTrends)
   ++ filter (fun e => match array_index (fst e) with Some _ => false | None => true end)
        brandTrends)%list.

(** [trend.slice(-2)] *)
Definition last_two (pts : list Point) : list Point :=
  skipn (List.length pts - 2) pts.

Definition trendDirection (pts : list Point) : string :=
  if (2 <=? List.length pts)%nat then
    match last_two pts with
    | [r0; r1] =>
        let growth := Num.div (Num.sub (p_sales r1) (p_sales r0)) (p_sales r0) in
        if Num.gtb growth (Fin (1 # 10)) then "increasing"
        else if Num.ltb growth (Fin (- (1 # 10))) then "decreasing"
        else "stable"
    | _ => "stable"
    end
  else "stable".

(** one prediction per key of [brandTrends] *)
Definition predict (entry : string * list Point) : Prediction :=
  let (b, pts) := entry in
  let len := Num.of_nat (List.length pts) in
  let avgSales := Num.div (fold_left (fun sum t => Num.add sum (p_sales t)) pts n0) len in
  let avgProfit :=
    Num.div (fold_left (fun sum t => Num.add sum (p_avgProfit t)) pts n0) len in
  let direction := trendDirection pts in
  mkPrediction b (Num.round avgSales) (Num.round avgProfit) direction
    (getTrendRecommendation direction avgProfit).

(** the comparator [(a, b) => b.avgMonthlySales - a.avgMonthlySales] *)
Definition compare (a b : Prediction) : number :=
  Num.sub (avgMonthlySales b) (avgMonthlySales a).

(** [Array.prototype.sort], which is stable: [x] goes before the first
    element that the comparator does not put before it (for a comparator
    that is consistent, as this one is on finite numbers, every stable sort
    gives this list) *)
Fixpoint insert (x : Prediction) (l : list Prediction) : list Prediction :=
  match l with
  | [] => [x]
  | y :: rest =>
      if Num.leb (compare x y) n0 then x :: y :: rest
      else y :: insert x rest
  end.

Definition sort (l : list Prediction) : list Prediction :=
  fold_right insert [] l.

(** [generateDemandPredictions]; [None] when the [forEach] throws *)
Definition generateDemandPredictions (salesData : list Row)
  : option (list Prediction) :=
  match group salesData with
  | Some brandTrends => Some (sort (map predict (own_keys brandTrends)))
  | None => None
  end.

(** a row with a finite count of sales, as the aggregation gives it *)
Definition finite_sales (r : Row) : Prop := exists s, sales r = Fin s.

(** a row whose brand is not the name of an inherited member *)
Definition own_brand (r : Row) : Prop := is_inherited (brand r) = false.

End Demand.

Module DemandCases.

Definition rows : list Demand.Row :=
  [Demand.mkRow "Honda" (Fin 1) (Fin 4) (Fin 12000);
   Demand.mkRow "Yamaha" (Fin 1) (Fin 9) (Fin 20000);
   Demand.mkRow "Honda" (Fin 2) (Fin 6) (Fin 14000);
   Demand.mkRow "KTM" (Fin 2) (Fin 2) (Fin 30000)].


End DemandCases.

(** the rows of one brand as points, in the order of the rows *)
Definition points_of (b : string) (rows : list Demand.Row) : list Demand.Point :=
  map (fun r => Demand.mkPoint (Demand.month r) (Demand.sales r) (Demand.avgProfit r))
    (filter (fun r => String.eqb (Demand.brand r) b) rows).

(** the brands of the rows, each once, in the order of first occurrence *)
Definition brands_of (rows : list Demand.Row) : list string :=
  fold_left
    (fun seen r =>
       if existsb (String.eqb (Demand.brand r)) seen then seen
       else (seen ++ [Demand.brand r])%list)
    rows [].

(** descending in the average monthly sales *)
Definition by_sales (a b : Demand.Prediction) : Prop :=
  Num.geb (Demand.avgMonthlySales a) (Demand.avgMonthlySales b) = true.

(** ** Bikes for the price suggestion *)

Module Market.

Definition comparables : list Bike.t :=
  [Examples.sold 41 2021 100000; Examples.sold 42 2022 110000;
   Examples.sold 43 2023 120000].

(** the same make in worse condition and a year older *)
Definition worn : Bike.t :=
  Bike.mk 46 "KA02XY0046" "Yamaha" "FZ" (Some (Fin 2021)) (Some (Fin 90000))
    None None None "available" (Some 1705000000000%Z) None None
    (Some (Fin 6)) None.

End Market.

(** * Properties *)

Arguments save : simpl never.

(** ** Numbers *)

Lemma Qltb_lt (a b : Q) : Qltb a b = true <-> a < b.
Proof.
  unfold Qltb. rewrite negb_true_iff. split; intro H.
  - apply Qnot_le_lt. intro L. apply Qle_bool_iff in L. congruence.
  - destruct (Qle_bool b a) eqn:E; [|reflexivity].
    apply Qle_bool_iff in E. exfalso. apply (Qlt_not_le _ _ H E).
Qed.

Lemma Qltb_false_le (a b : Q) : Qltb a b = false <-> b <= a.
Proof.
  unfold Qltb. rewrite negb_false_iff. apply Qle_bool_iff.
Qed.

Lemma Qeq_bool_false (a b : Q) : Qeq_bool a b = false <-> ~ a == b.
Proof.
  split.
  - apply Qeq_bool_neq.
  - intro N. destruct (Qeq_bool a b) eqn:E; [|reflexivity].
    apply Qeq_bool_iff in E. contradiction.
Qed.

Lemma geb_false_ltb (x m : number) :
  Num.isNaN x = false -> Num.isNaN m = false ->
  (Num.geb x m = false <-> Num.ltb x m = true).
Proof.
  destruct x, m; simpl; intros; try discriminate; try tauto;
    try (split; discriminate).
  unfold Qltb. rewrite negb_true_iff. tauto.
Qed.

Lemma ltb_false_geb (x m : number) :
  Num.isNaN x = false -> Num.isNaN m = false ->
  (Num.ltb x m = false <-> Num.geb x m = true).
Proof.
  destruct x, m; simpl; intros; try discriminate; try tauto;
    try (split; discriminate).
  unfold Qltb. rewrite negb_false_iff. tauto.
Qed.

Lemma geb_not_nan (x m : number) : Num.geb x m = true -> Num.isNaN x = false.
Proof. destruct x, m; simpl; congruence. Qed.

Lemma positive_of_nonneg (x : number) :
  Num.geb x n0 = true -> Num.eqb x n0 = false -> Num.ltb n0 x = true.
Proof.
  destruct x; simpl; try congruence.
  intros L E. apply Qle_bool_iff in L. apply Qeq_bool_false in E.
  apply Qltb_lt. apply Qle_lteq in L. destruct L as [L | L]; [exact L|].
  exfalso. apply E. symmetry. exact L.
Qed.

Lemma positive_not_zero (x : number) :
  Num.ltb n0 x = true -> Num.eqb x n0 = false.
Proof.
  destruct x; simpl; try congruence.
  intro L. apply Qltb_lt in L. apply Qeq_bool_false. intro E.
  rewrite E in L. apply (Qlt_irrefl _ L).
Qed.

(** ** Strings and enumerations *)

Lemma isIn_notEmpty (l : list string) (s : string) :
  forallb notEmpty l = true -> isIn l s = true -> notEmpty s = true.
Proof.
  unfold isIn. intros A H. apply existsb_exists in H.
  destruct H as [x [I E]]. apply String.eqb_eq in E. subst x.
  rewrite forallb_forall in A. apply A. exact I.
Qed.

(** ** The model operations *)

Lemma save_cases {A : Type} (M : Model A) (isNew : bool) (doc : A) (db : DB) :
  save M isNew doc db = (db, Answer (mkResponse 500 (Message "Server error")))
  \/ (validate M doc = true
      /\ save M isNew doc db =
           (with_coll M (if isNew then coll M db ++ [pre_save M doc]
                         else replace M (pre_save M doc) (coll M db)) db,
            Next (pre_save M doc))).
Proof.
  unfold save. destruct (validate M doc); simpl.
  - destruct (existsb _ _); [left | right]; auto.
  - left. reflexivity.
Qed.

Lemma save_ok {A : Type} (M : Model A) (isNew : bool) (doc : A) (db : DB) :
  validate M doc = true ->
  existsb (fun d => negb (id_of M d =? id_of M (pre_save M doc))%nat
                    && clash M d (pre_save M doc)) (coll M db) = false ->
  save M isNew doc db =
    (with_coll M (if isNew then coll M db ++ [pre_save M doc]
                  else replace M (pre_save M doc) (coll M db)) db,
     Next (pre_save M doc)).
Proof.
  intros V U. unfold save. rewrite V, U. reflexivity.
Qed.

Lemma in_replace {A : Type} (M : Model A) (doc x : A) (l : list A) :
  In x (replace M doc l) ->
  In x l \/ (x = doc /\ exists d, In d l /\ id_of M d = id_of M doc).
Proof.
  unfold replace. intro H. apply in_map_iff in H.
  destruct H as [d [E I]].
  destruct (id_of M d =? id_of M doc)%nat eqn:T.
  - right. split; [congruence|]. exists d. split; [exact I|].
    apply Nat.eqb_eq. exact T.
  - left. subst x. exact I.
Qed.

Lemma replace_in {A : Type} (M : Model A) (doc d : A) (l : list A) :
  In d l -> id_of M d = id_of M doc -> In doc (replace M doc l).
Proof.
  intros I E. unfold replace. apply in_map_iff. exists d. split; [|exact I].
  rewrite E, Nat.eqb_refl. reflexivity.
Qed.

Lemma find_replace_other {A : Type} (M : Model A) (doc : A) (id : nat) (l : list A) :
  id_of M doc <> id ->
  find (fun d => id_of M d =? id)%nat (replace M doc l)
  = find (fun d => id_of M d =? id)%nat l.
Proof.
  intro N. induction l as [|d l IH]; simpl; [reflexivity|].
  destruct (id_of M d =? id_of M doc)%nat eqn:T.
  - apply Nat.eqb_eq in T.
    assert (F1 : (id_of M doc =? id)%nat = false) by (apply Nat.eqb_neq; exact N).
    assert (F2 : (id_of M d =? id)%nat = false) by (apply Nat.eqb_neq; congruence).
    rewrite F1, F2. exact IH.
  - destruct (id_of M d =? id)%nat; [reflexivity | exact IH].
Qed.

Lemma find_app_some {A : Type} (f : A -> bool) (l l' : list A) (x : A) :
  find f l = Some x -> find f (l ++ l') = Some x.
Proof.
  induction l as [|d l IH]; simpl; [discriminate|].
  destruct (f d); auto.
Qed.

Lemma find_delete_other {A : Type} (M : Model A) (id id' : nat) (l : list A) :
  id' <> id ->
  find (fun d => id_of M d =? id)%nat
       (filter (fun d => negb (id_of M d =? id')%nat) l)
  = find (fun d => id_of M d =? id)%nat l.
Proof.
  intro N. induction l as [|d l IH]; simpl; [reflexivity|].
  destruct (id_of M d =? id')%nat eqn:T; simpl.
  - apply Nat.eqb_eq in T.
    assert (F : (id_of M d =? id)%nat = false) by (apply Nat.eqb_neq; congruence).
    rewrite F. exact IH.
  - destruct (id_of M d =? id)%nat; [reflexivity | exact IH].
Qed.

Lemma find_id {A : Type} (M : Model A) (id : nat) (l : list A) (x : A) :
  find (fun d => id_of M d =? id)%nat l = Some x -> In x l /\ id_of M x = id.
Proof.
  intro H. apply find_some in H. destruct H as [I E].
  split; [exact I | apply Nat.eqb_eq; exact E].
Qed.

(** ** Walking a handler *)

Ltac split_save H :=
  match type of H with
  | context [save ?M ?n ?d ?s] =>
      let E := fresh "E" in
      let V := fresh "V" in
      destruct (save_cases M n d s) as [E | [V E]];
      rewrite E in H; clear E; cbv beta iota in H
  end.

Ltac open_handler H :=
  unfold run, bind, findById, findOne, findAll, countDocuments, gets, answer,
    ret, newId, throw, findByIdAndDelete in H; cbv beta iota zeta in H.

Ltac leaf H :=
  inversion H; subst; clear H;
  cbn [sales customers bikes payments nextId with_coll coll id_of
       SaleM CustomerM BikeM PaymentM statusCode json] in *.

Ltac walk H :=
  repeat first
    [ progress (cbv beta iota zeta in H)
    | match type of H with
      | context [save ?M ?n ?d ?s] => split_save H
      | context [if invoiceWritten ?e then _ else _] =>
          let P := fresh "PDF" in destruct (invoiceWritten e) eqn:P
      | context [if Num.gtb ?a ?b then _ else _] =>
          let G := fresh "G" in destruct (Num.gtb a b) eqn:G
      end ].

(** every way [createSale] can end, each with the store it leaves *)
Ltac sale_walk H :=
  unfold Sales.createSale in H;
  destruct (Sales.validationResult _) eqn:?VR in H;
  [ cbv beta iota zeta in H; unfold negb in H; open_handler H;
    cbn [coll BikeM CustomerM] in H;
    destruct (find _ (bikes _)) as [?bike|] eqn:?FB in H;
    [ destruct (Bike.status _ =? "available")%string eqn:?AV in H;
      [ cbv beta iota zeta in H;
        destruct (find _ (customers _)) as [?c0|] eqn:?FC in H;
        unfold Sales.generateInvoicePDF, ret, throw, answer in H;
        walk H; leaf H
      | leaf H ]
    | leaf H ]
  | leaf H ].

Ltac sale_fields :=
  unfold Sale.pre_save, Sale.set_invoicePath, Sales.newSale in *;
  cbn [Sale._id Sale.saleNumber Sale.bikeId Sale.customerId Sale.sellingPrice
       Sale.discount Sale.finalAmount Sale.profit Sale.profitPercent
       Sale.invoicePath] in *.

(** ** The sale workflow *)


Lemma sale_valid_amounts (s : Sale.t) :
  Sale.validate s = true ->
  Num.geb (Sale.discount s) n0 = true /\ Num.geb (Sale.finalAmount s) n0 = true.
Proof.
  unfold Sale.validate, number_path, min_ok. cbn [forallb].
  intro V. repeat (apply andb_true_iff in V; destruct V as [V ?]).
  repeat match goal with
         | H : (_ && _) = true |- _ => apply andb_true_iff in H; destruct H
         end.
  split; assumption.
Qed.

Lemma finalAmount_finite (req : Sales.Request) :
  Sales.validationResult req = true ->
  Num.geb (Sales.discountOf req) n0 = true ->
  Num.geb (Sales.finalAmount req) n0 = true ->
  exists q, Sales.finalAmount req = Fin q /\ 0 <= q.
Proof.
  unfold Sales.validationResult, Sales.finalAmount. intros V D F.
  repeat (apply andb_true_iff in V; destruct V as [V ?]).
  destruct (Sales.sellingPrice req) as [a| | |]; try discriminate.
  destruct (Sales.discountOf req) as [b| | |]; try discriminate.
  simpl in *. exists (a + - b). split; [reflexivity|].
  apply Qle_bool_iff. exact F.
Qed.

(** C5. A request to sell a bike that is not available is answered with an
    error and leaves the store as it was: no sale, no customer and no bike
    is written. *)
Theorem unavailable_bike_sale_rejected (env : Env) (req : Sales.Request) (db : DB)
  (bike : Bike.t) :
  find (fun d => Bike._id d =? Sales.bikeId req)%nat (bikes db) = Some bike ->
  Bike.status bike <> "available" ->
  exists b, run (Sales.createSale env req) db = (db, mkResponse 400 b).
Proof.
  intros F N. unfold run, Sales.createSale.
  destruct (Sales.validationResult req); simpl.
  2:{ eexists. reflexivity. }
  unfold bind, findById, gets. simpl. rewrite F.
  destruct (Bike.status bike =? "available")%string eqn:E.
  - apply String.eqb_eq in E. contradiction.
  - simpl. eexists. reflexivity.
Qed.

Lemma unavailable_bike_sale_rejected_witness :
  exists b, run (Sales.createSale Examples.env Examples.resale) Examples.sold_db
            = (Examples.sold_db, mkResponse 400 b).
Proof.
  apply (unavailable_bike_sale_rejected Examples.env Examples.resale
           Examples.sold_db Examples.sold_bike).
  - vm_compute. reflexivity.
  - vm_compute. discriminate.
Defined.







(** C3, on the code.  In Scenario A (bought at 100000, sold at 130000 with a
    discount of 5000) the sale is stored with profit 25000 and 25 percent,
    and the handler assigns these to the bike; the bike's [pre('save')] hook
    then recomputes them from [sellPrice - buyPrice], so that the stored
    bike carries profit 30000 and 30 percent. *)
Theorem scenarioA_bike_profit :
  exists b s,
    bikes (fst ScenarioA.result) = [b]
    /\ snd ScenarioA.result = mkResponse 201 (SaleJson s)
    /\ Sale.profit s = Fin 25000
    /\ Num.eq (Sale.profitPercent s) (Fin 25)
    /\ Bike.status b = "sold"
    /\ Bike.sellPrice b = Some (Fin 130000)
    /\ Bike.sellDate b = Some (now ScenarioA.env)
    /\ Bike.saleId b = Some (Sale._id s)
    /\ Bike.profit b = Some (Fin 30000)
    /\ Num.eq (toNumber (Bike.profitPercent b)) (Fin 30).
Proof.
  eexists. eexists.
  split; [vm_compute; reflexivity|].
  split; [vm_compute; reflexivity|].
  repeat split; vm_compute; reflexivity.
Qed.

(** what the bike's hook leaves of the profit the handler assigned *)
Lemma sold_bike_hook (env : Env) (req : Sales.Request) (bike : Bike.t) (s : Sale.t) :
  let b := Bike.pre_save (Sales.soldBike env req bike s) in
  Bike._id b = Bike._id bike
  /\ Bike.status b = "sold"
  /\ Bike.sellPrice b = Some (Sales.sellingPrice req)
  /\ Bike.sellDate b = Some (now env)
  /\ Bike.saleId b = Some (Sale._id s)
  /\ Bike.profit b =
       (if Num.truthy (Sales.sellingPrice req) && truthy_opt (Bike.buyPrice bike)
        then Some (Num.sub (Sales.sellingPrice req) (toNumber (Bike.buyPrice bike)))
        else Some (Sales.profit req bike)).
Proof.
  unfold Bike.pre_save, Sales.soldBike; cbn -[Num.sub Num.div Num.mul Num.ceil].
  destruct (Num.truthy (Sales.sellingPrice req) && truthy_opt (Bike.buyPrice bike));
    destruct (Bike.purchaseDate bike); cbn -[Num.sub Num.div Num.mul Num.ceil];
    repeat split.
Qed.

(** ** Derived fields on save *)

Lemma save_next {A : Type} (M : Model A) (isNew : bool) (doc doc' : A)
  (db db' : DB) :
  save M isNew doc db = (db', Next doc') ->
  validate M doc = true
  /\ doc' = pre_save M doc
  /\ db' = with_coll M (if isNew then coll M db ++ [doc']
                        else replace M doc' (coll M db)) db.
Proof.
  intro H. destruct (save_cases M isNew doc db) as [E | [V E]];
    rewrite E in H; inversion H; subst. auto.
Qed.

Lemma customer_tier (c : Customer.t) :
  let c' := Customer.pre_save c in
  let spent := toNumber (Customer.totalSpent c') in
  Customer.totalSpent c' = Customer.totalSpent c
  /\ (Customer.customerType c' = "VIP" <-> Num.geb spent (Fin 500000) = true)
  /\ (Customer.customerType c' = "Premium" <->
      Num.geb spent (Fin 200000) = true /\ Num.ltb spent (Fin 500000) = true)
  /\ (Customer.customerType c' = "Regular" <->
      Num.geb spent (Fin 500000) = false
      /\ ~ (Num.geb spent (Fin 200000) = true /\ Num.ltb spent (Fin 500000) = true)).
Proof.
  unfold Customer.pre_save.
  destruct (Num.geb (toNumber (Customer.totalSpent c)) (Fin 500000)) eqn:V;
    [| destruct (Num.geb (toNumber (Customer.totalSpent c)) (Fin 200000)) eqn:P];
    cbn [Customer.set_customerType Customer.customerType Customer.totalSpent];
    rewrite ?V, ?P.
  - repeat split; try discriminate; intros; try reflexivity.
    + destruct H as [_ L].
      apply geb_false_ltb in L; [congruence | | reflexivity].
      apply (geb_not_nan _ _ V).
    + destruct H; discriminate.
  - assert (L : Num.ltb (toNumber (Customer.totalSpent c)) (Fin 500000) = true).
    { apply geb_false_ltb; [apply (geb_not_nan _ _ P) | reflexivity | exact V]. }
    rewrite L. repeat split; try discriminate; intros; try reflexivity.
    destruct H as [_ N]. exfalso. apply N. split; reflexivity.
  - repeat split; try discriminate; intros; try reflexivity.
    + destruct H; discriminate.
    + intros [X _]. discriminate.
Qed.

(** C8. A customer that is saved is stored with the tier of its total
    spent, whatever tier it had and whether or not the total changed:
    [VIP] iff [totalSpent >= 500000], [Premium] iff
    [200000 <= totalSpent < 500000], [Regular] otherwise. *)
Theorem customer_tier_on_save (isNew : bool) (c c' : Customer.t) (db db' : DB) :
  save CustomerM isNew c db = (db', Next c') ->
  let spent := toNumber (Customer.totalSpent c') in
  Customer.totalSpent c' = Customer.totalSpent c
  /\ customers db' = (if isNew then customers db ++ [c']
                      else replace CustomerM c' (customers db))%list
  /\ (Customer.customerType c' = "VIP" <-> Num.geb spent (Fin 500000) = true)
  /\ (Customer.customerType c' = "Premium" <->
      Num.geb spent (Fin 200000) = true /\ Num.ltb spent (Fin 500000) = true)
  /\ (Customer.customerType c' = "Regular" <->
      Num.geb spent (Fin 500000) = false
      /\ ~ (Num.geb spent (Fin 200000) = true /\ Num.ltb spent (Fin 500000) = true)).
Proof.
  intro H. apply save_next in H. destruct H as [_ [E D]].
  cbn [pre_save CustomerM] in E. subst c'.
  destruct (customer_tier c) as [T [V [P R]]].
  split; [exact T|]. split; [subst db'; destruct isNew; reflexivity|].
  split; [exact V|]. split; [exact P | exact R].
Qed.

Lemma customer_tier_on_save_witness :
  Customer.customerType (Customer.pre_save Examples.vip) = "VIP"
  <-> Num.geb (toNumber (Customer.totalSpent (Customer.pre_save Examples.vip)))
        (Fin 500000) = true.
Proof.
  assert (H : save CustomerM true Examples.vip Examples.empty_db
              = (mkDB [] [Customer.pre_save Examples.vip] [] [] 0,
                 Next (Customer.pre_save Examples.vip)))
    by (vm_compute; reflexivity).
  exact (proj1 (proj2 (proj2 (customer_tier_on_save _ _ _ _ _ H)))).
Defined.

Lemma payment_valid_amounts (p : Payment.t) :
  Payment.validate p = true ->
  Num.geb (Payment.totalAmount p) n0 = true
  /\ Num.geb (Payment.paidAmount p) n0 = true
  /\ Num.geb (Payment.remainingAmount p) n0 = true.
Proof.
  unfold Payment.validate, number_path, min_ok. cbn [forallb].
  intro V. repeat (apply andb_true_iff in V; destruct V as [V ?]).
  repeat match goal with
         | H : (_ && _) = true |- _ => apply andb_true_iff in H; destruct H
         end.
  repeat split; assumption.
Qed.

Lemma payment_status (p : Payment.t) :
  Num.geb (Payment.totalAmount p) n0 = true ->
  Num.geb (Payment.paidAmount p) n0 = true ->
  let p' := Payment.pre_save p in
  let paid := Payment.paidAmount p' in
  let total := Payment.totalAmount p' in
  paid = Payment.paidAmount p
  /\ total = Payment.totalAmount p
  /\ Payment.paymentLogs p' = Payment.paymentLogs p
  /\ Payment.remainingAmount p' = Num.sub total paid
  /\ (Payment.status p' = "pending" <-> Num.eqb paid n0 = true)
  /\ (Payment.status p' = "partial" <->
      Num.ltb n0 paid = true /\ Num.ltb paid total = true)
  /\ (Payment.status p' = "completed" <->
      Num.ltb n0 paid = true /\ Num.geb paid total = true).
Proof.
  intros T P. unfold Payment.pre_save.
  cbn [Payment.paidAmount Payment.totalAmount Payment.remainingAmount
       Payment.status Payment.paymentLogs].
  repeat (split; [reflexivity|]).
  pose proof (geb_not_nan _ _ T) as NT. pose proof (geb_not_nan _ _ P) as NP.
  destruct (Num.eqb (Payment.paidAmount p) n0) eqn:Z.
  - assert (L : Num.ltb n0 (Payment.paidAmount p) = false).
    { destruct (Num.ltb n0 (Payment.paidAmount p)) eqn:L; [|reflexivity].
      rewrite (positive_not_zero _ L) in Z. discriminate. }
    rewrite L. repeat split; try discriminate; intros; try reflexivity;
      destruct H; discriminate.
  - rewrite (positive_of_nonneg _ P Z).
    destruct (Num.ltb (Payment.paidAmount p) (Payment.totalAmount p)) eqn:L.
    + assert (G : Num.geb (Payment.paidAmount p) (Payment.totalAmount p) = false).
      { destruct (Num.geb (Payment.paidAmount p) (Payment.totalAmount p)) eqn:G;
          [|reflexivity].
        apply (ltb_false_geb _ _ NP NT) in G. congruence. }
      rewrite G. repeat split; try discriminate; intros; try reflexivity.
      destruct H; discriminate.
    + apply (ltb_false_geb _ _ NP NT) in L. rewrite L.
      repeat split; try discriminate; intros; try reflexivity.
      destruct H; discriminate.
Qed.

(** C7, as the code has it.  A payment that is saved is stored with
    [remainingAmount = totalAmount - paidAmount] and a status derived from
    the paid amount alone, whatever remaining amount and status the caller
    supplied: [pending] iff [paidAmount = 0], [partial] iff
    [0 < paidAmount < totalAmount], and [completed] iff [paidAmount > 0]
    and [paidAmount >= totalAmount]. *)
Theorem payment_derived_on_save (isNew : bool) (p p' : Payment.t) (db db' : DB) :
  save PaymentM isNew p db = (db', Next p') ->
  let paid := Payment.paidAmount p' in
  let total := Payment.totalAmount p' in
  paid = Payment.paidAmount p
  /\ total = Payment.totalAmount p
  /\ payments db' = (if isNew then payments db ++ [p']
                     else replace PaymentM p' (payments db))%list
  /\ Payment.remainingAmount p' = Num.sub total paid
  /\ (Payment.status p' = "pending" <-> Num.eqb paid n0 = true)
  /\ (Payment.status p' = "partial" <->
      Num.ltb n0 paid = true /\ Num.ltb paid total = true)
  /\ (Payment.status p' = "completed" <->
      Num.ltb n0 paid = true /\ Num.geb paid total = true).
Proof.
  intro H. apply save_next in H. destruct H as [V [E D]].
  cbn [pre_save validate PaymentM] in E, V. subst p'.
  destruct (payment_valid_amounts _ V) as [T [P _]].
  destruct (payment_status p T P) as [E1 [E2 [_ [R [S1 [S2 S3]]]]]].
  split; [exact E1|]. split; [exact E2|].
  split; [subst db'; destruct isNew; reflexivity|].
  split; [exact R|]. split; [exact S1|]. split; [exact S2 | exact S3].
Qed.

Lemma payment_derived_on_save_witness :
  Payment.status (Payment.pre_save Examples.part_paid) = "partial"
  <-> Num.ltb n0 (Payment.paidAmount (Payment.pre_save Examples.part_paid)) = true
      /\ Num.ltb (Payment.paidAmount (Payment.pre_save Examples.part_paid))
           (Payment.totalAmount (Payment.pre_save Examples.part_paid)) = true.
Proof.
  assert (H : save PaymentM true Examples.part_paid Examples.empty_db
              = (mkDB [] [] [] [Payment.pre_save Examples.part_paid] 0,
                 Next (Payment.pre_save Examples.part_paid)))
    by (vm_compute; reflexivity).
  exact (proj1 (proj2 (proj2 (proj2 (proj2 (proj2
           (payment_derived_on_save _ _ _ _ _ H))))))).
Defined.

(** C7 as stated fails: a payment saved with a paid amount above its total
    is stored [completed] although the two amounts differ, and a payment of
    total zero with nothing paid is stored [pending] although the two
    amounts are equal. *)
Lemma payment_completed_not_iff_equal :
  (exists db' p',
     save PaymentM true Examples.overpaid Examples.empty_db = (db', Next p')
     /\ In p' (payments db')
     /\ Payment.status p' = "completed"
     /\ ~ Num.eq (Payment.paidAmount p') (Payment.totalAmount p'))
  /\ (exists db' p',
        save PaymentM true Examples.nothing_due Examples.empty_db = (db', Next p')
        /\ In p' (payments db')
        /\ Num.eq (Payment.paidAmount p') (Payment.totalAmount p')
        /\ Payment.status p' <> "completed").
Proof.
  split.
  - exists (mkDB [] [] [] [Payment.pre_save Examples.overpaid] 0).
    exists (Payment.pre_save Examples.overpaid).
    split; [vm_compute; reflexivity|].
    split; [left; reflexivity|].
    split; [vm_compute; reflexivity|].
    vm_compute. discriminate.
  - exists (mkDB [] [] [] [Payment.pre_save Examples.nothing_due] 0).
    exists (Payment.pre_save Examples.nothing_due).
    split; [vm_compute; reflexivity|].
    split; [left; reflexivity|].
    split; [vm_compute; reflexivity|].
    vm_compute. discriminate.
Qed.

(** ** The payment ledger *)

Lemma no_clash_payments (p : Payment.t) (l : list Payment.t) :
  existsb (fun d => negb (id_of PaymentM d =? id_of PaymentM p)%nat
                    && clash PaymentM d p) l = false.
Proof.
  induction l as [|d l IH]; simpl; [reflexivity|].
  rewrite andb_false_r. exact IH.
Qed.

Lemma paid_more_valid (paid amount : number) :
  Num.geb paid n0 = true -> isFloat_min (1 # 100) amount = true ->
  number_path true [min_ok n0] (Some (Num.add paid amount)) = true
  /\ number_path true [min_ok n0] (Some amount) = true.
Proof.
  unfold isFloat_min, number_path, min_ok, castable. cbn [forallb].
  destruct amount as [q| | |]; try discriminate.
  intros P A. apply Qle_bool_iff in A.
  destruct paid as [a| | |]; try discriminate; simpl in *.
  - apply Qle_bool_iff in P.
    assert (L1 : Qle_bool 0 (a + q) = true) by (apply Qle_bool_iff; lra).
    assert (L2 : Qle_bool 0 q = true) by (apply Qle_bool_iff; lra).
    rewrite L1, L2. auto.
  - assert (L2 : Qle_bool 0 q = true) by (apply Qle_bool_iff; lra).
    rewrite L2. auto.
Qed.

Lemma recorded_valid (p : Payment.t) (req : Payments.Request) :
  Payment.validate p = true ->
  Payments.validationResult req = true ->
  Payment.validate
    (Payment.mk (Payment._id p) (Payment.saleId p) (Payment.bikeId p)
       (Payment.customerId p) (Payment.totalAmount p)
       (Num.add (Payment.paidAmount p) (Payments.amount req))
       (Payment.remainingAmount p) (Payment.status p)
       (Payment.paymentLogs p
        ++ [PaymentLog.mk (Payments.amount req)
              (assign (Payments.paymentDate req) 0%Z)
              (Payments.paymentMethod req) (Payments.notes req)
              (Payments.user req)])
       (Payment.dueDate p) (Payment.notes p)) = true.
Proof.
  intros V R. destruct (payment_valid_amounts _ V) as [_ [P _]].
  unfold Payments.validationResult in R.
  apply andb_true_iff in R. destruct R as [R RD].
  apply andb_true_iff in R. destruct R as [RA RM].
  destruct (paid_more_valid _ _ P RA) as [A1 A2].
  unfold Payment.validate in *.
  cbn [Payment.totalAmount Payment.paidAmount Payment.remainingAmount
       Payment.status Payment.paymentLogs].
  apply andb_true_iff in V. destruct V as [V VL].
  apply andb_true_iff in V. destruct V as [V VS].
  apply andb_true_iff in V. destruct V as [V VR].
  apply andb_true_iff in V. destruct V as [VT VP].
  rewrite VT, A1, VR, VS. cbn [andb].
  rewrite forallb_app, VL. cbn [andb forallb]. rewrite andb_true_r.
  unfold PaymentLog.validate.
  cbn [PaymentLog.amount PaymentLog.paymentMethod].
  rewrite A2, RM. unfold required_string.
  rewrite (isIn_notEmpty Sale.paymentModes _ eq_refl RM). reflexivity.
Qed.

(** C6, as the code has it.  For a request that passes the validators
    (amount at least 0.01, an enumerated method, a valid date) on an
    existing payment: when the amount exceeds the remaining amount the
    request is answered [400] and the store is as before; otherwise the
    stored payment gets exactly one more log entry, of that amount, its
    paid amount grows by that amount, and remaining amount and status are
    recomputed from total and paid amount. *)
Theorem record_payment (id : nat) (req : Payments.Request) (db : DB)
  (p : Payment.t) :
  Payments.validationResult req = true ->
  find (fun d => Payment._id d =? id)%nat (payments db) = Some p ->
  (Num.gtb (Payments.amount req) (Payment.remainingAmount p) = true ->
   run (Payments.recordPayment id req) db
   = (db, mkResponse 400 (Message "Payment amount cannot exceed remaining amount")))
  /\ (Num.gtb (Payments.amount req) (Payment.remainingAmount p) = false ->
      Payment.validate p = true ->
      exists p' log,
        run (Payments.recordPayment id req) db
        = (mkDB (bikes db) (customers db) (sales db)
             (replace PaymentM p' (payments db)) (nextId db),
           mkResponse 200 (PaymentJson p'))
        /\ In p' (replace PaymentM p' (payments db))
        /\ Payment.paymentLogs p' = (Payment.paymentLogs p ++ [log])%list
        /\ PaymentLog.amount log = Payments.amount req
        /\ Payment.paidAmount p' = Num.add (Payment.paidAmount p) (Payments.amount req)
        /\ Payment.totalAmount p' = Payment.totalAmount p
        /\ Payment.remainingAmount p'
           = Num.sub (Payment.totalAmount p') (Payment.paidAmount p')
        /\ (Payment.status p' = "pending" <-> Num.eqb (Payment.paidAmount p') n0 = true)
        /\ (Payment.status p' = "partial" <->
            Num.ltb n0 (Payment.paidAmount p') = true
            /\ Num.ltb (Payment.paidAmount p') (Payment.totalAmount p') = true)
        /\ (Payment.status p' = "completed" <->
            Num.ltb n0 (Payment.paidAmount p') = true
            /\ Num.geb (Payment.paidAmount p') (Payment.totalAmount p') = true)).
Proof.
  intros R F. unfold run, Payments.recordPayment. rewrite R.
  cbv beta iota zeta. unfold negb, bind, findById, gets.
  cbn [coll id_of PaymentM]. rewrite F. cbv beta iota.
  split; intro G; rewrite G; [reflexivity|].
  intro V.
  pose proof (recorded_valid p req V R) as V'.
  match type of V' with
  | Payment.validate ?d = true =>
      rewrite (save_ok PaymentM false d db V' (no_clash_payments _ _));
      set (doc := d) in *
  end.
  cbv beta iota. exists (Payment.pre_save doc).
  eexists. split; [reflexivity|].
  destruct (find_id PaymentM id _ _ F) as [I Ei].
  split; [apply (replace_in PaymentM _ p); [exact I | reflexivity]|].
  destruct (payment_valid_amounts _ V') as [T [P _]].
  destruct (payment_status doc T P) as [E1 [E2 [L [Rm [S1 [S2 S3]]]]]].
  split; [rewrite L; reflexivity|].
  split; [reflexivity|].
  split; [exact E1|]. split; [exact E2|]. split; [exact Rm|].
  split; [exact S1|]. split; [exact S2 | exact S3].
Qed.

Lemma record_payment_witness :
  exists p' log,
    run (Payments.recordPayment 10 (Examples.pay (Fin 100))) Examples.pay_db
    = (mkDB [] [] [] (replace PaymentM p' [Examples.part_paid]) 11,
       mkResponse 200 (PaymentJson p'))
    /\ Payment.paymentLogs p' = [log]
    /\ PaymentLog.amount log = Fin 100
    /\ Payment.paidAmount p' = Num.add (Fin 400) (Fin 100).
Proof.
  destruct (record_payment 10 (Examples.pay (Fin 100)) Examples.pay_db
              Examples.part_paid) as [_ A].
  - vm_compute. reflexivity.
  - vm_compute. reflexivity.
  - destruct A as [p' [log [E [_ [L [Am [P _]]]]]]].
    + vm_compute. reflexivity.
    + vm_compute. reflexivity.
    + exists p', log. repeat split; assumption.
Defined.

(** C6 as stated fails: an amount of zero does not exceed the remaining
    amount of 600, and yet the request is refused by the validators and no
    log entry is appended. *)
Lemma record_payment_zero_refused :
  Num.gtb (Payments.amount (Examples.pay (Fin 0)))
    (Payment.remainingAmount Examples.part_paid) = false
  /\ find (fun d => Payment._id d =? 10)%nat (payments Examples.pay_db)
     = Some Examples.part_paid
  /\ run (Payments.recordPayment 10 (Examples.pay (Fin 0))) Examples.pay_db
     = (Examples.pay_db, mkResponse 400 InvalidInput).
Proof.
  repeat split; vm_compute; reflexivity.
Qed.

(** ** Sold bikes and the bikes router *)

Lemma update_sold_refused (env : Env) (id : nat) (b : Bikes.Body) (db : DB)
  (bike : Bike.t) :
  find (fun d => Bike._id d =? id)%nat (bikes db) = Some bike ->
  Bike.status bike = "sold" ->
  exists body, run (Bikes.updateBike env id b) db = (db, mkResponse 400 body).
Proof.
  intros F S. unfold run, Bikes.updateBike.
  destruct (Bikes.validationResult env b); cbv beta iota zeta; unfold negb.
  2:{ eexists. reflexivity. }
  unfold bind, findById, gets. cbn [coll id_of BikeM]. rewrite F.
  cbv beta iota. rewrite S. cbn [String.eqb]. eexists. reflexivity.
Qed.

Lemma delete_sold_refused (env : Env) (id : nat) (db : DB) (bike : Bike.t) :
  find (fun d => Bike._id d =? id)%nat (bikes db) = Some bike ->
  Bike.status bike = "sold" ->
  run (Bikes.deleteBike env id) db
  = (db, mkResponse 400 (Message "Cannot delete sold bike")).
Proof.
  intros F S. unfold run, Bikes.deleteBike, bind, findById, gets.
  cbn [coll id_of BikeM]. rewrite F. cbv beta iota. rewrite S. reflexivity.
Qed.

Lemma pre_save_bike_id (b : Bike.t) : Bike._id (Bike.pre_save b) = Bike._id b.
Proof.
  unfold Bike.pre_save.
  destruct (truthy_opt (Bike.sellPrice b) && truthy_opt (Bike.buyPrice b));
    cbn [Bike.sellDate Bike.purchaseDate];
    destruct (Bike.sellDate b), (Bike.purchaseDate b); reflexivity.
Qed.

Lemma kept_under_update (env : Env) (doc : Bike.t) (id : nat) (l : list Bike.t)
  (bike : Bike.t) :
  Bike._id doc <> id ->
  find (fun d => Bike._id d =? id)%nat l = Some bike ->
  find (fun d => Bike._id d =? id)%nat
       (replace (BikeM (yearMax env)) (Bike.pre_save doc) l) = Some bike.
Proof.
  intros N F. rewrite <- F.
  apply (find_replace_other (BikeM (yearMax env)) (Bike.pre_save doc) id l).
  cbn [id_of BikeM]. rewrite pre_save_bike_id. exact N.
Qed.

Lemma bikes_api_keeps_sold (env : Env) (op : Op) (db : DB) (id : nat)
  (bike : Bike.t) :
  bikes_api op = true ->
  find (fun d => Bike._id d =? id)%nat (bikes db) = Some bike ->
  Bike.status bike = "sold" ->
  find (fun d => Bike._id d =? id)%nat (bikes (fst (step env op db))) = Some bike.
Proof.
  intros A F S. destruct op; try discriminate A; clear A; unfold step, handler.
  - (* add *)
    destruct (run (Bikes.addBike env b) db) as [db' resp] eqn:H.
    unfold Bikes.addBike in H.
    destruct (Bikes.validationResult env b && Bikes.purchaseDate_valid b) in H;
      cbv beta iota zeta in H; unfold negb in H; open_handler H;
      cbn [coll BikeM] in H; [|leaf H; exact F].
    destruct (find _ (bikes db)) in H; [leaf H; exact F|].
    walk H; leaf H; try exact F.
    apply find_app_some. exact F.
  - (* update *)
    destruct (run (Bikes.updateBike env id0 b) db) as [db' resp] eqn:H.
    unfold Bikes.updateBike in H.
    destruct (Bikes.validationResult env b) in H;
      cbv beta iota zeta in H; unfold negb in H; open_handler H;
      cbn [coll id_of BikeM] in H; [|leaf H; exact F].
    destruct (find _ (bikes db)) as [other|] eqn:FO in H; [|leaf H; exact F].
    destruct (Bike.status other =? "sold")%string eqn:SO in H; [leaf H; exact F|].
    assert (N : Bike._id other <> id).
    { intro E. destruct (find_id (BikeM (yearMax env)) id0 _ _ FO) as [_ Eo].
      cbn [id_of BikeM] in Eo. rewrite E in Eo. subst id0.
      rewrite F in FO. inversion FO; subst other. rewrite S in SO. discriminate. }
    destruct (toUpperCase (trim (Bikes.bikeNumber b)) =? Bike.bikeNumber other)%string in H;
      cbv beta iota zeta in H; unfold negb in H.
    + walk H; leaf H; try exact F.
      apply (kept_under_update env); assumption.
    + destruct (find _ (bikes db)) in H; [leaf H; exact F|].
      walk H; leaf H; try exact F.
      apply (kept_under_update env); assumption.
  - (* delete *)
    destruct (run (Bikes.deleteBike env id0) db) as [db' resp] eqn:H.
    unfold Bikes.deleteBike in H. open_handler H. cbn [coll id_of BikeM] in H.
    destruct (find _ (bikes db)) as [other|] eqn:FO in H; [|leaf H; exact F].
    destruct (Bike.status other =? "sold")%string eqn:SO in H; [leaf H; exact F|].
    assert (N : id0 <> id).
    { intro E. subst id0. rewrite F in FO. inversion FO; subst other.
      rewrite S in SO. discriminate. }
    leaf H. cbn [fst bikes]. rewrite <- F.
    apply (find_delete_other (BikeM (yearMax env)) id id0 (bikes db)). exact N.
Qed.

(** C10. A sold bike is refused by the update and the delete endpoint of
    the bikes router, with the store left as it was; so through any
    sequence of requests to the bikes router the bike stays in the store,
    unchanged and sold. *)
Theorem sold_bike_is_kept (db : DB) (id : nat) (bike : Bike.t) :
  find (fun d => Bike._id d =? id)%nat (bikes db) = Some bike ->
  Bike.status bike = "sold" ->
  (forall env b, exists body,
      run (Bikes.updateBike env id b) db = (db, mkResponse 400 body))
  /\ (forall env,
        run (Bikes.deleteBike env id) db
        = (db, mkResponse 400 (Message "Cannot delete sold bike")))
  /\ (forall l, forallb (fun r => bikes_api (snd r)) l = true ->
        find (fun d => Bike._id d =? id)%nat (bikes (steps l db)) = Some bike).
Proof.
  intros F S.
  split; [intros env b; apply (update_sold_refused env id b db bike F S)|].
  split; [intro env; apply (delete_sold_refused env id db bike F S)|].
  intro l. revert db F. induction l as [|[env op] l IH]; intros db F A.
  - exact F.
  - cbn [forallb snd] in A. apply andb_true_iff in A. destruct A as [A1 A2].
    cbn [steps]. apply IH; [|exact A2].
    apply bikes_api_keeps_sold; assumption.
Qed.

Lemma sold_bike_is_kept_witness :
  (forall env b, exists body,
      run (Bikes.updateBike env 1 b) Examples.sold_db
      = (Examples.sold_db, mkResponse 400 body))
  /\ (forall env,
        run (Bikes.deleteBike env 1) Examples.sold_db
        = (Examples.sold_db, mkResponse 400 (Message "Cannot delete sold bike")))
  /\ (forall l, forallb (fun r => bikes_api (snd r)) l = true ->
        find (fun d => Bike._id d =? 1)%nat (bikes (steps l Examples.sold_db))
        = Some Examples.sold_bike).
Proof.
  apply (sold_bike_is_kept Examples.sold_db 1 Examples.sold_bike).
  - vm_compute. reflexivity.
  - vm_compute. reflexivity.
Defined.

(** ** The customer aggregates *)

Ltac walk_any H :=
  repeat first
    [ progress (cbv beta iota zeta in H)
    | match type of H with
      | context [save ?M ?n ?d ?s] => split_save H
      | context [if ?c then _ else _] => destruct c eqn:?
      | context [match ?c with Some _ => _ | None => _ end] => destruct c eqn:?
      end ].

Lemma pre_save_customer_fields (c : Customer.t) :
  Customer._id (Customer.pre_save c) = Customer._id c
  /\ Customer.totalSpent (Customer.pre_save c) = Customer.totalSpent c
  /\ Customer.totalBikesBought (Customer.pre_save c) = Customer.totalBikesBought c.
Proof.
  unfold Customer.pre_save.
  destruct (Num.geb _ _); [|destruct (Num.geb _ _)]; repeat split.
Qed.

Lemma charged_aggregates (env : Env) (req : Sales.Request) (c : Customer.t) :
  Num.geb (Sales.finalAmount req) n0 = true ->
  aggregates_charged req c (Customer.pre_save (Sales.charged env req c)).
Proof.
  intro G. destruct (pre_save_customer_fields (Sales.charged env req c))
    as [E1 [E2 E3]].
  unfold aggregates_charged. rewrite E1, E2, E3. repeat split. exact G.
Qed.

Lemma customers_untouched (env : Env) (op : Op) (db db' : DB) (resp : Response) :
  match op with
  | CreateSale _ | AddCustomer _ | UpdateCustomer _ _ | DeleteCustomer _ => False
  | _ => True
  end ->
  step env op db = (db', resp) -> customers db' = customers db.
Proof.
  intros T H. destruct op; try contradiction; unfold step, handler in H.
  - unfold Bikes.addBike in H. open_handler H. cbn [coll id_of BikeM] in H.
    walk_any H; leaf H; reflexivity.
  - unfold Bikes.updateBike in H. open_handler H. cbn [coll id_of BikeM] in H.
    walk_any H; leaf H; reflexivity.
  - unfold Bikes.deleteBike in H. open_handler H. cbn [coll id_of BikeM] in H.
    walk_any H; leaf H; reflexivity.
  - unfold Payments.recordPayment in H. open_handler H.
    cbn [coll id_of PaymentM] in H. walk_any H; leaf H; reflexivity.
  - unfold Payments.updatePayment in H. open_handler H.
    cbn [coll id_of PaymentM] in H. walk_any H; leaf H; reflexivity.
  - unfold AI64.priceSuggestion in H. open_handler H. cbn [coll id_of BikeM] in H.
    walk_any H; leaf H; reflexivity.
Qed.

Ltac split_in :=
  repeat match goal with
         | I : In _ (replace _ _ _) |- _ =>
             apply in_replace in I; destruct I as [I | [I _]]
         | I : In _ (_ ++ _)%list |- _ =>
             apply in_app_iff in I; destruct I as [I | I]
         | I : In _ [_] |- _ => destruct I as [I | []]
         end.

Lemma sale_charges_customer (env : Env) (req : Sales.Request) (db db' : DB)
  (resp : Response) (c' : Customer.t) :
  run (Sales.createSale env req) db = (db', resp) ->
  In c' (customers db') ->
  In c' (customers db)
  \/ Customer._id c' = nextId db
  \/ exists c, In c (customers db) /\ aggregates_charged req c c'.
Proof.
  intros H I.
  sale_walk H; split_in; subst; try (left; assumption);
    try match goal with
        | V : validate SaleM (Sales.newSale _ _ _ _ _) = true |- _ =>
            apply sale_valid_amounts in V; destruct V as [_ V];
            unfold Sales.newSale in V; cbn [Sale.finalAmount] in V
        end.
  all: try (right; left;
            repeat rewrite (proj1 (pre_save_customer_fields _));
            reflexivity).
  all: right; right;
    match goal with
    | FC : find _ (customers _) = Some ?c |- _ =>
        exists c; split; [exact (proj1 (find_some _ _ FC))|];
        apply charged_aggregates; assumption
    end.
Qed.

Lemma update_assigns_customer (id : nat) (b : Customers.Body) (db db' : DB)
  (resp : Response) (c' : Customer.t) :
  run (Customers.updateCustomer id b) db = (db', resp) ->
  In c' (customers db') ->
  In c' (customers db)
  \/ exists c, In c (customers db) /\ Customer._id c = id
               /\ aggregates_assigned b c c'.
Proof.
  intros H I. unfold Customers.updateCustomer in H. open_handler H.
  cbn [coll id_of CustomerM] in H.
  destruct (Customers.validationResult b) in H; cbn [negb] in H;
    [|leaf H; left; exact I].
  destruct (find _ (customers db)) as [c|] eqn:F in H; [|leaf H; left; exact I].
  destruct (find_id CustomerM id _ _ F) as [Ic Eid]. cbn [id_of CustomerM] in Eid.
  walk_any H; leaf H; split_in; subst; try (left; assumption).
  all: right; exists c; split; [exact Ic|]; split; [first [assumption | reflexivity]|];
    unfold aggregates_assigned;
    match goal with
    | |- context [Customer.pre_save ?d] =>
        destruct (pre_save_customer_fields d) as [E1 [E2 E3]];
        rewrite E1, E2, E3
    end; repeat split.
Qed.

(** C4, as the code has it.  Whatever the request, a customer in the store
    after it is a customer of the store before it, or was created by the
    request, or was charged by the sale workflow (final amount, which is
    not negative, added to the total spent and one to the bikes bought), or
    was written by the customer update endpoint (each aggregate set to the
    value in the request body, and kept when the body carries none). *)
Theorem customer_aggregates (env : Env) (op : Op) (db db' : DB) (resp : Response)
  (c' : Customer.t) :
  step env op db = (db', resp) ->
  In c' (customers db') ->
  In c' (customers db)
  \/ Customer._id c' = nextId db
  \/ (exists req c, op = CreateSale req /\ In c (customers db)
                    /\ aggregates_charged req c c')
  \/ (exists id b c, op = UpdateCustomer id b /\ In c (customers db)
                     /\ Customer._id c = id /\ aggregates_assigned b c c').
Proof.
  intros H Hin.
  destruct op;
    try (left;
         match type of H with
         | step _ ?o _ = _ =>
             rewrite <- (customers_untouched env o db db' resp Logic.I H)
         end; exact Hin).
  - destruct (sale_charges_customer env req db db' resp c' H Hin)
      as [A | [A | [c [A1 A2]]]]; auto.
    right; right; left. exists req, c. auto.
  - unfold step, handler, Customers.addCustomer in H. open_handler H.
    cbn [coll id_of CustomerM] in H.
    walk_any H; leaf H; split_in; subst; try (left; assumption).
    right; left. rewrite (proj1 (pre_save_customer_fields _)). reflexivity.
  - destruct (update_assigns_customer id b db db' resp c' H Hin)
      as [A | [c [A1 [A2 A3]]]]; auto.
    right; right; right. exists id, b, c. auto.
  - unfold step, handler, Customers.deleteCustomer in H. open_handler H.
    cbn [coll id_of CustomerM SaleM] in H.
    walk_any H; leaf H; try (left; assumption).
    left. apply filter_In in Hin. exact (proj1 Hin).
Qed.

Lemma customer_aggregates_witness :
  In Examples.moved_buyer (customers Examples.sold_db)
  \/ Customer._id Examples.moved_buyer = nextId Examples.sold_db
  \/ (exists req c, UpdateCustomer 2 Examples.move_house = CreateSale req
                    /\ In c (customers Examples.sold_db)
                    /\ aggregates_charged req c Examples.moved_buyer)
  \/ (exists id b c, UpdateCustomer 2 Examples.move_house = UpdateCustomer id b
                     /\ In c (customers Examples.sold_db)
                     /\ Customer._id c = id
                     /\ aggregates_assigned b c Examples.moved_buyer).
Proof.
  apply (customer_aggregates Examples.env (UpdateCustomer 2 Examples.move_house)
           Examples.sold_db
           (fst (step Examples.env (UpdateCustomer 2 Examples.move_house)
                   Examples.sold_db))
           (snd (step Examples.env (UpdateCustomer 2 Examples.move_house)
                   Examples.sold_db))).
  - vm_compute. reflexivity.
  - vm_compute. left. reflexivity.
Defined.

(** C4 as stated fails: an update of the buyer of Scenario A whose body
    carries [totalSpent: 0] and [totalBikesBought: 0] is answered [200] and
    lowers both aggregates of the stored customer, from 125000 and 1. *)
Lemma update_lowers_aggregates :
  exists c c',
    In c (customers Examples.sold_db)
    /\ step Examples.env (UpdateCustomer 2 Examples.reset_totals) Examples.sold_db
       = (mkDB (bikes Examples.sold_db) [c'] (sales Examples.sold_db)
            (payments Examples.sold_db) (nextId Examples.sold_db),
          mkResponse 200 (CustomerJson c'))
    /\ Customer._id c' = Customer._id c
    /\ Customer.totalSpent c = Some (Fin 125000)
    /\ Customer.totalBikesBought c = Some (Fin 1)
    /\ Customer.totalSpent c' = Some (Fin 0)
    /\ Customer.totalBikesBought c' = Some (Fin 0)
    /\ Num.ltb (toNumber (Customer.totalSpent c'))
         (toNumber (Customer.totalSpent c)) = true.
Proof.
  exists Examples.buyer.
  eexists.
  split; [vm_compute; left; reflexivity|].
  split; [vm_compute; reflexivity|].
  repeat split; vm_compute; reflexivity.
Qed.

(** ** The price suggestion *)

Lemma reduce_sum_map (f : Bike.t -> number) (l : list Bike.t) (acc : number) :
  fold_left (fun sum b => Num.add sum (f b)) l acc
  = fold_left Num.add (map f l) acc.
Proof.
  revert acc. induction l as [|b l IH]; intro acc; simpl; [reflexivity|].
  apply IH.
Qed.



Lemma suggestion_of_comparables (env : Env) (bike : Bike.t) (l : list Bike.t) :
  (Bike.conditionRating bike = None
   \/ exists r, Bike.conditionRating bike = Some r /\ Num.truthy r = true) ->
  l <> [] ->
  suggestedPrice (AI.generatePriceSuggestion env bike l)
  = PriceSpec.suggested (fullYear env) bike l.
Proof.
  intros R N. unfold AI.generatePriceSuggestion.
  destruct l as [|b l]; [contradiction|].
  cbn [List.length Nat.eqb]. cbv zeta. cbn [suggestedPrice].
  unfold PriceSpec.suggested, PriceSpec.average, PriceSpec.factor, PriceSpec.age,
    AI.reduce_sum.
  rewrite reduce_sum_map, length_map.
  destruct R as [R | [r [R T]]]; rewrite R; cbn [truthy_opt toNumber].
  - reflexivity.
  - rewrite T. reflexivity.
Qed.







(** the rounded product of the specification on finite data, in plain
    rational arithmetic *)
Lemma sum_of_finite (prices : list Q) (a : Q) :
  fold_left Num.add (map Fin prices) (Fin a) = Fin (fold_left Qplus prices a).
Proof.
  revert a. induction prices as [|q l IH]; intro a; simpl; [reflexivity|].
  apply IH.
Qed.

Lemma suggested_in_rationals (currentYear : nat) (bike : Bike.t)
  (comparable : list Bike.t) (prices : list Q) (y r : Q) :
  comparable <> [] ->
  map (fun b => toNumber (Bike.sellPrice b)) comparable = map Fin prices ->
  Bike.year bike = Some (Fin y) ->
  Bike.conditionRating bike = Some (Fin r) ->
  PriceSpec.suggested currentYear bike comparable
  = Fin (inject_Z
           (Qfloor
              (fold_left Qplus prices 0 / inject_Z (Z.of_nat (List.length prices))
               * (1 - (5 # 100) * (inject_Z (Z.of_nat currentYear) - y)
                  + (2 # 100) * (r - 8))
               + (1 # 2)))).
Proof.
  intros N P Y R.
  unfold PriceSpec.suggested, PriceSpec.average, PriceSpec.factor, PriceSpec.age.
  rewrite P, Y, R, length_map. unfold n0. rewrite sum_of_finite.
  assert (L : Qeq_bool (inject_Z (Z.of_nat (List.length prices))) 0 = false).
  { apply Qeq_bool_false. intro E. unfold Qeq in E. simpl in E.
    destruct prices; [|simpl in E; lia].
    destruct comparable; [contradiction | discriminate]. }
  unfold Num.of_nat. cbn [toNumber Num.sub Num.neg Num.add Num.mul Num.div n1].
  rewrite L. cbn [Num.mul Num.round].
  f_equal. f_equal. apply Qfloor_comp.
  apply Qplus_comp; [|reflexivity].
  apply Qmult_comp; [reflexivity|]. ring.
Qed.

(** ** The sold bike *)

(** a sale request answered [201] has stored the bike as the hook leaves
    the handler's assignments *)
Lemma sale_marks_bike_sold (env : Env) (req : Sales.Request) (db db' : DB)
  (resp : Response) :
  run (Sales.createSale env req) db = (db', resp) ->
  statusCode resp = 201%nat ->
  exists bike s,
    find (fun d => Bike._id d =? Sales.bikeId req)%nat (bikes db) = Some bike
    /\ json resp = SaleJson s
    /\ Sale.profit s = Sales.profit req bike
    /\ In (Bike.pre_save (Sales.soldBike env req bike s)) (bikes db').
Proof.
  intros H C. sale_walk H; try discriminate C.
  all: eexists; eexists; split; [eassumption|]; split; [reflexivity|];
    split; [reflexivity|].
  all: destruct (find_id (BikeM (yearMax env)) _ _ _ FB) as [I E];
    cbn [id_of BikeM] in E.
  all: eapply (replace_in (BikeM (yearMax env))); [exact I|];
    cbn [id_of BikeM]; rewrite pre_save_bike_id; reflexivity.
Qed.

(** ** Runs of the handlers on small stores *)

(** the sale number and the invoice number of Scenario A *)
Example scenarioA_numbers :
  Sales.saleNumber ScenarioA.env = "SAL-202403-007"
  /\ Sales.invoiceNumber ScenarioA.env = "SB-2024-007".
Proof. split; reflexivity. Qed.

(** when the invoice cannot be written the request is answered [500], and
    the sale, the sold bike and the charged customer stay in the store
    without a payment *)
Example invoice_failure_is_partial :
  let env := mkEnv 1710000000000%Z 2024 2 7 (Fin 2025) false in
  let r := run (Sales.createSale env ScenarioA.req) ScenarioA.db in
  statusCode (snd r) = 500%nat
  /\ List.length (sales (fst r)) = 1%nat
  /\ map Bike.status (bikes (fst r)) = ["sold"]
  /\ map Customer.totalSpent (customers (fst r)) = [Some (Fin 125000)]
  /\ payments (fst r) = [].
Proof. vm_compute. repeat split. Qed.

(** a discount above the selling price fails the validation of the sale,
    after the customer was created *)
Example excessive_discount :
  let req := Sales.mkRequest 1 "Asha Rao" "9876543210" "12 MG Road" (Fin 130000)
               (Some (Fin 140000)) "Cash" None 99 in
  let r := run (Sales.createSale ScenarioA.env req) ScenarioA.db in
  statusCode (snd r) = 500%nat
  /\ sales (fst r) = []
  /\ bikes (fst r) = [ScenarioA.bike]
  /\ List.length (customers (fst r)) = 1%nat.
Proof. vm_compute. repeat split. Qed.

(** a second sale in the same month with the same random draw clashes on
    the unique sale number *)
Example sale_number_clash :
  let db := mkDB (Examples.stock :: bikes Examples.sold_db)
              (customers Examples.sold_db) (sales Examples.sold_db)
              (payments Examples.sold_db) 50 in
  let req := Sales.mkRequest 44 "Ravi Kumar" "9000000001" "4 Church Street"
               (Fin 120000) None "UPI" None 99 in
  let r := run (Sales.createSale ScenarioA.env req) db in
  statusCode (snd r) = 500%nat /\ sales (fst r) = sales db.
Proof. vm_compute. repeat split. Qed.

(** an update of the sold bike of Scenario A is refused *)
Example sold_bike_update_refused :
  run (Bikes.updateBike Examples.env 1 Examples.rename_sold) Examples.sold_db
  = (Examples.sold_db, mkResponse 400 (Message "Cannot update sold bike")).
Proof. vm_compute. reflexivity. Qed.

(** a payment of 100 on the part-paid payment of 1000 *)
Example part_payment :
  let r := run (Payments.recordPayment 10 (Examples.pay (Fin 100))) Examples.pay_db in
  statusCode (snd r) = 200%nat
  /\ map Payment.paidAmount (payments (fst r)) = [Fin 500]
  /\ map Payment.remainingAmount (payments (fst r)) = [Fin 500]
  /\ map Payment.status (payments (fst r)) = ["partial"]
  /\ map (fun p => List.length (Payment.paymentLogs p)) (payments (fst r)) = [1%nat].
Proof. vm_compute. repeat split. Qed.

(** a payment above the remaining amount *)
Example over_payment :
  run (Payments.recordPayment 10 (Examples.pay (Fin 700))) Examples.pay_db
  = (Examples.pay_db,
     mkResponse 400 (Message "Payment amount cannot exceed remaining amount")).
Proof. vm_compute. reflexivity. Qed.

(** * Further properties of the handlers *)

(** ** Payments *)

Lemma valid_amount_finite (req : Payments.Request) :
  Payments.validationResult req = true ->
  exists q, Payments.amount req = Fin q /\ (1 # 100) <= q.
Proof.
  unfold Payments.validationResult. intro V.
  apply andb_true_iff in V. destruct V as [V _].
  apply andb_true_iff in V. destruct V as [V _].
  destruct (Payments.amount req) as [q| | |]; try discriminate.
  exists q. split; [reflexivity|]. apply Qle_bool_iff. exact V.
Qed.

Lemma nothing_remaining_refused (id : nat) (req : Payments.Request) (db : DB)
  (p : Payment.t) :
  find (fun d => Payment._id d =? id)%nat (payments db) = Some p ->
  Num.leb (Payment.remainingAmount p) n0 = true ->
  exists b, run (Payments.recordPayment id req) db = (db, mkResponse 400 b).
Proof.
  intros F R. unfold run, Payments.recordPayment.
  destruct (Payments.validationResult req) eqn:V; cbv beta iota zeta; unfold negb.
  2:{ eexists. reflexivity. }
  unfold bind, findById, gets. cbn [coll id_of PaymentM]. rewrite F.
  cbv beta iota.
  destruct (valid_amount_finite req V) as [q [E Q]]. rewrite E.
  assert (G : Num.gtb (Fin q) (Payment.remainingAmount p) = true).
  { destruct (Payment.remainingAmount p) as [r| | |]; simpl in *;
      try discriminate; try reflexivity.
    apply Qle_bool_iff in R. apply Qltb_lt. lra. }
  rewrite G. eexists. reflexivity.
Qed.

(** X15. A payment with nothing remaining accepts no further payment: whatever
    the request, it is answered [400] and the store is as before. *)
Theorem closed_payment_refuses (id : nat) (req : Payments.Request) (db : DB)
  (p : Payment.t) :
  find (fun d => Payment._id d =? id)%nat (payments db) = Some p ->
  Num.leb (Payment.remainingAmount p) n0 = true ->
  exists b, run (Payments.recordPayment id req) db = (db, mkResponse 400 b).
Proof.
  apply nothing_remaining_refused.
Qed.

Lemma closed_payment_refuses_witness :
  exists b,
    run (Payments.recordPayment 4 (Examples.pay (Fin 100))) Examples.sold_db
    = (Examples.sold_db, mkResponse 400 b).
Proof.
  apply (closed_payment_refuses 4 (Examples.pay (Fin 100)) Examples.sold_db
           (hd Examples.part_paid (payments Examples.sold_db))).
  - vm_compute. reflexivity.
  - vm_compute. reflexivity.
Defined.









(** X17. An accepted payment never moves the status backwards: for a stored
    payment whose paid amount is not negative and which, when its status is
    [completed], has nothing remaining (as the hook stores it), the status
    after the request is [partial] or [completed], and not below the one
    before. *)
Theorem payment_status_advances (id : nat) (req : Payments.Request) (db db' : DB)
  (p p' : Payment.t) :
  find (fun d => Payment._id d =? id)%nat (payments db) = Some p ->
  Num.geb (Payment.paidAmount p) n0 = true ->
  (Payment.status p = "completed" ->
   Num.leb (Payment.remainingAmount p) n0 = true) ->
  run (Payments.recordPayment id req) db = (db', mkResponse 200 (PaymentJson p')) ->
  (status_rank (Payment.status p) <= status_rank (Payment.status p'))%nat
  /\ (1 <= status_rank (Payment.status p'))%nat.
Proof.
  intros F P0 S H.
  assert (N : Payment.status p <> "completed").
  { intro C. destruct (nothing_remaining_refused id req db p F (S C)) as [b R].
    rewrite R in H. discriminate H. }
  unfold Payments.recordPayment in H.
  destruct (Payments.validationResult req) eqn:V in H;
    cbv beta iota zeta in H; unfold negb in H; [|leaf H].
  open_handler H. cbn [coll id_of PaymentM] in H. rewrite F in H.
  destruct (Num.gtb (Payments.amount req) (Payment.remainingAmount p)) eqn:G in H;
    [leaf H|].
  walk H; leaf H.
  destruct (valid_amount_finite req V) as [q [Eq Q]].
  assert (R1 : (1 <= status_rank
                      (Payment.status
                         (Payment.pre_save
                            (Payment.mk (Payment._id p) (Payment.saleId p)
                               (Payment.bikeId p) (Payment.customerId p)
                               (Payment.totalAmount p)
                               (Num.add (Payment.paidAmount p) (Payments.amount req))
                               (Payment.remainingAmount p) (Payment.status p)
                               (Payment.paymentLogs p ++
                                [PaymentLog.mk (Payments.amount req)
                                   (assign (Payments.paymentDate req) 0%Z)
                                   (Payments.paymentMethod req) (Payments.notes req)
                                   (Payments.user req)])%list
                               (Payment.dueDate p) (Payment.notes p)))))%nat).
  { unfold Payment.pre_save. cbn [Payment.status Payment.paidAmount Payment.totalAmount].
    rewrite Eq.
    destruct (Payment.paidAmount p) as [a| | |]; simpl in P0; try discriminate.
    - apply Qle_bool_iff in P0. cbn [Num.add Num.eqb n0].
      assert (Z : Qeq_bool (a + q) 0 = false) by (apply Qeq_bool_false; lra).
      rewrite Z.
      destruct (Num.ltb (Fin (a + q)) (Payment.totalAmount p)); cbv; lia.
    - cbn [Num.add Num.eqb].
      destruct (Num.ltb PosInf (Payment.totalAmount p)); cbv; lia. }
  split; [|exact R1].
  assert (R0 : (status_rank (Payment.status p) <= 1)%nat).
  { unfold status_rank.
    destruct (Payment.status p =? "completed")%string eqn:C.
    - apply String.eqb_eq in C. contradiction.
    - destruct (Payment.status p =? "partial")%string; lia. }
  lia.
Qed.

Lemma payment_status_advances_witness :
  (status_rank (Payment.status Examples.part_paid)
   <= status_rank (Payment.status Cases.paid_500))%nat
  /\ (1 <= status_rank (Payment.status Cases.paid_500))%nat.
Proof.
  apply (payment_status_advances 10 (Examples.pay (Fin 100)) Examples.pay_db
           Cases.after_100).
  - vm_compute. reflexivity.
  - vm_compute. reflexivity.
  - vm_compute. discriminate.
  - vm_compute. reflexivity.
Defined.

(** X18. The details endpoint of a payment changes due date and notes only: every
    payment in the store after it has the identifiers, total, paid amount
    and log entries of a payment with the same id before it. *)
Theorem update_payment_keeps_ledger (id : nat) (d : Payments.Details) (db db' : DB)
  (resp : Response) (p' : Payment.t) :
  run (Payments.updatePayment id d) db = (db', resp) ->
  In p' (payments db') ->
  exists p,
    In p (payments db)
    /\ Payment._id p' = Payment._id p
    /\ Payment.saleId p' = Payment.saleId p
    /\ Payment.totalAmount p' = Payment.totalAmount p
    /\ Payment.paidAmount p' = Payment.paidAmount p
    /\ Payment.paymentLogs p' = Payment.paymentLogs p.
Proof.
  intros H I. unfold Payments.updatePayment in H.
  destruct (Payments.detailsValid d) in H;
    cbv beta iota zeta in H; unfold negb in H;
    [|leaf H; exists p'; repeat split; exact I].
  open_handler H. cbn [coll id_of PaymentM] in H.
  destruct (find _ (payments db)) as [p|] eqn:F in H;
    [|leaf H; exists p'; repeat split; exact I].
  destruct (find_id PaymentM id _ _ F) as [Ip _].
  walk H; leaf H; split_in; subst;
    try (exists p'; repeat split; assumption).
  exists p. repeat split. exact Ip.
Qed.

Lemma update_payment_keeps_ledger_witness :
  exists p,
    In p (payments Examples.pay_db)
    /\ Payment._id Cases.postponed = Payment._id p
    /\ Payment.saleId Cases.postponed = Payment.saleId p
    /\ Payment.totalAmount Cases.postponed = Payment.totalAmount p
    /\ Payment.paidAmount Cases.postponed = Payment.paidAmount p
    /\ Payment.paymentLogs Cases.postponed = Payment.paymentLogs p.
Proof.
  apply (update_payment_keeps_ledger 10 Cases.postpone Examples.pay_db
           (fst (step Examples.env (UpdatePayment 10 Cases.postpone) Examples.pay_db))
           (snd (step Examples.env (UpdatePayment 10 Cases.postpone) Examples.pay_db))).
  - vm_compute. reflexivity.
  - vm_compute. left. reflexivity.
Defined.


(** ** Customers *)

Lemma filter_nil_forall {A : Type} (f : A -> bool) (l : list A) :
  filter f l = [] <-> forall x, In x l -> f x = false.
Proof.
  induction l as [|a l IH]; simpl.
  - split; [intros _ x [] | reflexivity].
  - destruct (f a) eqn:E.
    + split; [discriminate|]. intro H. rewrite (H a (or_introl eq_refl)) in E.
      discriminate.
    + rewrite IH. split.
      * intros H x [X | X]; [subst; exact E | apply H; exact X].
      * intros H x X. apply H. right. exact X.
Qed.

Lemma find_delete_same {A : Type} (M : Model A) (id : nat) (l : list A) :
  find (fun d => id_of M d =? id)%nat
       (filter (fun d => negb (id_of M d =? id)%nat) l) = None.
Proof.
  induction l as [|d l IH]; simpl; [reflexivity|].
  destruct (id_of M d =? id)%nat eqn:T; simpl; [exact IH|].
  rewrite T. exact IH.
Qed.

(** X10. A customer with a sale is not deleted: the request is answered [400] and
    the store is as before.  A customer without sales is deleted: no
    customer is found under the id afterwards, every other id finds what it
    found before, and the other collections are untouched. *)
Theorem delete_customer_guard (id : nat) (db : DB) (c : Customer.t) :
  find (fun d => Customer._id d =? id)%nat (customers db) = Some c ->
  ((exists s, In s (sales db) /\ Sale.customerId s = id) ->
   run (Customers.deleteCustomer id) db
   = (db, mkResponse 400
            (Message "Cannot delete customer with existing sales records")))
  /\ ((forall s, In s (sales db) -> Sale.customerId s <> id) ->
      exists db',
        run (Customers.deleteCustomer id) db
        = (db', mkResponse 200 (Message "Customer deleted successfully"))
        /\ find (fun d => Customer._id d =? id)%nat (customers db') = None
        /\ (forall j, j <> id ->
              find (fun d => Customer._id d =? j)%nat (customers db')
              = find (fun d => Customer._id d =? j)%nat (customers db))
        /\ bikes db' = bikes db /\ sales db' = sales db
        /\ payments db' = payments db).
Proof.
  intro F. unfold run, Customers.deleteCustomer, bind, findById, countDocuments,
    gets, findByIdAndDelete, answer, ret.
  cbn [coll id_of CustomerM SaleM with_coll]. rewrite F. cbv beta iota.
  split.
  - intros [s [I E]].
    destruct (filter (fun s0 => (Sale.customerId s0 =? id)%nat) (sales db))
      as [|x l] eqn:Fl.
    + exfalso. rewrite filter_nil_forall in Fl. specialize (Fl s I).
      rewrite E, Nat.eqb_refl in Fl. discriminate.
    + reflexivity.
  - intro N.
    assert (Fl : filter (fun s0 => (Sale.customerId s0 =? id)%nat) (sales db) = []).
    { apply filter_nil_forall. intros s I. apply Nat.eqb_neq. apply N. exact I. }
    rewrite Fl. cbn [List.length Nat.ltb Nat.leb].
    eexists. split; [reflexivity|]. cbn [customers bikes sales payments].
    split; [apply (find_delete_same CustomerM)|].
    split; [|auto].
    intros j J. apply (find_delete_other CustomerM j id (customers db)).
    intro E. apply J. symmetry. exact E.
Qed.

Lemma delete_customer_guard_witness :
  run (Customers.deleteCustomer 2) Examples.sold_db
  = (Examples.sold_db,
     mkResponse 400 (Message "Cannot delete customer with existing sales records")).
Proof.
  apply (proj1 (delete_customer_guard 2 Examples.sold_db Examples.buyer
                  ltac:(vm_compute; reflexivity))).
  exists (hd (Sales.newSale Examples.env ScenarioA.req ScenarioA.bike Examples.buyer 0)
            (sales Examples.sold_db)).
  split; [vm_compute; left; reflexivity | vm_compute; reflexivity].
Defined.

Lemma leb_trans (x y z : number) :
  Num.leb x y = true -> Num.leb y z = true -> Num.leb x z = true.
Proof.
  destruct x, y, z; simpl; try congruence.
  intros A B. apply Qle_bool_iff in A. apply Qle_bool_iff in B.
  apply Qle_bool_iff. lra.
Qed.

Lemma tier_rank_pre_save (c : Customer.t) :
  tier_rank (Customer.customerType (Customer.pre_save c))
  = if Num.geb (toNumber (Customer.totalSpent c)) (Fin 500000) then 2%nat
    else if Num.geb (toNumber (Customer.totalSpent c)) (Fin 200000) then 1%nat
    else 0%nat.
Proof.
  unfold Customer.pre_save.
  destruct (Num.geb _ (Fin 500000)); [reflexivity|].
  destruct (Num.geb _ (Fin 200000)); reflexivity.
Qed.

Lemma tier_rank_le (c1 c2 : Customer.t) :
  Num.leb (toNumber (Customer.totalSpent c1)) (toNumber (Customer.totalSpent c2)) = true ->
  (tier_rank (Customer.customerType (Customer.pre_save c1))
   <= tier_rank (Customer.customerType (Customer.pre_save c2)))%nat.
Proof.
  intro L. rewrite !tier_rank_pre_save. unfold Num.geb.
  destruct (Num.leb (Fin 500000) (toNumber (Customer.totalSpent c1))) eqn:V1.
  - rewrite (leb_trans _ _ _ V1 L). lia.
  - destruct (Num.leb (Fin 200000) (toNumber (Customer.totalSpent c1))) eqn:P1.
    + destruct (Num.leb (Fin 500000) (toNumber (Customer.totalSpent c2))); [lia|].
      rewrite (leb_trans _ _ _ P1 L). lia.
    + lia.
Qed.

(** X9. The tier that a save gives a customer is monotone in the total spent: a
    customer saved with a total spent at least as large gets a tier at least
    as high. *)
Theorem tier_monotone (c1 c2 : Customer.t) :
  Num.leb (toNumber (Customer.totalSpent c1)) (toNumber (Customer.totalSpent c2)) = true ->
  (tier_rank (Customer.customerType (Customer.pre_save c1))
   <= tier_rank (Customer.customerType (Customer.pre_save c2)))%nat.
Proof. apply tier_rank_le. Qed.

Lemma tier_monotone_witness :
  (tier_rank (Customer.customerType (Customer.pre_save Examples.buyer))
   <= tier_rank (Customer.customerType (Customer.pre_save Examples.vip)))%nat.
Proof.
  apply (tier_monotone Examples.buyer Examples.vip).
  vm_compute. reflexivity.
Defined.

(** X8. A sale never lowers the tier of the customer it charges: with a final
    amount and a total spent that are not negative, the customer as the
    sale workflow saves it has a tier at least as high as a save of the
    customer before gives. *)
Theorem sale_never_demotes (env : Env) (req : Sales.Request) (c : Customer.t) :
  Num.geb (Sales.finalAmount req) n0 = true ->
  Num.geb (toNumber (Customer.totalSpent c)) n0 = true ->
  (tier_rank (Customer.customerType (Customer.pre_save c))
   <= tier_rank (Customer.customerType
                   (Customer.pre_save (Sales.charged env req c))))%nat.
Proof.
  intros G N. apply tier_rank_le.
  unfold Sales.charged. cbn [Customer.totalSpent toNumber].
  fold (Sales.finalAmount req).
  destruct (toNumber (Customer.totalSpent c)) as [a| | |];
    destruct (Sales.finalAmount req) as [q| | |]; simpl in *;
    try discriminate; try reflexivity.
  apply Qle_bool_iff in G. apply Qle_bool_iff. lra.
Qed.

Lemma sale_never_demotes_witness :
  (tier_rank (Customer.customerType (Customer.pre_save Examples.buyer))
   <= tier_rank (Customer.customerType
                   (Customer.pre_save
                      (Sales.charged Cases.april Cases.second_purchase Examples.buyer))))%nat.
Proof.
  apply (sale_never_demotes Cases.april Cases.second_purchase Examples.buyer).
  - vm_compute. reflexivity.
  - vm_compute. reflexivity.
Defined.


(** ** Bikes *)

Lemma pre_save_bike_number (b : Bike.t) :
  Bike.bikeNumber (Bike.pre_save b) = Bike.bikeNumber b.
Proof.
  unfold Bike.pre_save.
  destruct (truthy_opt (Bike.sellPrice b) && truthy_opt (Bike.buyPrice b));
    cbn [Bike.sellDate Bike.purchaseDate];
    destruct (Bike.sellDate b), (Bike.purchaseDate b); reflexivity.
Qed.

Lemma find_hit {A : Type} (f : A -> bool) (l : list A) (x : A) :
  In x l -> f x = true -> exists y, find f l = Some y.
Proof.
  intros I H. destruct (find f l) as [y|] eqn:F; [eexists; reflexivity|].
  rewrite (find_none f l F x I) in H. discriminate.
Qed.

Lemma number_taken (env : Env) (b : Bikes.Body) (db : DB) (stored : Bike.t) :
  In stored (bikes db) ->
  toUpperCase (trim (Bikes.bikeNumber b)) = Bike.bikeNumber stored ->
  exists body, run (Bikes.addBike env b) db = (db, mkResponse 400 body).
Proof.
  intros I E. unfold run, Bikes.addBike.
  destruct (Bikes.validationResult env b && Bikes.purchaseDate_valid b);
    cbv beta iota zeta; unfold negb; [|eexists; reflexivity].
  unfold bind, findOne, gets. cbn [coll BikeM].
  destruct (find_hit
              (fun d => String.eqb (Bike.bikeNumber d)
                          (toUpperCase (trim (Bikes.bikeNumber b))))
              (bikes db) stored I) as [y Y].
  { rewrite E. apply String.eqb_refl. }
  rewrite Y. eexists. reflexivity.
Qed.

(** X11. A bike added with a number in ASCII is stored under the number
    trimmed and in upper case; and in every store that holds a bike with
    that number, a request to add a bike whose number differs from it only
    in case or outer blanks is answered [400], the store unchanged. *)
Theorem bike_number_is_case_blind (env : Env) (b : Bikes.Body) (db db' : DB)
  (bike : Bike.t) :
  is_ascii (Bikes.bikeNumber b) = true ->
  run (Bikes.addBike env b) db = (db', mkResponse 201 (BikeJson bike)) ->
  Bike.bikeNumber bike = toUpperCase (trim (Bikes.bikeNumber b))
  /\ In bike (bikes db')
  /\ forall db2 stored env2 b2,
       In stored (bikes db2) ->
       Bike.bikeNumber stored = Bike.bikeNumber bike ->
       toUpperCase (trim (Bikes.bikeNumber b2))
       = toUpperCase (trim (Bikes.bikeNumber b)) ->
       exists body, run (Bikes.addBike env2 b2) db2 = (db2, mkResponse 400 body).
Proof.
  intros _ H. unfold Bikes.addBike in H.
  destruct (Bikes.validationResult env b && Bikes.purchaseDate_valid b) in H;
    cbv beta iota zeta in H; unfold negb in H; [|leaf H].
  open_handler H. cbn [coll id_of BikeM] in H.
  destruct (find _ (bikes db)) in H; [leaf H|].
  walk H; leaf H.
  rewrite pre_save_bike_number. cbn [Bike.bikeNumber].
  split; [reflexivity|].
  split; [apply in_or_app; right; left; reflexivity|].
  intros db2 stored env2 b2 I N E.
  apply (number_taken env2 b2 db2 stored I). rewrite N, E. reflexivity.
Qed.

(** X12. A deleted bike is gone: after a delete answered [200] no bike is found
    under the id, every other id finds what it found before, a second
    delete is answered [404], and the other collections are untouched. *)
Theorem deleted_bike_is_gone (env : Env) (id : nat) (db db' : DB) (b : body) :
  run (Bikes.deleteBike env id) db = (db', mkResponse 200 b) ->
  find (fun d => Bike._id d =? id)%nat (bikes db') = None
  /\ (forall j, j <> id ->
        find (fun d => Bike._id d =? j)%nat (bikes db')
        = find (fun d => Bike._id d =? j)%nat (bikes db))
  /\ (forall env2,
        run (Bikes.deleteBike env2 id) db'
        = (db', mkResponse 404 (Message "Bike not found")))
  /\ customers db' = customers db /\ sales db' = sales db
  /\ payments db' = payments db.
Proof.
  intro H. unfold Bikes.deleteBike in H. open_handler H.
  cbn [coll id_of BikeM] in H.
  destruct (find _ (bikes db)) as [bike|] in H; [|leaf H].
  destruct (Bike.status bike =? "sold")%string in H; [leaf H|].
  leaf H.
  assert (G : find (fun d => Bike._id d =? id)%nat
                (filter (fun d => negb (Bike._id d =? id)%nat) (bikes db)) = None)
    by apply (find_delete_same (BikeM (yearMax env))).
  split; [exact G|].
  split.
  { intros j J. apply (find_delete_other (BikeM (yearMax env)) j id (bikes db)).
    intro E. apply J. symmetry. exact E. }
  split; [|auto].
  intro env2. unfold run, Bikes.deleteBike, bind, findById, gets, answer.
  cbn [coll id_of BikeM bikes]. rewrite G. reflexivity.
Qed.




(** X13. The days to sell that a save stores are the days between purchase and
    sale rounded up: the least whole number of days that covers the time
    between the two dates. *)
Theorem days_to_sell_ceiling (b : Bike.t) (sd pd : Z) :
  Bike.sellDate b = Some sd ->
  Bike.purchaseDate b = Some pd ->
  exists d : Z,
    Bike.daysToSell (Bike.pre_save b) = Some (Fin (inject_Z d))
    /\ ((d - 1) * msPerDay < sd - pd <= d * msPerDay)%Z.
Proof.
  intros S P. unfold Bike.pre_save.
  assert (E : forall x : Bike.t,
             Bike.sellDate x = Some sd -> Bike.purchaseDate x = Some pd ->
             exists d : Z,
               Bike.daysToSell
                 (match Bike.sellDate x, Bike.purchaseDate x with
                  | Some sd0, Some pd0 =>
                      Bike.mk (Bike._id x) (Bike.bikeNumber x) (Bike.brand x)
                        (Bike.model x) (Bike.year x) (Bike.buyPrice x)
                        (Bike.sellPrice x) (Bike.profit x) (Bike.profitPercent x)
                        (Bike.status x) (Bike.purchaseDate x) (Bike.sellDate x)
                        (Some (Num.ceil (Num.div (Num.of_Z (sd0 - pd0))
                                           (Fin (1000 * 3600 * 24)))))
                        (Bike.conditionRating x) (Bike.saleId x)
                  | _, _ => x
                  end) = Some (Fin (inject_Z d))
               /\ ((d - 1) * msPerDay < sd - pd <= d * msPerDay)%Z).
  { intros x Sx Px. rewrite Sx, Px. cbn [Bike.daysToSell].
    unfold Num.of_Z. cbn [Num.div].
    assert (NZ : Qeq_bool (1000 * 3600 * 24) 0 = false) by reflexivity.
    rewrite NZ. cbn [Num.ceil].
    set (x0 := inject_Z (sd - pd) / (1000 * 3600 * 24)).
    exists (Qceiling x0). split; [reflexivity|].
    pose proof (Qle_ceiling x0) as U. pose proof (Qceiling_lt x0) as L.
    assert (X : x0 * inject_Z msPerDay == inject_Z (sd - pd)).
    { unfold x0, msPerDay. change (inject_Z (1000 * 3600 * 24)) with (86400000 # 1).
      field. }
    assert (M : 0 < inject_Z msPerDay) by reflexivity.
    split.
    - rewrite Zlt_Qlt. rewrite inject_Z_mult. rewrite <- X.
      apply Qmult_lt_compat_r; [exact M | exact L].
    - rewrite Zle_Qle. rewrite inject_Z_mult. rewrite <- X.
      apply Qmult_le_compat_r; [exact U|]. apply Qlt_le_weak. exact M. }
  destruct (truthy_opt (Bike.sellPrice b) && truthy_opt (Bike.buyPrice b)).
  - apply E; assumption.
  - apply E; assumption.
Qed.


(** ** The sale workflow, continued *)

Lemma find_replace_same {A : Type} (M : Model A) (doc x : A) (id : nat)
  (l : list A) :
  find (fun d => id_of M d =? id)%nat l = Some x ->
  id_of M doc = id ->
  find (fun d => id_of M d =? id)%nat (replace M doc l) = Some doc.
Proof.
  intros F E. induction l as [|d l IH]; simpl in *; [discriminate|].
  destruct (id_of M d =? id)%nat eqn:T.
  - apply Nat.eqb_eq in T.
    assert (T2 : (id_of M d =? id_of M doc)%nat = true)
      by (apply Nat.eqb_eq; congruence).
    rewrite T2. rewrite E, Nat.eqb_refl. reflexivity.
  - assert (T2 : (id_of M d =? id_of M doc)%nat = false)
      by (rewrite E; exact T).
    rewrite T2, T. apply IH. exact F.
Qed.

Lemma pre_save_bike_status (b : Bike.t) :
  Bike.status (Bike.pre_save b) = Bike.status b.
Proof.
  unfold Bike.pre_save.
  destruct (truthy_opt (Bike.sellPrice b) && truthy_opt (Bike.buyPrice b));
    cbn [Bike.sellDate Bike.purchaseDate];
    destruct (Bike.sellDate b), (Bike.purchaseDate b); reflexivity.
Qed.

Lemma sold_bike_found (env : Env) (req : Sales.Request) (db db' : DB)
  (resp : Response) :
  run (Sales.createSale env req) db = (db', resp) ->
  statusCode resp = 201%nat ->
  exists b, find (fun d => Bike._id d =? Sales.bikeId req)%nat (bikes db') = Some b
            /\ Bike.status b = "sold".
Proof.
  intros H C. sale_walk H; try discriminate C.
  all: eexists; split;
    [ apply (find_replace_same (BikeM (yearMax env)) _ bike);
      [ exact FB
      | cbn [id_of BikeM]; rewrite pre_save_bike_id;
        apply (proj2 (find_id (BikeM (yearMax env)) _ _ _ FB)) ]
    | rewrite pre_save_bike_status; reflexivity ].
Qed.

Lemma sale_valid_price (s : Sale.t) :
  Sale.validate s = true -> Num.geb (Sale.sellingPrice s) n0 = true.
Proof.
  unfold Sale.validate, number_path, min_ok. cbn [forallb].
  intro V. repeat (apply andb_true_iff in V; destruct V as [V ?]).
  repeat match goal with
         | H : (_ && _) = true |- _ => apply andb_true_iff in H; destruct H
         end.
  assumption.
Qed.

Lemma sold_stays_sold (env : Env) (op : Op) (db : DB) (id : nat) (bike : Bike.t) :
  find (fun d => Bike._id d =? id)%nat (bikes db) = Some bike ->
  Bike.status bike = "sold" ->
  find (fun d => Bike._id d =? id)%nat (bikes (fst (step env op db))) = Some bike.
Proof.
  intros F S.
  destruct (bikes_api op) eqn:A; [apply bikes_api_keeps_sold; assumption|].
  destruct (step env op db) as [db' resp] eqn:H. cbn [fst].
  destruct op; try discriminate A; clear A; unfold step, handler in H.
  - sale_walk H; try exact F.
    all: apply (kept_under_update env); [|exact F];
      cbn [Sales.soldBike Bike._id];
      intro E;
      destruct (find_id (BikeM (yearMax env)) _ _ _ FB) as [_ Eb];
      cbn [id_of BikeM] in Eb; rewrite E in Eb; rewrite <- Eb in FB;
      rewrite F in FB; inversion FB; subst;
      rewrite S in AV; discriminate AV.
  - unfold Customers.addCustomer in H. open_handler H.
    cbn [coll id_of CustomerM] in H. walk_any H; leaf H; exact F.
  - unfold Customers.updateCustomer in H. open_handler H.
    cbn [coll id_of CustomerM] in H. walk_any H; leaf H; exact F.
  - unfold Customers.deleteCustomer in H. open_handler H.
    cbn [coll id_of CustomerM SaleM] in H. walk_any H; leaf H; exact F.
  - unfold Payments.recordPayment in H. open_handler H.
    cbn [coll id_of PaymentM] in H. walk_any H; leaf H; exact F.
  - unfold Payments.updatePayment in H. open_handler H.
    cbn [coll id_of PaymentM] in H. walk_any H; leaf H; exact F.
  - unfold AI64.priceSuggestion in H. open_handler H. cbn [coll id_of BikeM] in H.
    walk_any H; leaf H; exact F.
Qed.

Lemma sold_in_later_stores (l : list (Env * Op)) (db : DB) (id : nat)
  (bike : Bike.t) :
  find (fun d => Bike._id d =? id)%nat (bikes db) = Some bike ->
  Bike.status bike = "sold" ->
  find (fun d => Bike._id d =? id)%nat (bikes (steps l db)) = Some bike.
Proof.
  revert db. induction l as [|[env op] l IH]; intros db F S; [exact F|].
  cbn [steps]. apply IH; [|exact S]. apply sold_stays_sold; assumption.
Qed.

(** X1. A bike is sold once: after a sale request answered [201], a sale
    request for the same bike is answered [400] and leaves the store as it
    is, whether it comes next or after any sequence of requests. *)
Theorem sold_bike_cannot_be_resold (env : Env) (req : Sales.Request) (db db' : DB)
  (resp : Response) :
  run (Sales.createSale env req) db = (db', resp) ->
  statusCode resp = 201%nat ->
  forall (l : list (Env * Op)) env2 req2,
    Sales.bikeId req2 = Sales.bikeId req ->
    exists b,
      run (Sales.createSale env2 req2) (steps l db')
      = (steps l db', mkResponse 400 b).
Proof.
  intros H C l env2 req2 E.
  destruct (sold_bike_found env req db db' resp H C) as [b [F S]].
  pose proof (sold_in_later_stores l db' _ b F S) as F'.
  unfold run, Sales.createSale.
  destruct (Sales.validationResult req2); simpl.
  2:{ eexists. reflexivity. }
  unfold bind, findById, gets. simpl. rewrite E, F', S. simpl.
  eexists. reflexivity.
Qed.

Lemma difference_not_negative (a b : number) :
  Num.geb (Num.sub a b) n0 = true -> Num.leb b a = true.
Proof.
  destruct a as [x| | |], b as [y| | |]; simpl; try discriminate; try reflexivity.
  intro H. apply Qle_bool_iff in H. apply Qle_bool_iff. lra.
Qed.

(** X3. A sale that a request adds to the store has a selling price that is
    not negative and a discount between zero and the selling price: a
    request with a negative discount or a discount above the price stores
    no sale. *)
Theorem sale_discount_bounds (env : Env) (req : Sales.Request) (db db' : DB)
  (resp : Response) (s : Sale.t) :
  run (Sales.createSale env req) db = (db', resp) ->
  In s (sales db') ->
  In s (sales db)
  \/ (Num.leb n0 (Sale.discount s) = true
      /\ Num.leb (Sale.discount s) (Sale.sellingPrice s) = true
      /\ Num.leb n0 (Sale.sellingPrice s) = true).
Proof.
  intros H I.
  sale_walk H; split_in; subst; try (left; assumption).
  all: right;
    match goal with
    | V : validate SaleM (Sales.newSale _ _ _ _ _) = true |- _ =>
        pose proof (sale_valid_amounts _ V) as DF;
        pose proof (sale_valid_price _ V) as SP;
        unfold Sales.newSale in DF, SP;
        cbn [Sale.discount Sale.finalAmount Sale.sellingPrice] in DF, SP;
        destruct DF as [D F]
    end;
    sale_fields;
    unfold Sales.finalAmount in F;
    split; [exact D|]; split; [apply difference_not_negative; exact F | exact SP].
Qed.

Lemma length_replace {A : Type} (M : Model A) (doc : A) (l : list A) :
  List.length (replace M doc l) = List.length l.
Proof. unfold replace. apply length_map. Qed.

Lemma pre_save_customer_phone (c : Customer.t) :
  Customer.phone (Customer.pre_save c) = Customer.phone c.
Proof.
  unfold Customer.pre_save.
  destruct (Num.geb _ _); [|destruct (Num.geb _ _)]; reflexivity.
Qed.

(** X2. The sale workflow finds the customer by the buyer's phone or creates
    one: after a request answered [201] the sale refers to a stored customer
    with the buyer's trimmed phone; when a customer with that phone was in
    the store it is that customer and no customer was added, otherwise
    exactly one was. *)
Theorem sale_upserts_customer (env : Env) (req : Sales.Request) (db db' : DB)
  (resp : Response) :
  run (Sales.createSale env req) db = (db', resp) ->
  statusCode resp = 201%nat ->
  exists s c,
    json resp = SaleJson s
    /\ In c (customers db')
    /\ Customer.phone c = trim (Sales.buyerPhone req)
    /\ Sale.customerId s = Customer._id c
    /\ match find (fun c0 => String.eqb (Customer.phone c0)
                               (trim (Sales.buyerPhone req))) (customers db) with
       | Some c0 =>
           Customer._id c = Customer._id c0
           /\ List.length (customers db') = List.length (customers db)
       | None =>
           List.length (customers db') = S (List.length (customers db))
       end.
Proof.
  intros H C. sale_walk H; try discriminate C.
  all: eexists;
    match goal with
    | |- context [replace CustomerM ?d _] => exists d
    end;
    (split; [reflexivity|]).
  all: rewrite ?FC, ?length_replace, ?length_app, ?pre_save_customer_phone;
    rewrite ?(proj1 (pre_save_customer_fields _));
    unfold Sales.charged, Sales.newCustomer; sale_fields;
    cbn [Customer.phone Customer._id List.length];
    rewrite ?pre_save_customer_phone, ?(proj1 (pre_save_customer_fields _));
    cbn [Customer.phone Customer._id].
  all: try (destruct (find_some _ _ FC) as [Ic Pc]; apply String.eqb_eq in Pc).
  all: repeat split; try assumption; try reflexivity; try lia.
  all: try (eapply (replace_in CustomerM);
            [ first [ exact Ic | apply in_or_app; right; left; reflexivity ]
            | cbn [id_of CustomerM];
              rewrite ?(proj1 (pre_save_customer_fields _)); reflexivity ]).
Qed.


(** ** The unique indexes *)

Lemma save_cases_full {A : Type} (M : Model A) (isNew : bool) (doc : A) (db : DB) :
  save M isNew doc db = (db, Answer (mkResponse 500 (Message "Server error")))
  \/ (validate M doc = true
      /\ existsb (fun d => negb (id_of M d =? id_of M (pre_save M doc))%nat
                           && clash M d (pre_save M doc)) (coll M db) = false
      /\ save M isNew doc db =
           (with_coll M (if isNew then coll M db ++ [pre_save M doc]
                         else replace M (pre_save M doc) (coll M db)) db,
            Next (pre_save M doc))).
Proof.
  unfold save. destruct (validate M doc); simpl.
  - destruct (existsb _ _); [left | right]; auto.
  - left. reflexivity.
Qed.

Lemma keyed_bump {A : Type} (idf : A -> nat) (keys : list (A -> string))
  (n m : nat) (l : list A) :
  keyed idf keys n l -> (n <= m)%nat -> keyed idf keys m l.
Proof.
  intros [B R] L. split; [|exact R].
  eapply Forall_impl; [|exact B]. cbv beta. intros d D. lia.
Qed.

Lemma keyed_append {A : Type} (idf : A -> nat) (keys : list (A -> string))
  (n m : nat) (l : list A) (x : A) :
  keyed idf keys n l -> (n <= idf x)%nat -> (idf x < m)%nat ->
  key_free idf keys x l ->
  keyed idf keys m (l ++ [x]).
Proof.
  intros [B [I K]] L U F.
  assert (Fresh : forall d, In d l -> idf d <> idf x).
  { intros d D. rewrite Forall_forall in B. specialize (B d D). lia. }
  split; [|split].
  - apply Forall_app. split.
    + eapply Forall_impl; [|exact B]. cbv beta. intros d D. lia.
    + constructor; [exact U | constructor].
  - rewrite map_app. simpl. apply NoDup_app; [exact I | repeat constructor; auto|].
    intros i Hi [E | []]. subst i. apply in_map_iff in Hi.
    destruct Hi as [d [E D]]. apply (Fresh d D). exact E.
  - unfold key_free in F. rewrite Forall_forall in *. intros key Hk.
    rewrite map_app. simpl.
    apply NoDup_app; [apply K; exact Hk | repeat constructor; auto|].
    intros s Hs [E | []]. subst s. apply in_map_iff in Hs.
    destruct Hs as [d [E D]]. apply (F key Hk d D (Fresh d D)). exact E.
Qed.

Lemma replace_absent {A : Type} (M : Model A) (x : A) (l : list A) :
  ~ In (id_of M x) (map (id_of M) l) -> replace M x l = l.
Proof.
  unfold replace. induction l as [|d l IH]; simpl; [reflexivity|].
  intro N. destruct (id_of M d =? id_of M x)%nat eqn:T.
  - apply Nat.eqb_eq in T. exfalso. apply N. left. exact T.
  - f_equal. apply IH. intro I. apply N. right. exact I.
Qed.

Lemma map_id_replace {A : Type} (M : Model A) (x : A) (l : list A) :
  map (id_of M) (replace M x l) = map (id_of M) l.
Proof.
  unfold replace. induction l as [|d l IH]; simpl; [reflexivity|].
  rewrite IH. destruct (id_of M d =? id_of M x)%nat eqn:T; [|reflexivity].
  apply Nat.eqb_eq in T. rewrite T. reflexivity.
Qed.

Lemma nodup_key_replace {A : Type} (M : Model A) (key : A -> string) (x : A)
  (l : list A) :
  NoDup (map (id_of M) l) -> NoDup (map key l) ->
  (forall d, In d l -> id_of M d <> id_of M x -> key d <> key x) ->
  NoDup (map key (replace M x l)).
Proof.
  induction l as [|d l IH]; intros I K F; [constructor|].
  simpl in I, K. inversion I as [|? ? NI I']; subst.
  inversion K as [|? ? NK K']; subst.
  change (replace M x (d :: l))
    with ((if (id_of M d =? id_of M x)%nat then x else d) :: replace M x l).
  destruct (id_of M d =? id_of M x)%nat eqn:T.
  - apply Nat.eqb_eq in T. rewrite replace_absent by (rewrite <- T; exact NI).
    simpl. constructor; [|exact K'].
    intro Hin. apply in_map_iff in Hin. destruct Hin as [d' [E D]].
    apply (F d' (or_intror D)); [|exact E].
    intro E2. apply NI. rewrite T, <- E2. apply in_map. exact D.
  - apply Nat.eqb_neq in T. simpl. constructor.
    + intro Hin. apply in_map_iff in Hin. destruct Hin as [d' [E D]].
      apply (in_replace M) in D. destruct D as [D | [D _]].
      * apply NK. rewrite <- E. apply in_map. exact D.
      * subst d'. apply (F d (or_introl eq_refl) T). symmetry. exact E.
    + apply IH; [exact I' | exact K' |].
      intros d' D. apply F. right. exact D.
Qed.

Lemma keyed_replace {A : Type} (M : Model A) (keys : list (A -> string))
  (n : nat) (l : list A) (x : A) :
  keyed (id_of M) keys n l -> key_free (id_of M) keys x l ->
  keyed (id_of M) keys n (replace M x l).
Proof.
  intros [B [I K]] F. split; [|split].
  - rewrite Forall_forall in *. intros d D.
    apply (in_replace M) in D. destruct D as [D | [E [d' [D' Ed]]]].
    + apply B. exact D.
    + subst d. rewrite <- Ed. apply B. exact D'.
  - rewrite map_id_replace. exact I.
  - unfold key_free in F. rewrite Forall_forall in *. intros key Hk.
    apply nodup_key_replace; [exact I | apply K; exact Hk | apply F; exact Hk].
Qed.

Lemma nodup_map_filter {A B : Type} (g : A -> B) (f : A -> bool) (l : list A) :
  NoDup (map g l) -> NoDup (map g (filter f l)).
Proof.
  induction l as [|d l IH]; simpl; intro N; [constructor|].
  inversion N as [|? ? NI N']; subst.
  destruct (f d); simpl; [|apply IH; exact N'].
  constructor; [|apply IH; exact N'].
  intro Hin. apply NI. apply in_map_iff in Hin. destruct Hin as [d' [E D]].
  apply filter_In in D. rewrite <- E. apply in_map. exact (proj1 D).
Qed.

Lemma keyed_filter {A : Type} (idf : A -> nat) (keys : list (A -> string))
  (n : nat) (f : A -> bool) (l : list A) :
  keyed idf keys n l -> keyed idf keys n (filter f l).
Proof.
  intros [B [I K]]. split; [|split].
  - rewrite Forall_forall in *. intros d D. apply filter_In in D.
    apply B. exact (proj1 D).
  - apply nodup_map_filter. exact I.
  - eapply Forall_impl; [|exact K]. cbv beta. intros key.
    apply nodup_map_filter.
Qed.

Lemma existsb_false_forall {A : Type} (f : A -> bool) (l : list A) :
  existsb f l = false -> forall d, In d l -> f d = false.
Proof.
  intros H d D. destruct (f d) eqn:E; [|reflexivity].
  assert (X : existsb f l = true) by (apply existsb_exists; exists d; auto).
  congruence.
Qed.

Lemma clash_free_key {A : Type} (idf : A -> nat) (key : A -> string)
  (cl : A -> A -> bool) (x : A) (l : list A) :
  (forall d, cl d x = false -> key d <> key x) ->
  existsb (fun d => negb (idf d =? idf x)%nat && cl d x) l = false ->
  forall d, In d l -> idf d <> idf x -> key d <> key x.
Proof.
  intros C H d D N. apply C.
  pose proof (existsb_false_forall _ _ H d D) as E. cbv beta in E.
  apply Nat.eqb_neq in N. rewrite N in E. exact E.
Qed.

Lemma bike_key_free (ym : number) (x : Bike.t) (l : list Bike.t) :
  existsb (fun d => negb (id_of (BikeM ym) d =? id_of (BikeM ym) x)%nat
                    && clash (BikeM ym) d x) l = false ->
  key_free Bike._id [Bike.bikeNumber] x l.
Proof.
  intro H. constructor; [|constructor].
  apply (clash_free_key Bike._id Bike.bikeNumber (clash (BikeM ym))); [|exact H].
  intros d E. cbn [clash BikeM] in E. apply String.eqb_neq. exact E.
Qed.

Lemma customer_key_free (x : Customer.t) (l : list Customer.t) :
  existsb (fun d => negb (id_of CustomerM d =? id_of CustomerM x)%nat
                    && clash CustomerM d x) l = false ->
  key_free Customer._id [Customer.phone] x l.
Proof.
  intro H. constructor; [|constructor].
  apply (clash_free_key Customer._id Customer.phone (clash CustomerM)); [|exact H].
  intros d E. cbn [clash CustomerM] in E. apply String.eqb_neq. exact E.
Qed.

Lemma sale_key_free (x : Sale.t) (l : list Sale.t) :
  existsb (fun d => negb (id_of SaleM d =? id_of SaleM x)%nat
                    && clash SaleM d x) l = false ->
  key_free Sale._id [Sale.saleNumber; Sale.invoiceNumber] x l.
Proof.
  intro H. constructor; [|constructor; [|constructor]].
  - apply (clash_free_key Sale._id Sale.saleNumber (clash SaleM)); [|exact H].
    intros d E. cbn [clash SaleM] in E. apply orb_false_iff in E.
    apply String.eqb_neq. exact (proj1 E).
  - apply (clash_free_key Sale._id Sale.invoiceNumber (clash SaleM)); [|exact H].
    intros d E. cbn [clash SaleM] in E. apply orb_false_iff in E.
    apply String.eqb_neq. exact (proj2 E).
Qed.

Lemma payment_key_free (x : Payment.t) (l : list Payment.t) :
  key_free Payment._id [] x l.
Proof. constructor. Qed.


Ltac split_save_full H :=
  match type of H with
  | context [save ?M ?n ?d ?s] =>
      let E := fresh "E" in
      let V := fresh "V" in
      let U := fresh "U" in
      destruct (save_cases_full M n d s) as [E | [V [U E]]];
      rewrite E in H; clear E; cbv beta iota in H;
      try (cbn [coll with_coll BikeM CustomerM SaleM PaymentM
                bikes customers sales payments] in U)
  end.

Ltac walk_full H :=
  repeat first
    [ progress (cbv beta iota zeta in H)
    | match type of H with
      | context [save ?M ?n ?d ?s] => split_save_full H
      | context [if ?c then _ else _] => destruct c eqn:?
      | context [match ?c with Some _ => _ | None => _ end] => destruct c eqn:?
      end ].

Ltac ids_lia :=
  rewrite ?pre_save_bike_id, ?(fun c => proj1 (pre_save_customer_fields c));
  unfold Sale.pre_save, Payment.pre_save, Sale.set_invoicePath, Sales.newSale,
    Sales.newCustomer, Sales.charged, Sales.newPayment, Sales.soldBike;
  cbn [Bike._id Customer._id Sale._id Payment._id id_of BikeM CustomerM SaleM
       PaymentM];
  rewrite ?pre_save_bike_id, ?(fun c => proj1 (pre_save_customer_fields c));
  cbn [Bike._id Customer._id Sale._id Payment._id];
  lia.

Ltac key_free_solve :=
  first [ eapply bike_key_free; eassumption
        | eapply customer_key_free; eassumption
        | eapply sale_key_free; eassumption
        | apply payment_key_free ].

Ltac keyed_solve :=
  lazymatch goal with
  | |- keyed _ _ _ (replace ?M ?x ?l) =>
      apply (keyed_replace M); [keyed_solve | key_free_solve]
  | |- keyed _ _ _ (?l ++ [?x])%list =>
      eapply keyed_append; [eassumption | ids_lia | ids_lia | key_free_solve]
  | |- keyed _ _ _ (filter _ _) => apply keyed_filter; keyed_solve
  | |- keyed _ _ _ _ => eapply keyed_bump; [eassumption | cbn [nextId]; lia]
  end.

Ltac store_solve :=
  unfold store_ok; cbn [bikes customers sales payments nextId];
  split; [|split; [|split]]; keyed_solve.

(** every request keeps the store well formed *)
Lemma store_stays_ok (env : Env) (op : Op) (db db' : DB) (resp : Response) :
  store_ok db -> step env op db = (db', resp) -> store_ok db'.
Proof.
  intros [WB [WC [WS WP]]] H. unfold step, handler in H.
  destruct op.
  - unfold Sales.createSale in H. open_handler H.
    cbn [coll id_of BikeM CustomerM] in H.
    unfold Sales.generateInvoicePDF, ret, throw, answer in H.
    walk_full H; leaf H; store_solve.
  - unfold Customers.addCustomer in H. open_handler H.
    cbn [coll id_of CustomerM] in H. walk_full H; leaf H; store_solve.
  - unfold Customers.updateCustomer in H. open_handler H.
    cbn [coll id_of CustomerM] in H. walk_full H; leaf H; store_solve.
  - unfold Customers.deleteCustomer in H. open_handler H.
    cbn [coll id_of CustomerM SaleM] in H. walk_full H; leaf H; store_solve.
  - unfold Bikes.addBike in H. open_handler H. cbn [coll id_of BikeM] in H.
    walk_full H; leaf H; store_solve.
  - unfold Bikes.updateBike in H. open_handler H. cbn [coll id_of BikeM] in H.
    walk_full H; leaf H; store_solve.
  - unfold Bikes.deleteBike in H. open_handler H. cbn [coll id_of BikeM] in H.
    walk_full H; leaf H; store_solve.
  - unfold Payments.recordPayment in H. open_handler H.
    cbn [coll id_of PaymentM] in H. walk_full H; leaf H; store_solve.
  - unfold Payments.updatePayment in H. open_handler H.
    cbn [coll id_of PaymentM] in H. walk_full H; leaf H; store_solve.
  - unfold AI64.priceSuggestion in H. open_handler H. cbn [coll id_of BikeM] in H.
    walk_full H; leaf H; store_solve.
Qed.


(** ** The properties at concrete stores *)

Lemma bike_number_is_case_blind_witness :
  Bike.bikeNumber Cases.stored_scooter = "KA05MN7788"
  /\ exists body,
       run (Bikes.addBike Cases.april Cases.scooter_again) Cases.with_scooter
       = (Cases.with_scooter, mkResponse 400 body).
Proof.
  destruct (bike_number_is_case_blind Examples.env Cases.scooter Examples.sold_db
              Cases.with_scooter Cases.stored_scooter) as [N [I R]].
  - vm_compute. reflexivity.
  - vm_compute. reflexivity.
  - split; [rewrite N; vm_compute; reflexivity|].
    apply (R Cases.with_scooter Cases.stored_scooter); [exact I | reflexivity|].
    vm_compute. reflexivity.
Defined.

Lemma deleted_bike_is_gone_witness :
  find (fun d => Bike._id d =? 44)%nat (bikes Cases.without_stock) = None
  /\ run (Bikes.deleteBike Cases.april 44) Cases.without_stock
     = (Cases.without_stock, mkResponse 404 (Message "Bike not found")).
Proof.
  destruct (deleted_bike_is_gone Examples.env 44 Examples.market_db
              Cases.without_stock (Message "Bike deleted successfully"))
    as [G [_ [R _]]].
  - vm_compute. reflexivity.
  - split; [exact G | apply R].
Defined.

Lemma days_to_sell_ceiling_witness :
  exists d : Z,
    Bike.daysToSell (Bike.pre_save Examples.sold_bike) = Some (Fin (inject_Z d))
    /\ ((d - 1) * msPerDay < 1710000000000 - 1700000000000 <= d * msPerDay)%Z.
Proof.
  apply (days_to_sell_ceiling Examples.sold_bike 1710000000000 1700000000000).
  - vm_compute. reflexivity.
  - vm_compute. reflexivity.
Defined.

Lemma sold_bike_cannot_be_resold_witness :
  exists b,
    run (Sales.createSale Cases.april Examples.resale)
      (steps Cases.later Examples.sold_db)
    = (steps Cases.later Examples.sold_db, mkResponse 400 b).
Proof.
  apply (sold_bike_cannot_be_resold ScenarioA.env ScenarioA.req ScenarioA.db
           Examples.sold_db (snd ScenarioA.result)).
  - vm_compute. reflexivity.
  - vm_compute. reflexivity.
  - vm_compute. reflexivity.
Defined.

Lemma sale_discount_bounds_witness :
  In Cases.sale (sales ScenarioA.db)
  \/ (Num.leb n0 (Sale.discount Cases.sale) = true
      /\ Num.leb (Sale.discount Cases.sale) (Sale.sellingPrice Cases.sale) = true
      /\ Num.leb n0 (Sale.sellingPrice Cases.sale) = true).
Proof.
  apply (sale_discount_bounds ScenarioA.env ScenarioA.req ScenarioA.db
           Examples.sold_db (snd ScenarioA.result)).
  - vm_compute. reflexivity.
  - vm_compute. left. reflexivity.
Defined.

Lemma sale_upserts_customer_witness :
  exists s c,
    json (snd Cases.after_second) = SaleJson s
    /\ In c (customers (fst Cases.after_second))
    /\ Customer.phone c = "9876543210"
    /\ Sale.customerId s = Customer._id c
    /\ Customer._id c = Customer._id Examples.buyer
    /\ List.length (customers (fst Cases.after_second)) = 1%nat.
Proof.
  destruct (sale_upserts_customer Cases.april Cases.second_purchase
              Cases.stocked_db (fst Cases.after_second) (snd Cases.after_second))
    as [s [c [J [I [P [E M]]]]]].
  - vm_compute. reflexivity.
  - vm_compute. reflexivity.
  - exists s, c. split; [exact J|]. split; [exact I|].
    split; [rewrite P; vm_compute; reflexivity|]. split; [exact E|].
    assert (F : find (fun c0 => String.eqb (Customer.phone c0)
                                  (trim (Sales.buyerPhone Cases.second_purchase)))
                  (customers Cases.stocked_db) = Some Examples.buyer)
      by (vm_compute; reflexivity).
    rewrite F in M. destruct M as [M1 M2]. split; [exact M1|].
    rewrite M2. vm_compute. reflexivity.
Defined.


Lemma store_ok_steps (l : list (Env * Op)) (db : DB) :
  store_ok db -> store_ok (steps l db).
Proof.
  revert db. induction l as [|[env op] l IH]; intros db W; [exact W|].
  cbn [steps]. apply IH.
  destruct (step env op db) as [db' resp] eqn:H.
  apply (store_stays_ok env op db db' resp W H).
Qed.

Lemma empty_store_ok : store_ok Examples.empty_db.
Proof.
  unfold store_ok, keyed. cbn.
  repeat split; repeat constructor.
Qed.

(** X7. In every store that requests have built from the empty store, no two
    bikes have one bike number, no two customers one phone, and no two sales
    one sale number or one invoice number. *)
Theorem unique_keys_in_built_stores (l : list (Env * Op)) :
  NoDup (map Bike.bikeNumber (bikes (steps l Examples.empty_db)))
  /\ NoDup (map Customer.phone (customers (steps l Examples.empty_db)))
  /\ NoDup (map Sale.saleNumber (sales (steps l Examples.empty_db)))
  /\ NoDup (map Sale.invoiceNumber (sales (steps l Examples.empty_db))).
Proof.
  destruct (store_ok_steps l Examples.empty_db empty_store_ok)
    as [[_ [_ KB]] [[_ [_ KC]] [[_ [_ KS]] _]]].
  inversion KB as [|? ? B _]; subst.
  inversion KC as [|? ? C _]; subst.
  inversion KS as [|? ? S1 KS']; subst.
  inversion KS' as [|? ? S2 _]; subst.
  auto.
Qed.

(** X5. A sale number or an invoice number that a stored sale already has makes
    the sale request fail: it is not answered [201] and stores no sale. *)
Theorem used_number_fails (env : Env) (req : Sales.Request) (db db' : DB)
  (resp : Response) (s0 : Sale.t) :
  store_ok db ->
  In s0 (sales db) ->
  Sale.saleNumber s0 = Sales.saleNumber env
  \/ Sale.invoiceNumber s0 = Sales.invoiceNumber env ->
  run (Sales.createSale env req) db = (db', resp) ->
  statusCode resp <> 201%nat /\ sales db' = sales db.
Proof.
  intros [_ [_ [[B _] _]]] I K H.
  rewrite Forall_forall in B. specialize (B s0 I).
  unfold Sales.createSale in H. open_handler H.
  cbn [coll id_of BikeM CustomerM] in H.
  unfold Sales.generateInvoicePDF, ret, throw, answer in H.
  destruct (negb (Sales.validationResult req)) in H; [leaf H; split; [discriminate | reflexivity]|].
  destruct (find _ (bikes db)) as [bike|] in H; [|leaf H; split; [discriminate | reflexivity]].
  destruct (negb (Bike.status bike =? "available")%string) in H;
    [leaf H; split; [discriminate | reflexivity]|].
  assert (X : forall c sid d,
             (nextId db <= sid)%nat ->
             coll SaleM d = sales db ->
             existsb (fun x => negb (id_of SaleM x =? id_of SaleM
                                      (pre_save SaleM (Sales.newSale env req bike c sid)))%nat
                               && clash SaleM x
                                    (pre_save SaleM (Sales.newSale env req bike c sid)))
                     (coll SaleM d) = false -> False).
  { intros c sid d L E U. rewrite E in U.
    pose proof (existsb_false_forall _ _ U s0 I) as F. cbv beta in F.
    cbn [id_of clash SaleM pre_save Sale.pre_save Sales.newSale Sale._id
         Sale.saleNumber Sale.invoiceNumber] in F.
    assert (N : (Sale._id s0 =? sid)%nat = false) by (apply Nat.eqb_neq; lia).
    rewrite N in F. cbn [negb andb] in F. apply orb_false_iff in F.
    destruct F as [F1 F2]. apply String.eqb_neq in F1. apply String.eqb_neq in F2.
    destruct K; contradiction. }
  destruct (find _ (customers db)) as [c0|] in H; cbv beta iota zeta in H.
  - split_save_full H; [leaf H; split; [discriminate | reflexivity]|].
    exfalso. eapply (X c0 (nextId db)); [lia | | exact U]. reflexivity.
  - split_save_full H; [leaf H; split; [discriminate | reflexivity]|].
    split_save_full H; [leaf H; split; [discriminate | reflexivity]|].
    exfalso.
    match type of U0 with
    | context [Sales.newSale env req bike ?c ?sid] =>
        eapply (X c sid); [cbn [nextId]; lia | | exact U0]
    end.
    reflexivity.
Qed.

Lemma used_number_fails_witness :
  statusCode (snd (run (Sales.createSale Cases.april_same_draw Cases.second_purchase)
                     Cases.stocked_db)) <> 201%nat
  /\ sales (fst (run (Sales.createSale Cases.april_same_draw Cases.second_purchase)
                   Cases.stocked_db)) = sales Cases.stocked_db.
Proof.
  apply (used_number_fails Cases.april_same_draw Cases.second_purchase
           Cases.stocked_db _ _ Cases.sale).
  - unfold store_ok, keyed. vm_compute.
    repeat split; repeat constructor; simpl; try lia;
      intuition (try discriminate; try lia).
  - vm_compute. left. reflexivity.
  - right. vm_compute. reflexivity.
  - vm_compute. reflexivity.
Defined.


Lemma find_app_fresh {A : Type} (M : Model A) (l : list A) (x : A) (n : nat) :
  Forall (fun d => id_of M d < n)%nat l -> (n <= id_of M x)%nat ->
  find (fun d => id_of M d =? id_of M x)%nat (l ++ [x]) = Some x.
Proof.
  intros B L. induction l as [|d l IH]; simpl.
  - rewrite Nat.eqb_refl. reflexivity.
  - inversion B as [|? ? D B']; subst.
    assert (N : (id_of M d =? id_of M x)%nat = false) by (apply Nat.eqb_neq; lia).
    rewrite N. apply IH. exact B'.
Qed.

(** X4. The payment that a sale creates is closed from the start: after a sale
    request answered [201] with a positive final amount, every request to
    record a payment on the payment just created is answered [400] and
    leaves the store as it is. *)
Theorem sale_payment_is_closed (env : Env) (req : Sales.Request) (db db' : DB)
  (resp : Response) :
  store_ok db ->
  run (Sales.createSale env req) db = (db', resp) ->
  statusCode resp = 201%nat ->
  Num.gtb (Sales.finalAmount req) n0 = true ->
  exists p,
    payments db' = (payments db ++ [p])%list
    /\ forall req2, exists b,
         run (Payments.recordPayment (Payment._id p) req2) db'
         = (db', mkResponse 400 b).
Proof.
  intros [_ [_ [_ [B _]]]] H C P. unfold Sales.finalAmount in P.
  sale_walk H; try discriminate C; try discriminate P.
  all: eexists; split; [reflexivity|]; intro req2;
    match goal with
    | V : validate SaleM (Sales.newSale _ _ _ _ _) = true |- _ =>
        destruct (sale_valid_amounts _ V) as [D F];
        unfold Sales.newSale in D, F; cbn [Sale.discount Sale.finalAmount] in D, F;
        destruct (finalAmount_finite req VR D F) as [q [Q Q0]]
    end;
    unfold Sales.finalAmount in Q;
    eapply nothing_remaining_refused;
    [ cbn [payments];
      apply (find_app_fresh PaymentM _ _ (nextId db) B);
      unfold Payment.pre_save, Sales.newPayment; cbn [id_of PaymentM Payment._id]; lia
    | unfold Payment.pre_save, Sales.newPayment; cbn [Payment.remainingAmount];
      rewrite Q; simpl; apply Qle_bool_iff; lra ].
Qed.

Lemma sale_payment_is_closed_witness :
  exists p,
    payments Examples.sold_db = (payments ScenarioA.db ++ [p])%list
    /\ exists b,
         run (Payments.recordPayment (Payment._id p) (Examples.pay (Fin 100)))
           Examples.sold_db
         = (Examples.sold_db, mkResponse 400 b).
Proof.
  destruct (sale_payment_is_closed ScenarioA.env ScenarioA.req ScenarioA.db
              Examples.sold_db (snd ScenarioA.result)) as [p [E R]].
  - unfold store_ok, keyed. vm_compute.
    repeat split; repeat constructor; simpl; try lia;
      intuition (try discriminate; try lia).
  - vm_compute. reflexivity.
  - vm_compute. reflexivity.
  - vm_compute. reflexivity.
  - exists p. split; [exact E | apply R].
Defined.


(** ** Sale numbers *)

Lemma append_assoc_s (a b c : string) : ((a ++ b) ++ c = a ++ (b ++ c))%string.
Proof.
  induction a as [|x a IH]; simpl; [reflexivity|]. rewrite IH. reflexivity.
Qed.

Lemma substring_all (r : string) : substring 0 (String.length r) r = r.
Proof.
  induction r as [|c r IH]; simpl; [reflexivity|]. rewrite IH. reflexivity.
Qed.

Lemma substring_suffix (p r : string) :
  substring (String.length (p ++ r) - String.length r) (String.length r) (p ++ r) = r.
Proof.
  induction p as [|c p IH].
  - simpl. rewrite Nat.sub_diag. apply substring_all.
  - simpl String.append. simpl String.length.
    assert (E : (S (String.length (p ++ r)) - String.length r
                 = S (String.length (p ++ r) - String.length r))%nat).
    { assert (L : (String.length r <= String.length (p ++ r))%nat).
      { clear IH. induction p as [|c' p IHp]; simpl; lia. }
      lia. }
    rewrite E. simpl. exact IH.
Qed.

Lemma pad3_read_back (r : nat) :
  (r < 1000)%nat ->
  String.length (padStart 3 "0" (nat_to_string r)) = 3%nat
  /\ option_map Nat.of_uint
       (NilZero.uint_of_string (padStart 3 "0" (nat_to_string r))) = Some r.
Proof.
  intro L.
  assert (A : forallb
                (fun n =>
                   (String.length (padStart 3 "0" (nat_to_string n)) =? 3)%nat
                   && match option_map Nat.of_uint
                              (NilZero.uint_of_string
                                 (padStart 3 "0" (nat_to_string n))) with
                      | Some m => (m =? n)%nat
                      | None => false
                      end)
                (seq 0 1000) = true) by (vm_compute; reflexivity).
  rewrite forallb_forall in A. specialize (A r).
  assert (I : In r (seq 0 1000)) by (apply in_seq; lia).
  specialize (A I). apply andb_true_iff in A. destruct A as [A1 A2].
  apply Nat.eqb_eq in A1. split; [exact A1|].
  destruct (option_map Nat.of_uint _) as [m|]; [|discriminate].
  apply Nat.eqb_eq in A2. rewrite A2. reflexivity.
Qed.

Lemma draw_of_numbers (env : Env) :
  (random1000 env < 1000)%nat ->
  draw_of (Sales.saleNumber env) = Some (random1000 env)
  /\ draw_of (Sales.invoiceNumber env) = Some (random1000 env).
Proof.
  intro L. destruct (pad3_read_back (random1000 env) L) as [Len P].
  unfold draw_of, Sales.saleNumber, Sales.invoiceNumber. cbv zeta.
  set (r := padStart 3 "0" (nat_to_string (random1000 env))) in *.
  split.
  - replace ("SAL-" ++ nat_to_string (fullYear env)
             ++ padStart 2 "0" (nat_to_string (monthIndex env + 1)) ++ "-" ++ r)
      with (("SAL-" ++ nat_to_string (fullYear env)
             ++ padStart 2 "0" (nat_to_string (monthIndex env + 1)) ++ "-") ++ r).
    + rewrite <- Len at 1 2. rewrite substring_suffix. exact P.
    + rewrite !append_assoc_s. reflexivity.
  - replace ("SB-" ++ nat_to_string (fullYear env) ++ "-" ++ r)
      with (("SB-" ++ nat_to_string (fullYear env) ++ "-") ++ r).
    + rewrite <- Len at 1 2. rewrite substring_suffix. exact P.
    + rewrite !append_assoc_s. reflexivity.
Qed.

(** X6. The random draw can be read back from the sale number and from the
    invoice number, whatever the year and the month; so requests with
    different draws never get the same sale number or invoice number. *)
Theorem draw_read_back (env : Env) :
  (random1000 env < 1000)%nat ->
  draw_of (Sales.saleNumber env) = Some (random1000 env)
  /\ draw_of (Sales.invoiceNumber env) = Some (random1000 env).
Proof.
  apply draw_of_numbers.
Qed.

Lemma draw_read_back_witness :
  draw_of (Sales.saleNumber ScenarioA.env) = Some 7%nat
  /\ draw_of (Sales.invoiceNumber ScenarioA.env) = Some 7%nat.
Proof.
  apply (draw_read_back ScenarioA.env). vm_compute. lia.
Defined.

(** two requests whose draws differ get different sale numbers and different
    invoice numbers *)
Lemma different_draws_different_numbers (e1 e2 : Env) :
  (random1000 e1 < 1000)%nat -> (random1000 e2 < 1000)%nat ->
  random1000 e1 <> random1000 e2 ->
  Sales.saleNumber e1 <> Sales.saleNumber e2
  /\ Sales.invoiceNumber e1 <> Sales.invoiceNumber e2.
Proof.
  intros L1 L2 N.
  destruct (draw_of_numbers e1 L1) as [A1 B1].
  destruct (draw_of_numbers e2 L2) as [A2 B2].
  split; intro E; [rewrite E in A1 | rewrite E in B1]; congruence.
Qed.


(** ** Demand predictions *)

Lemma push_present (b : string) (pt : Demand.Point) (P : string -> list Demand.Point)
  (ks : list string) :
  NoDup ks -> In b ks ->
  Demand.push b pt (map (fun k => (k, P k)) ks)
  = map (fun k => (k, if String.eqb k b then (P k ++ [pt])%list else P k)) ks.
Proof.
  induction ks as [|k ks IH]; intros N I; [contradiction|].
  inversion N as [|? ? NI N']; subst. simpl.
  destruct (String.eqb k b) eqn:E.
  - apply String.eqb_eq in E. subst k. f_equal.
    apply map_ext_in. intros k Hk.
    destruct (String.eqb k b) eqn:E2; [|reflexivity].
    apply String.eqb_eq in E2. subst k. contradiction.
  - f_equal. apply IH; [exact N'|].
    destruct I as [I | I]; [|exact I].
    subst k. rewrite String.eqb_refl in E. discriminate.
Qed.

Lemma push_absent (b : string) (pt : Demand.Point) (P : string -> list Demand.Point)
  (ks : list string) :
  ~ In b ks ->
  Demand.push b pt (map (fun k => (k, P k)) ks)
  = (map (fun k => (k, P k)) ks ++ [(b, [pt])])%list.
Proof.
  induction ks as [|k ks IH]; intro N; [reflexivity|]. simpl.
  destruct (String.eqb k b) eqn:E.
  - apply String.eqb_eq in E. subst k. exfalso. apply N. left. reflexivity.
  - f_equal. apply IH. intro I. apply N. right. exact I.
Qed.

Lemma points_of_snoc (b : string) (rows : list Demand.Row) (r : Demand.Row) :
  points_of b (rows ++ [r])
  = (points_of b rows
     ++ if String.eqb (Demand.brand r) b
        then [Demand.mkPoint (Demand.month r) (Demand.sales r) (Demand.avgProfit r)]
        else [])%list.
Proof.
  unfold points_of. rewrite filter_app, map_app. simpl.
  destruct (String.eqb (Demand.brand r) b); reflexivity.
Qed.

Lemma brands_of_snoc (rows : list Demand.Row) (r : Demand.Row) :
  brands_of (rows ++ [r])
  = if existsb (String.eqb (Demand.brand r)) (brands_of rows) then brands_of rows
    else (brands_of rows ++ [Demand.brand r])%list.
Proof. unfold brands_of. rewrite fold_left_app. reflexivity. Qed.

Lemma existsb_eqb_in (b : string) (l : list string) :
  existsb (String.eqb b) l = true <-> In b l.
Proof.
  rewrite existsb_exists. split.
  - intros [x [I E]]. apply String.eqb_eq in E. subst x. exact I.
  - intro I. exists b. split; [exact I | apply String.eqb_refl].
Qed.

Lemma brands_of_spec (rows : list Demand.Row) :
  NoDup (brands_of rows)
  /\ forall b, In b (brands_of rows) <-> In b (map Demand.brand rows).
Proof.
  induction rows as [|r rows IH] using rev_ind.
  - split; [constructor | intro b; simpl; tauto].
  - destruct IH as [N M]. rewrite brands_of_snoc.
    destruct (existsb (String.eqb (Demand.brand r)) (brands_of rows)) eqn:E.
    + apply existsb_eqb_in in E. split; [exact N|].
      intro b. rewrite map_app, in_app_iff, <- M. simpl.
      split; [tauto|]. intros [I | [I | []]]; [exact I | subst b; exact E].
    + assert (NI : ~ In (Demand.brand r) (brands_of rows)).
      { intro I. apply existsb_eqb_in in I. congruence. }
      split.
      * apply NoDup_app; [exact N | repeat constructor; auto|].
        intros x Hx [Ex | []]. subst x. contradiction.
      * intro b. rewrite map_app, !in_app_iff, <- M. simpl. tauto.
Qed.

Lemma group_by_brand (rows : list Demand.Row) :
  Forall Demand.own_brand rows ->
  Demand.group rows = Some (map (fun b => (b, points_of b rows)) (brands_of rows)).
Proof.
  unfold Demand.group.
  induction rows as [|r rows IH] using rev_ind; intro O; [reflexivity|].
  apply Forall_app in O. destruct O as [O Or].
  inversion Or as [|? ? Ob _]; subst. unfold Demand.own_brand in Ob.
  rewrite fold_left_app. cbn [fold_left]. rewrite (IH O), brands_of_snoc.
  unfold Demand.record_point. rewrite Ob. f_equal.
  destruct (brands_of_spec rows) as [N _].
  destruct (existsb (String.eqb (Demand.brand r)) (brands_of rows)) eqn:E.
  - apply existsb_eqb_in in E. rewrite (push_present _ _ _ _ N E).
    apply map_ext. intro k. rewrite points_of_snoc.
    rewrite (String.eqb_sym k).
    destruct (String.eqb (Demand.brand r) k); [reflexivity|].
    rewrite app_nil_r. reflexivity.
  - assert (NI : ~ In (Demand.brand r) (brands_of rows)).
    { intro I. apply existsb_eqb_in in I. congruence. }
    rewrite (push_absent _ _ _ _ NI), map_app. cbn [map]. f_equal.
    + apply map_ext_in. intros k Hk. rewrite points_of_snoc.
      destruct (String.eqb (Demand.brand r) k) eqn:E2.
      * apply String.eqb_eq in E2. subst k. contradiction.
      * rewrite app_nil_r. reflexivity.
    + rewrite points_of_snoc, String.eqb_refl.
      assert (Z : points_of (Demand.brand r) rows = []).
      { unfold points_of.
        assert (F : filter (fun r0 => String.eqb (Demand.brand r0) (Demand.brand r)) rows = []).
        { apply filter_nil_forall. intros x Hx.
          apply String.eqb_neq. intro Eb. apply NI.
          apply (proj2 (brands_of_spec rows)). rewrite <- Eb.
          apply in_map. exact Hx. }
        rewrite F. reflexivity. }
      rewrite Z. reflexivity.
Qed.

Lemma insert_key_perm (e : N * (string * list Demand.Point))
  (l : list (N * (string * list Demand.Point))) :
  Permutation (Demand.insert_key e l) (e :: l).
Proof.
  induction l as [|y l IH]; simpl; [apply Permutation_refl|].
  destruct (fst e <=? fst y)%N; [apply Permutation_refl|].
  eapply Permutation_trans; [apply perm_skip; exact IH | apply perm_swap].
Qed.

Lemma own_keys_perm (bt : list (string * list Demand.Point)) :
  Permutation (Demand.own_keys bt) bt.
Proof.
  unfold Demand.own_keys. induction bt as [|e bt IH]; [constructor|].
  cbn [fold_right filter]. destruct (Demand.array_index (fst e)) as [n|].
  - eapply Permutation_trans.
    + apply Permutation_app_tail. apply Permutation_map. apply insert_key_perm.
    + cbn [map snd app]. apply perm_skip. exact IH.
  - apply Permutation_sym. apply Permutation_cons_app. apply Permutation_sym. exact IH.
Qed.

Lemma insert_perm (x : Demand.Prediction) (l : list Demand.Prediction) :
  Permutation (Demand.insert x l) (x :: l).
Proof.
  induction l as [|y l IH]; simpl; [apply Permutation_refl|].
  destruct (Num.leb (Demand.compare x y) n0); [apply Permutation_refl|].
  eapply Permutation_trans; [apply perm_skip; exact IH | apply perm_swap].
Qed.

Lemma sort_perm (l : list Demand.Prediction) : Permutation (Demand.sort l) l.
Proof.
  induction l as [|x l IH]; simpl; [constructor|].
  eapply Permutation_trans; [apply insert_perm | apply perm_skip; exact IH].
Qed.

Lemma predict_brand (e : string * list Demand.Point) :
  Demand.pr_brand (Demand.predict e) = fst e.
Proof. destruct e. reflexivity. Qed.

Lemma predictions_of_own (rows : list Demand.Row) :
  Forall Demand.own_brand rows ->
  exists l,
    Demand.generateDemandPredictions rows = Some (Demand.sort l)
    /\ Permutation l
         (map (fun b => Demand.predict (b, points_of b rows)) (brands_of rows)).
Proof.
  intro O. unfold Demand.generateDemandPredictions. rewrite (group_by_brand rows O).
  eexists. split; [reflexivity|].
  rewrite <- (map_map (fun b => (b, points_of b rows)) Demand.predict).
  apply Permutation_map. apply own_keys_perm.
Qed.

(** X20. When no brand is the name of an inherited member, the predictions are
    one per brand that occurs in the rows, and each is computed from the
    rows of its brand, in the order of the rows. *)
Theorem predictions_by_brand (rows : list Demand.Row) :
  Forall Demand.own_brand rows ->
  exists out,
    Demand.generateDemandPredictions rows = Some out
    /\ Permutation out
         (map (fun b => Demand.predict (b, points_of b rows)) (brands_of rows))
    /\ NoDup (map Demand.pr_brand out)
    /\ forall b, In b (map Demand.pr_brand out) <-> In b (map Demand.brand rows).
Proof.
  intro O. destruct (predictions_of_own rows O) as [l [G Pl]].
  exists (Demand.sort l). split; [exact G|].
  assert (P : Permutation (Demand.sort l)
                (map (fun b => Demand.predict (b, points_of b rows)) (brands_of rows))).
  { eapply Permutation_trans; [apply sort_perm | exact Pl]. }
  assert (B : map Demand.pr_brand
                (map (fun b => Demand.predict (b, points_of b rows)) (brands_of rows))
              = brands_of rows).
  { rewrite map_map. rewrite <- (map_id (brands_of rows)) at 2.
    apply map_ext. intro b. reflexivity. }
  destruct (brands_of_spec rows) as [N M].
  split; [exact P|]. split.
  - apply (Permutation_NoDup (l := brands_of rows)); [|exact N].
    rewrite <- B. apply Permutation_map. apply Permutation_sym. exact P.
  - intro b. rewrite <- M, <- B. split; apply Permutation_in; apply Permutation_map;
      [exact P | apply Permutation_sym; exact P].
Qed.

Lemma predictions_by_brand_witness :
  exists out,
    Demand.generateDemandPredictions DemandCases.rows = Some out
    /\ map Demand.pr_brand out = ["Yamaha"; "Honda"; "KTM"].
Proof.
  destruct (predictions_by_brand DemandCases.rows) as [out [G _]].
  - repeat constructor.
  - exists out. split; [exact G|].
    assert (E : Some out = Demand.generateDemandPredictions DemandCases.rows)
      by (symmetry; exact G).
    vm_compute in E. injection E as E. rewrite E. reflexivity.
Defined.




Lemma sum_sales_finite (pts : list Demand.Point) (a : Q) :
  (forall p, In p pts -> exists s, Demand.p_sales p = Fin s) ->
  exists q, fold_left (fun sum t => Num.add sum (Demand.p_sales t)) pts (Fin a) = Fin q.
Proof.
  revert a. induction pts as [|p pts IH]; intros a F; simpl.
  - exists a. reflexivity.
  - destruct (F p (or_introl eq_refl)) as [s E]. rewrite E. simpl.
    apply IH. intros p' I. apply F. right. exact I.
Qed.

Lemma finite_avg (b : string) (pts : list Demand.Point) :
  pts <> [] ->
  (forall p, In p pts -> exists s, Demand.p_sales p = Fin s) ->
  exists q, Demand.avgMonthlySales (Demand.predict (b, pts)) = Fin q.
Proof.
  intros N F. unfold Demand.predict. cbv zeta. cbn [Demand.avgMonthlySales].
  destruct (sum_sales_finite pts 0 F) as [q E]. unfold n0. rewrite E.
  unfold Num.of_nat. cbn [Num.div].
  assert (L : Qeq_bool (inject_Z (Z.of_nat (List.length pts))) 0 = false).
  { apply Qeq_bool_false. intro X. unfold Qeq in X. simpl in X.
    destruct pts; [contradiction | simpl in X; lia]. }
  rewrite L. cbn [Num.round]. eexists. reflexivity.
Qed.

Lemma insert_sorted (x : Demand.Prediction) (l : list Demand.Prediction) :
  (exists q, Demand.avgMonthlySales x = Fin q) ->
  (forall y, In y l -> exists q, Demand.avgMonthlySales y = Fin q) ->
  StronglySorted by_sales l -> StronglySorted by_sales (Demand.insert x l).
Proof.
  intros [qx Ex] F S. induction S as [|y l S IH A].
  - simpl. constructor; constructor.
  - simpl. destruct (F y (or_introl eq_refl)) as [qy Ey].
    unfold Demand.compare. rewrite Ex, Ey. cbn [Num.sub Num.neg Num.add Num.leb n0].
    destruct (Qle_bool (qy + - qx) 0) eqn:C.
    + apply Qle_bool_iff in C.
      assert (XY : by_sales x y).
      { unfold by_sales, Num.geb. rewrite Ex, Ey. simpl. apply Qle_bool_iff. lra. }
      constructor; [constructor; assumption|].
      constructor; [exact XY|].
      rewrite Forall_forall in *. intros z Z. specialize (A z Z).
      unfold by_sales, Num.geb in *. apply (leb_trans _ _ _ A XY).
    + assert (YX : by_sales y x).
      { unfold by_sales, Num.geb. rewrite Ex, Ey. simpl. apply Qle_bool_iff.
        destruct (Qlt_le_dec 0 (qy + - qx)) as [G | G]; [lra|].
        apply Qle_bool_iff in G. congruence. }
      constructor.
      * apply IH. intros z Z. apply F. right. exact Z.
      * rewrite Forall_forall in *. intros z Z.
        apply (Permutation_in _ (insert_perm x l)) in Z.
        destruct Z as [Z | Z]; [subst z; exact YX | apply A; exact Z].
Qed.

Lemma sort_sorted (l : list Demand.Prediction) :
  (forall y, In y l -> exists q, Demand.avgMonthlySales y = Fin q) ->
  StronglySorted by_sales (Demand.sort l).
Proof.
  induction l as [|x l IH]; intro F; simpl; [constructor|].
  apply insert_sorted.
  - apply F. left. reflexivity.
  - intros y Y. apply (Permutation_in _ (sort_perm l)) in Y. apply F. right. exact Y.
  - apply IH. intros y Y. apply F. right. exact Y.
Qed.

(** X21. For rows with finite sales counts (and no brand that is an inherited
    name) the predictions come sorted by average monthly sales, highest
    first. *)
Theorem predictions_sorted (rows : list Demand.Row) :
  Forall Demand.own_brand rows ->
  Forall Demand.finite_sales rows ->
  exists out,
    Demand.generateDemandPredictions rows = Some out
    /\ StronglySorted by_sales out.
Proof.
  intros O F. destruct (predictions_of_own rows O) as [l [G Pl]].
  exists (Demand.sort l). split; [exact G|]. apply sort_sorted.
  intros y Y. apply (Permutation_in _ Pl) in Y.
  apply in_map_iff in Y. destruct Y as [b [E B]]. subst y.
  apply finite_avg.
  - apply (proj2 (brands_of_spec rows)) in B. apply in_map_iff in B.
    destruct B as [r [Eb R]]. unfold points_of.
    intro Z. apply map_eq_nil in Z.
    rewrite filter_nil_forall in Z. specialize (Z r R). cbv beta in Z.
    rewrite Eb, String.eqb_refl in Z. discriminate.
  - intros p P. unfold points_of in P. apply in_map_iff in P.
    destruct P as [r [Ep R]]. apply filter_In in R. destruct R as [R _].
    rewrite Forall_forall in F. destruct (F r R) as [s S].
    exists s. subst p. exact S.
Qed.

Lemma predictions_sorted_witness :
  exists out,
    Demand.generateDemandPredictions DemandCases.rows = Some out
    /\ StronglySorted by_sales out.
Proof.
  apply (predictions_sorted DemandCases.rows).
  - repeat constructor.
  - repeat constructor; eexists; reflexivity.
Defined.

(** X22. A brand with a single row (sales in one month only) is predicted
    stable, whatever its sales are. *)
Theorem single_row_is_stable (rows : list Demand.Row) (b : string) :
  Forall Demand.own_brand rows ->
  List.length (filter (fun r => String.eqb (Demand.brand r) b) rows) = 1%nat ->
  exists out pr,
    Demand.generateDemandPredictions rows = Some out
    /\ In pr out /\ Demand.pr_brand pr = b /\ Demand.trend pr = "stable".
Proof.
  intros O L. destruct (predictions_of_own rows O) as [l [G Pl]].
  exists (Demand.sort l), (Demand.predict (b, points_of b rows)).
  split; [exact G|]. split; [|split].
  - apply (Permutation_in _ (Permutation_sym (sort_perm _))).
    apply (Permutation_in _ (Permutation_sym Pl)).
    apply in_map_iff. exists b.
    split; [reflexivity|]. apply (proj2 (brands_of_spec rows)).
    destruct (filter (fun r => String.eqb (Demand.brand r) b) rows) as [|r l'] eqn:F;
      [discriminate|].
    assert (I : In r (filter (fun r => String.eqb (Demand.brand r) b) rows))
      by (rewrite F; left; reflexivity).
    apply filter_In in I. destruct I as [I E]. apply String.eqb_eq in E.
    rewrite <- E. apply in_map. exact I.
  - reflexivity.
  - unfold Demand.predict, Demand.trendDirection. cbv zeta. cbn [Demand.trend].
    unfold points_of. rewrite length_map, L. reflexivity.
Qed.

Lemma single_row_is_stable_witness :
  exists out pr,
    Demand.generateDemandPredictions DemandCases.rows = Some out
    /\ In pr out /\ Demand.pr_brand pr = "KTM" /\ Demand.trend pr = "stable".
Proof.
  apply (single_row_is_stable DemandCases.rows "KTM").
  - repeat constructor.
  - reflexivity.
Defined.

(** ** The price suggestion grows with year and condition *)

Lemma sum_nonneg (prices : list Q) (a : Q) :
  0 <= a -> Forall (fun p => 0 <= p) prices -> 0 <= fold_left Qplus prices a.
Proof.
  revert a. induction prices as [|p l IH]; intros a A F; simpl; [exact A|].
  inversion F; subst. apply IH; [lra | assumption].
Qed.

(** X19. Against the same comparable bikes with prices that are not negative, a
    bike that is not older and not in worse condition is never suggested a
    lower price. *)
Theorem newer_and_better_never_cheaper (env : Env) (bike bike' : Bike.t)
  (l : list Bike.t) (prices : list Q) (y r y' r' : Q) :
  l <> [] ->
  map (fun b => toNumber (Bike.sellPrice b)) l = map Fin prices ->
  Forall (fun p => 0 <= p) prices ->
  Bike.year bike = Some (Fin y) -> Bike.conditionRating bike = Some (Fin r) ->
  Bike.year bike' = Some (Fin y') -> Bike.conditionRating bike' = Some (Fin r') ->
  ~ r == 0 -> ~ r' == 0 ->
  y <= y' -> r <= r' ->
  Num.leb (suggestedPrice (AI.generatePriceSuggestion env bike l))
          (suggestedPrice (AI.generatePriceSuggestion env bike' l)) = true.
Proof.
  intros N P F Y R Y' R' Z Z' LY LR.
  rewrite !suggestion_of_comparables; try assumption.
  - rewrite (suggested_in_rationals _ _ _ prices y r N P Y R).
    rewrite (suggested_in_rationals _ _ _ prices y' r' N P Y' R').
    cbn [Num.leb]. apply Qle_bool_iff. rewrite <- Zle_Qle.
    apply Qfloor_resp_le.
    apply Qplus_le_l.
    set (avg := fold_left Qplus prices 0 / inject_Z (Z.of_nat (List.length prices))).
    assert (A : 0 <= avg).
    { unfold avg. apply Qle_shift_div_l.
      - destruct prices as [|p ps].
        + destruct l; [contradiction | discriminate].
        + rewrite <- (Zlt_Qlt 0). simpl. lia.
      - rewrite Qmult_0_l. apply sum_nonneg; [lra | assumption]. }
    set (yr := inject_Z (Z.of_nat (fullYear env))).
    rewrite !(Qmult_comm avg).
    apply Qmult_le_compat_r; [|exact A]. lra.
  - right. exists (Fin r'). split; [assumption|].
    simpl. destruct (Qeq_bool r' 0) eqn:E; [|reflexivity].
    apply Qeq_bool_iff in E. contradiction.
  - right. exists (Fin r). split; [assumption|].
    simpl. destruct (Qeq_bool r 0) eqn:E; [|reflexivity].
    apply Qeq_bool_iff in E. contradiction.
Qed.

Lemma newer_and_better_never_cheaper_witness :
  Num.leb
    (suggestedPrice (AI.generatePriceSuggestion Examples.env Market.worn Market.comparables))
    (suggestedPrice (AI.generatePriceSuggestion Examples.env Examples.stock Market.comparables))
  = true.
Proof.
  apply (newer_and_better_never_cheaper Examples.env Market.worn Examples.stock
           Market.comparables [100000; 110000; 120000] 2021 6 2022 9).
  - discriminate.
  - reflexivity.
  - repeat constructor; discriminate.
  - reflexivity.
  - reflexivity.
  - reflexivity.
  - reflexivity.
  - intro E. discriminate E.
  - intro E. discriminate E.
  - discriminate.
  - discriminate.
Defined.
